(** * DiskDump: the command-line disk image tool (tools/diskdump/modules/diskdump.js)

    A shallow embedding of the file-tree reader ([readDir], [readDirFiles]),
    the text normaliser, [readFile], [compareDisks], [writeDisk] and the
    archive-verification block of [main], followed by the properties of
    these functions. *)

From Stdlib Require Import ZArith List String Ascii Bool Lia.
From stdpp Require Import gmap strings list.

Local Open Scope Z_scope.
Set Warnings "-register-all,-notation-for-abbreviation".
Set Default Proof Using "Type".

(** ** JavaScript values used by the module *)

(** A JavaScript string holding file content: its sequence of UTF-16 code
    units ([charCodeAt] reads one of them). File names and paths are kept as
    [string], the bytes of their UTF-8 form: the ASCII characters the module
    looks for (".", "/", the extensions) are single characters there, and
    a prefix or suffix of a name is one of the [string]. *)
Definition jsstring := list Z.

(** The buffer of a [DataBuffer]: a sequence of bytes; [length] is its
    [length] property. *)
Definition DataBuffer := list Byte.byte.

#[global] Instance byte_eq_decision : EqDecision Byte.byte := Byte.byte_eq_dec.

Module JS.

Definition CR : Z := 13.
Definition LF : Z := 10.

(** The upper-case form of one ASCII character: a-z become A-Z. *)
Definition upperAscii (c : ascii) : ascii :=
  let n := nat_of_ascii c in
  if ((97 <=? n) && (n <=? 122))%nat then ascii_of_nat (n - 32) else c.

(** What [toUpperCase] makes of a string of ASCII characters. The method
    itself, which also maps characters beyond ASCII (U+017F to "S", U+0131
    to "I"), is part of the runtime below. *)
Fixpoint upperASCII (s : string) : string :=
  match s with
  | EmptyString => EmptyString
  | String c t => String (upperAscii c) (upperASCII t)
  end.

(** Every character of [s] is an ASCII character (below 128). *)
Fixpoint plain (s : string) : bool :=
  match s with
  | EmptyString => true
  | String c t => (nat_of_ascii c <? 128)%nat && plain t
  end.

(** [upperASCII] goes through a concatenation. *)
Fixpoint upperASCII_app (a b : string) :
    upperASCII (a +:+ b) = upperASCII a +:+ upperASCII b :=
  match a with
  | EmptyString => eq_refl
  | String c t => f_equal (String (upperAscii c)) (upperASCII_app t b)
  end.

(** [s.endsWith(suffix)] *)
Definition endsWith (s suffix : string) : bool :=
  let ls := String.length s in
  let lf := String.length suffix in
  if (lf <=? ls)%nat then String.eqb (substring (ls - lf) lf s) suffix else false.

(** [s.indexOf(t)]: the position of the first occurrence, [-1] if none. *)
Definition indexOf (s t : string) : Z :=
  match index 0 t s with
  | Some i => Z.of_nat i
  | None => -1
  end.

(** [s.substr(0, n)] *)
Definition substr0 (s : string) (n : Z) : string := substring 0 (Z.to_nat n) s.

(** [s.replace(t, r)] with a string pattern: the first occurrence only. *)
Definition replace (s t r : string) : string :=
  match index 0 t s with
  | Some i =>
      substring 0 i s +:+ r +:+
      substring (i + String.length t) (String.length s - (i + String.length t)) s
  | None => s
  end.

(** [s.charAt(0) == '.'] *)
Definition startsWithDot (s : string) : bool :=
  match s with
  | String c _ => Ascii.eqb c "."%char
  | EmptyString => false
  end.

(** [data.replace(/\n/g, "\r\n")] on file content. *)
Definition replaceLF (data : jsstring) : jsstring :=
  flat_map (fun c => if c =? LF then [CR; LF] else [c]) data.

(** [data.replace(/\r+/g, "\r")] on file content: every maximal run of CR
    becomes one CR. *)
Fixpoint replaceCRs (data : jsstring) : jsstring :=
  match data with
  | [] => []
  | c :: t =>
      if (c =? CR) && (match t with d :: _ => d =? CR | [] => false end)
      then replaceCRs t
      else c :: replaceCRs t
  end.

End JS.

(** Node's [path] module (POSIX flavour), as far as the tool uses it. *)
Module path.

Definition isSep (c : ascii) : bool := Ascii.eqb c "/"%char.

(** Characters after the last separator. *)
Fixpoint afterLastSep (cur : list ascii) (l : list ascii) : list ascii :=
  match l with
  | [] => cur
  | c :: t => if isSep c then afterLastSep t t else afterLastSep cur t
  end.

(** Removes the trailing separators, given the list reversed. *)
Fixpoint dropSeps (r : list ascii) : list ascii :=
  match r with
  | c :: t => if isSep c then dropSeps t else r
  | [] => []
  end.

(** [path.basename(p)]: trailing separators are ignored, the result is
    what follows the last remaining separator. *)
Definition basename (p : string) : string :=
  let l := rev (dropSeps (rev (list_ascii_of_string p))) in
  string_of_list_ascii (afterLastSep l l).

(** [path.join(a, b)] for a directory and one entry name. *)
Definition join (a b : string) : string :=
  if JS.endsWith a "/" then a +:+ b else a +:+ "/" +:+ b.

End path.

(** Constants of the disk image class (machines/pcx86/modules/diskimage.js). *)
Module DiskImage.

(** Modelled from the spec: [DiskImage.PCJS_LABEL], the fixed built-in
    volume label; the comment in [readDirFiles] gives its value. *)
Definition PCJS_LABEL : string := "PCJS".

(** Modelled from the spec: [DiskImage.ATTR], the attribute bit flags of a
    file record (volume-label, subdirectory, archive). *)
Module ATTR.
Definition VOLUME : Z := 0x08.
Definition SUBDIR : Z := 0x10.
Definition ARCHIVE : Z := 0x20.
End ATTR.

End DiskImage.

(** ** Text files *)

(** [asTextFileExts] *)
Definition asTextFileExts : list string :=
  [".MD"; ".ME"; ".BAS"; ".BAT"; ".ASM"; ".LRF"; ".MAK"; ".TXT"; ".XML"]%string.

(** [isASCII(data)]: no code unit with bit 7 set. *)
Definition isASCII (data : jsstring) : bool :=
  forallb (fun b => Z.land b 0x80 =? 0) data.

(** The line-ending rewrite of [readDirFiles]:
    [data.replace(/\n/g, "\r\n").replace(/\r+/g, "\r")]. *)
Definition fixLineEndings (data : jsstring) : jsstring :=
  JS.replaceCRs (JS.replaceLF data).

(** ** The world the tool runs in *)

(** What [printf] writes; one constructor per message of the module. *)
Inductive diag : Type :=
| DError (message : string)
| DLengthMismatch (length size : Z)
| DReplaced (sName : string) (oldLength newLength : Z)
| DNonASCII (sName : string)
| DWriting (sFile : string)
| DNotWritten (diskName : string)
| DExists (diskName : string)
| DReadingArchive (sArchiveFile : string)
| DUnsuccessful (sArchiveFile : string).

(** A file of the path-addressed store: its bytes ([None] when reading it
    throws) and its permission bits. *)
Record fsfile : Type := mkFsFile {
  fbytes : option DataBuffer;
  fmode : Z
}.

(** What the directory walk meets at a path: a file ([fs.statSync] gives its
    [mtime] and [size]; [content] is [None] when reading it throws), a
    directory with the entries [fs.readdirSync] lists in order, or an entry on
    which [fs.statSync] throws (a dangling link). *)
Inductive fsnode : Type :=
| File (mtime : Z) (size : Z) (content : option DataBuffer)
| Dir (mtime : Z) (entries : list (string * fsnode))
| Faulty.

(** Module-level variables and the outside world: the remaining-file budget
    [nMaxFiles] and [rootDir], the clock read by [new Date()], the directory
    trees by path (what [readDir] walks), the files by path (what
    [readFile], [writeDisk] and the [fs] calls of [main] address), the paths
    at which the file system refuses changes ([locked]), the process umask,
    and the messages printed so far (oldest first). Of the locked paths,
    those in [full] are refused for want of room only: no file can be
    created there, but an entry that exists can still be removed, renamed,
    overwritten or have its mode changed. At a path that is not locked
    nothing is refused. *)
Record world : Type := mkWorld {
  nMaxFiles : Z;
  rootDir : string;
  clock : Z;
  dirs : gmap string fsnode;
  disk : gmap string fsfile;
  locked : gset string;
  full : gset string;
  umask : Z;
  console : list diag
}.

(** The file system refuses every change at [sFile]. *)
Definition frozen (w : world) (sFile : string) : bool :=
  bool_decide (sFile ∈ locked w) && negb (bool_decide (sFile ∈ full w)).

(** The file system has no room for a new file at [sFile]. *)
Definition noRoom (w : world) (sFile : string) : bool :=
  bool_decide (sFile ∈ locked w) && bool_decide (sFile ∈ full w).

(** Result of a statement: a value, or an exception with its message. *)
Inductive outcome (A : Type) : Type :=
| Ok (a : A)
| Thrown (message : string).
Arguments Ok {A} a.
Arguments Thrown {A} message.

(** Computations over the world that may throw. *)
Definition M (A : Type) : Type := world -> outcome A * world.

Definition ret {A : Type} (a : A) : M A := fun w => (Ok a, w).

Definition bind {A B : Type} (m : M A) (k : A -> M B) : M B :=
  fun w => match m w with
           | (Ok a, w') => k a w'
           | (Thrown e, w') => (Thrown e, w')
           end.

Definition throw {A : Type} (message : string) : M A := fun w => (Thrown message, w).

(** [try { m } catch (err) { h(err.message) }] *)
Definition tryCatch {A : Type} (m : M A) (h : string -> M A) : M A :=
  fun w => match m w with
           | (Ok a, w') => (Ok a, w')
           | (Thrown e, w') => h e w'
           end.

Notation "'let*' x ':=' m 'in' k" := (bind m (fun x => k))
  (at level 10, x name, m at level 100, k at level 200).
Notation "m ';;;' k" := (bind m (fun _ => k))
  (at level 100, k at level 200, right associativity).

Definition printf (d : diag) : M unit :=
  fun w => (Ok tt, mkWorld (nMaxFiles w) (rootDir w) (clock w) (dirs w) (disk w) (locked w) (full w)
                     (umask w) (console w ++ [d])).

Definition getMaxFiles : M Z := fun w => (Ok (nMaxFiles w), w).

Definition setMaxFiles (n : Z) : M unit :=
  fun w => (Ok tt, mkWorld n (rootDir w) (clock w) (dirs w) (disk w) (locked w) (full w)
                     (umask w) (console w)).

(** Replaces the files of the path-addressed store. *)
Definition setDisk (d : gmap string fsfile) : M unit :=
  fun w => (Ok tt, mkWorld (nMaxFiles w) (rootDir w) (clock w) (dirs w) d (locked w) (full w)
                     (umask w) (console w)).

(** [new Date()] *)
Definition newDate : M Z := fun w => (Ok (clock w), w).

Definition when (b : bool) (m : M unit) : M unit := if b then m else ret tt.

(** The parts of Node and of [DataBuffer] (tools/modules/nodebuffer.js) the
    module relies on: the UTF-8 decoding done by [fs.readFileSync(f, "utf8")]
    (an empty file gives the empty string), the UTF-8 bytes
    [fs.writeFileSync] stores for a string, the bytes of
    [new DataBuffer(string)], and [String.prototype.toUpperCase] on a file
    name. A name is held as the bytes of its UTF-8 form, so an ASCII
    character is one character of the [string]. [toUpperCase] maps every
    character by itself: ASCII characters at the end of a name become their
    upper-case forms whatever stands before them; nothing is assumed of the
    other characters. *)
Class NodeRuntime : Type := {
  utf8Decode : DataBuffer -> jsstring;
  utf8Decode_nil : utf8Decode [] = [];
  utf8Encode : jsstring -> DataBuffer;
  bufferFromString : jsstring -> DataBuffer;
  toUpperCase : string -> string;
  toUpperCase_nil : toUpperCase "" = ""%string;
  toUpperCase_ascii :
    forall s a, JS.plain a = true -> toUpperCase (s +:+ a) = toUpperCase s +:+ JS.upperASCII a
}.

(** [isTextFile(sFile)] *)
Definition isTextFile `{NodeRuntime} (sFile : string) : bool :=
  let sFileUC := toUpperCase sFile in
  existsb (fun ext => JS.endsWith sFileUC ext) asTextFileExts.

(** What [readFile] hands back: a string (an encoding was given) or a
    [DataBuffer] (encoding [null]); [undefined] is [None]. *)
Inductive filedata : Type :=
| Str (s : jsstring)
| Buf (db : DataBuffer).

(** [data.length] *)
Definition dataLength (data : filedata) : Z :=
  match data with
  | Str s => Z.of_nat (length s)
  | Buf db => Z.of_nat (length db)
  end.

(** [!data] for the result of [readFile]: [undefined] and the empty string
    are falsy, every [DataBuffer] object is truthy. *)
Definition falsy (data : option filedata) : bool :=
  match data with
  | None => true
  | Some (Str []) => true
  | Some _ => false
  end.

Inductive Encoding : Type := utf8.

(** [fs.readFileSync] applied to what [fs.existsSync] found at the path. *)
Definition readFileSync (found : option DataBuffer) : M DataBuffer :=
  match found with
  | Some db => ret db
  | None => throw "EACCES"
  end.

Section Reading.
Context `{NodeRuntime}.

(** [readFile(sFile, encoding)], given what the file system holds at
    [sFile]: [None] when nothing exists there, [Some None] for a file whose
    read throws, [Some (Some db)] for a readable file. *)
Definition readFileAt (found : option (option DataBuffer)) (sFile : string)
    (encoding : option Encoding) : M (option filedata) :=
  if String.eqb sFile "" then ret None
  else
    tryCatch
      (match found with
       | Some content =>
           let* db := readFileSync content in
           match encoding with
           | Some utf8 => ret (Some (Str (utf8Decode db)))
           | None => ret (Some (Buf db))
           end
       | None => ret None
       end)
      (fun message => printf (DError message) ;;; ret None).

(** [readFile(sFile, encoding)] on the path-addressed store. *)
Definition readFile (sFile : string) (encoding : option Encoding) : M (option filedata) :=
  fun w => readFileAt (fbytes <$> disk w !! sFile) sFile encoding w.

End Reading.

(** ** The file-tree reader *)

(** One element of the list [readDirFiles] builds (the JSDoc's [FileData]);
    a property the source leaves unset is [None]. *)
Module FileData.
Inductive t : Type := make {
  path : string;
  name : string;
  attr : Z;
  date : Z;
  size : Z;
  data : option filedata;
  files : option (list t)
}.
End FileData.
Abbreviation FileData := FileData.t.

(** The loop of [readDirFiles]:
    [for (iFile = 0; iFile < asFiles.length && nMaxFiles > 0; iFile++, nMaxFiles--)].
    [body] yields the record to push, or [None] where the source runs
    [continue]; the update [nMaxFiles--] runs after either. *)
Definition forFiles (body : string -> fsnode -> M (option FileData)) :
    list (string * fsnode) -> list FileData -> M (list FileData) :=
  fix loop (asFiles : list (string * fsnode)) (aFileData : list FileData) :=
    match asFiles with
    | [] => ret aFileData
    | (sName, nd) :: rest =>
        let* n := getMaxFiles in
        if 0 <? n then
          let* file := body sName nd in
          let* n' := getMaxFiles in
          setMaxFiles (n' - 1) ;;;
          loop rest (match file with
                     | Some f => aFileData ++ [f]
                     | None => aFileData
                     end)
        else ret aFileData
    end.

(** The two special label strings, then the label's truthiness. *)
Definition resolveLabel (sLabel : option string) : option string :=
  match sLabel with
  | Some l =>
      if String.eqb l "none" then Some ""%string
      else if String.eqb l "default" then Some DiskImage.PCJS_LABEL
      else Some l
  | None => None
  end.

Definition truthyLabel (sLabel : option string) : bool :=
  match sLabel with
  | Some l => negb (String.eqb l "")
  | None => false
  end.

Section Ingest.
Context `{NodeRuntime}.

(** The text branch of [readDirFiles] ([if (fText) { ... }]). *)
Definition normalizeText (sName : string) (data : filedata) : M filedata :=
  match data with
  | Str s =>
      let* s' :=
        (if isASCII s then
           let dataNew := fixLineEndings s in
           when (negb (bool_decide (dataNew = s)))
                (printf (DReplaced sName (Z.of_nat (length s)) (Z.of_nat (length dataNew)))) ;;;
           ret dataNew
         else
           printf (DNonASCII sName) ;;; ret s) in
      ret (Buf (bufferFromString s'))
  | Buf _ => throw "TypeError"
  end.

(** The non-directory branch of the loop body. *)
Definition readEntryFile (fNormalize : bool) (sPath sName : string)
    (mtime size : Z) (content : option DataBuffer) : M (option FileData) :=
  let fText := fNormalize && isTextFile sName in
  let* data := readFileAt (Some content) sPath (if fText then Some utf8 else None) in
  match data with
  | Some d =>
      if falsy data then ret None
      else
        when (negb (dataLength d =? size)) (printf (DLengthMismatch (dataLength d) size)) ;;;
        let* d' := (if fText then normalizeText sName d else ret d) in
        ret (Some (FileData.make sPath sName 0 mtime (dataLength d') (Some d') None))
  | None => ret None
  end.

(** The volume-label record pushed first:
    [{path: sDir, name: sLabel, attr: DiskImage.ATTR.VOLUME, date: dateLabel, size: 0}]. *)
Definition labelRecord (sDir sLabel : string) (dateLabel : Z) : FileData :=
  FileData.make sDir sLabel DiskImage.ATTR.VOLUME dateLabel 0 None None.

(** Lines 151-171: the list before the loop, empty or holding the label. *)
Definition initialList (sDir : string) (sLabel : option string) : M (list FileData) :=
  let sLabel := resolveLabel sLabel in
  match sLabel with
  | Some l =>
      if truthyLabel sLabel then
        let* dateLabel := newDate in
        ret [labelRecord sDir l dateLabel]
      else ret []
  | None => ret []
  end.

(** The body of the loop for the entry [sName], which the file system
    resolves to [nd]; [recur] is the recursive call
    [readDirFiles(sPath, fNormalize)]. *)
Definition visitEntry (recur : string -> fsnode -> M (list FileData)) (fNormalize : bool)
    (sDir sName : string) (nd : fsnode) : M (option FileData) :=
  if JS.startsWithDot sName then ret None
  else
    let sPath := path.join sDir sName in
    match nd with
    | Faulty => throw "ENOENT"
    | Dir mtime _ =>
        let* files := recur sPath nd in
        ret (Some (FileData.make sPath sName DiskImage.ATTR.SUBDIR mtime (-1)
                     (Some (Buf [])) (Some files)))
    | File mtime size content =>
        readEntryFile fNormalize sPath sName mtime size content
    end.

(** [readDirFiles(sDir, fNormalize, sLabel)], where [d] is what the file
    system holds at [sDir] ([fs.readdirSync] throws unless it is a
    directory). *)
Fixpoint readDirFiles (sDir : string) (fNormalize : bool) (sLabel : option string)
    (d : fsnode) {struct d} : M (list FileData) :=
  match d with
  | Dir _ asFiles =>
      let* aFileData := initialList sDir sLabel in
      forFiles
        (visitEntry (fun sPath c => readDirFiles sPath fNormalize None c) fNormalize sDir)
        asFiles aFileData
  | File _ _ _ => throw "ENOTDIR"
  | Faulty => throw "ENOENT"
  end.

End Ingest.

(** ** The disk image class *)

(** The [DiskImage] class of machines/pcx86/modules/diskimage.js, which the
    tool only calls: an object state [DI], its constructor and the methods
    used here. A [build*] method updates the object and reports success. *)
Class DiskImageClass (DI : Type) : Type := {
  newDiskImage : option string -> DI;
  buildDiskFromFiles : DI -> string -> list FileData -> Z -> bool * DI;
  buildDiskFromJSON : DI -> jsstring -> bool * DI;
  buildDiskFromPSI : DI -> DataBuffer -> bool * DI;
  buildDiskFromBuffer :
    DI -> DataBuffer -> bool -> option string -> option string -> option filedata -> bool * DI;
  setArgs : DI -> string -> DI;
  getJSON : DI -> bool -> bool -> jsstring;
  getData : DI -> option DataBuffer
}.

(** [x || d] for a numeric argument that may be missing or [NaN] ([None]). *)
Definition orNumber (x : option Z) (d : Z) : Z :=
  match x with
  | Some n => if n =? 0 then d else n
  | None => d
  end.

(** [a || b] for optional string arguments. *)
Definition orString (a b : option string) : option string :=
  if truthyLabel a then a else b.

(** What [fs.readdirSync]/[fs.statSync] meet at [sDir]. *)
Definition lookupDir (sDir : string) : M fsnode :=
  fun w => (Ok (default Faulty (dirs w !! sDir)), w).

(** [fs.existsSync(sFile)] *)
Definition existsSync (sFile : string) : M bool :=
  fun w => (Ok (bool_decide (is_Some (disk w !! sFile))), w).

(** [fs.readFileSync(sFile)] *)
Definition fsReadFileSync (sFile : string) : M DataBuffer :=
  fun w => match disk w !! sFile with
           | Some f => readFileSync (fbytes f) w
           | None => (Thrown "ENOENT", w)
           end.

(** The owner's write permission bit. *)
Definition S_IWUSR : Z := 0x80.

(** The write permission bits of owner, group and others (octal 222). *)
Definition writeBits : Z := 0x92.

(** Octal 444 and octal 666. *)
Definition mode444 : Z := 0x124.
Definition mode666 : Z := 0x1b6.

(** [fs.unlinkSync(sFile)] *)
Definition unlinkSync (sFile : string) : M unit :=
  fun w => if frozen w sFile then (Thrown "EACCES", w)
           else match disk w !! sFile with
                | Some _ => setDisk (delete sFile (disk w)) w
                | None => (Thrown "ENOENT", w)
                end.

(** [fs.writeFileSync(sFile, bytes)]: an existing file keeps its mode and
    must be writable, a new file gets [0o666 & ~umask] and needs room
    ([ENOSPC] otherwise). *)
Definition writeFileSync (sFile : string) (bytes : DataBuffer) : M unit :=
  fun w => if frozen w sFile then (Thrown "EACCES", w)
           else match disk w !! sFile with
                | Some f =>
                    if Z.land (fmode f) S_IWUSR =? 0 then (Thrown "EACCES", w)
                    else setDisk (<[sFile := mkFsFile (Some bytes) (fmode f)]> (disk w)) w
                | None =>
                    if noRoom w sFile then (Thrown "ENOSPC", w)
                    else setDisk (<[sFile := mkFsFile (Some bytes)
                                               (Z.land mode666 (Z.lnot (umask w)))]> (disk w)) w
                end.

(** [fs.chmodSync(sFile, mode)] *)
Definition chmodSync (sFile : string) (mode : Z) : M unit :=
  fun w => if frozen w sFile then (Thrown "EACCES", w)
           else match disk w !! sFile with
                | Some f => setDisk (<[sFile := mkFsFile (fbytes f) mode]> (disk w)) w
                | None => (Thrown "ENOENT", w)
                end.

(** [fs.renameSync(sOld, sNew)] *)
Definition renameSync (sOld sNew : string) : M unit :=
  fun w => if frozen w sOld || frozen w sNew then (Thrown "EACCES", w)
           else match disk w !! sOld with
                | Some f => setDisk (<[sNew := f]> (delete sOld (disk w))) w
                | None => (Thrown "ENOENT", w)
                end.

(** Modelled from the spec: [DataBuffer.compare] (tools/modules/nodebuffer.js),
    true exactly when the two buffers hold the same bytes, as the JSDoc of
    [compareDisks] words its result. *)
Definition compare (db1 db2 : DataBuffer) : bool := bool_decide (db1 = db2).

Section Tool.
Context `{NodeRuntime} {DI : Type} `{DiskImageClass DI}.

(** [compareDisks(sDisk1, sDisk2)]:
    [db1 && db2 && db1.compare(db2) || false]. *)
Definition compareDisks (sDisk1 sDisk2 : string) : M bool :=
  let* db1 := readFile sDisk1 None in
  let* db2 := readFile sDisk2 None in
  if falsy db1 then ret false
  else if falsy db2 then ret false
  else match db1, db2 with
       | Some (Buf b1), Some (Buf b2) => ret (compare b1 b2)
       | _, _ => throw "TypeError"
       end.

(** The statements of [readDir] up to the list handed to
    [buildDiskFromFiles]: the default label, the budget, the walk. *)
Definition readDir_files (sDir : string) (fNormalize : bool) (sLabel : option string)
    (nMax : option Z) : M (list FileData) :=
  let sLabel := if truthyLabel sLabel then sLabel else Some (path.basename sDir) in
  setMaxFiles (orNumber nMax 256) ;;;
  let* d := lookupDir sDir in
  readDirFiles sDir fNormalize sLabel d.

(** [readDir(sDir, fNormalize, sLabel, kbTarget, nMax)] *)
Definition readDir (sDir : string) (fNormalize : bool) (sLabel : option string)
    (kbTarget nMax : option Z) : M (option DI) :=
  tryCatch
    (let* aFileData := readDir_files sDir fNormalize sLabel nMax in
     let di := newDiskImage None in
     let '(ok, di) := buildDiskFromFiles di (path.basename sDir) aFileData (orNumber kbTarget 0) in
     ret (if ok then Some di else None))
    (fun message => printf (DError message) ;;; ret None).

(** [readDisk(sFile, forceBPB, sectorIDs, sectorErrors, suppData)] *)
Definition readDisk (sFile : string) (forceBPB : bool) (sectorIDs sectorErrors : option string)
    (suppData : option filedata) : M (option DI) :=
  tryCatch
    (let diskName := path.basename sFile in
     let di := newDiskImage (Some diskName) in
     let* db := fsReadFileSync sFile in
     let '(ok, di) :=
       if JS.endsWith diskName ".json" then buildDiskFromJSON di (utf8Decode db)
       else if JS.endsWith diskName ".psi" then buildDiskFromPSI di db
       else buildDiskFromBuffer di db forceBPB sectorIDs sectorErrors suppData in
     ret (if ok then Some di else None))
    (fun message => printf (DError message) ;;; ret None).

(** The bytes [fs.writeFileSync] stores for [data]. *)
Definition bytesOf (data : filedata) : DataBuffer :=
  match data with
  | Str s => utf8Encode s
  | Buf db => db
  end.

(** Lines 310-316 of [writeDisk]: the JSON text for a name ending in
    ".JSON" whatever its case, the raw buffer otherwise ([None] when
    [getData] fails). *)
Definition diskData (sFile : string) (di : DI) (fLegacy : bool) : option filedata :=
  if JS.endsWith (toUpperCase sFile) ".JSON" then Some (Str (getJSON di true fLegacy))
  else match getData di with
       | Some db => Some (Buf db)
       | None => None
       end.

(** [writeDisk(sFile, di, fLegacy, indent, fOverwrite)]; the message of
    [DWriting] is [sFile] (printed without [rootDir] when it starts with the
    path delimiter). *)
Definition writeDisk (sFile : string) (di : DI) (fLegacy : bool) (indent : Z)
    (fOverwrite : bool) : M unit :=
  let diskName := path.basename sFile in
  tryCatch
    (let* fExists := existsSync sFile in
     if negb fExists || fOverwrite then
       let sFileUC := toUpperCase sFile in
       let data := diskData sFile di fLegacy in
       match data with
       | Some d =>
           if falsy data then printf (DNotWritten diskName)
           else
             printf (DWriting sFile) ;;;
             when fExists (unlinkSync sFile) ;;;
             writeFileSync sFile (bytesOf d) ;;;
             when (JS.endsWith sFileUC ".IMG") (chmodSync sFile mode444)
       | None => printf (DNotWritten diskName)
       end
     else printf (DExists diskName))
    (fun message => printf (DError message)).

End Tool.

(** ** The archive check of [main] (task #3) *)

(** A command-line option: absent, given without a value ([true]), or given
    with a string. *)
Inductive argval : Type :=
| Unset
| Flag
| Value (s : string).

(** The options of [argv] the archive check reads. *)
Module Argv.
Record t : Type := make {
  rebuild : bool;
  checkarchive : argval;
  sectorID : option string;
  sectorError : option string;
  suppData : option string
}.
End Argv.

(** A catalog entry as the check sees it: [options] after the rewrite of
    lines 421-426 (empty, or a blank followed by the entry's options) and the
    values [stdlib.getArgs] found in them. *)
Module Diskette.
Record t : Type := make {
  options : string;
  sectorID : option string;
  sectorError : option string;
  suppData : option string
}.
End Diskette.

(** Line 483: the entry is selected unless [--checkarchive] names a string
    that does not occur in the path of the archived file. *)
Definition selected (argv : Argv.t) (sArchiveFile : string) : bool :=
  match Argv.checkarchive argv with
  | Value s => 0 <=? JS.indexOf sArchiveFile s
  | _ => true
  end.

Section ArchiveCheck.
Context `{NodeRuntime} {DI : Type} `{DiskImageClass DI}.

(** The name of the temporary JSON file: [name] up to its first dot (when
    that dot is not the first character), then [".json"]. *)
Definition tempJSON (name : string) : string :=
  let i := JS.indexOf name "." in
  (if 0 <? i then JS.substr0 name i else name) +:+ ".json".

(** [sTempJSON.replace(".json", ".img")] *)
Definition tempIMG (sTempJSON : string) : string := JS.replace sTempJSON ".json" ".img".

(** Lines 505-516: rebuild the image from its JSON, write the temporary
    binary, compare it with the archived one; the result is [warning]. *)
Definition compareRebuilt (sArchiveFile sTempJSON : string) (diArchive : DI) : M bool :=
  if JS.endsWith sArchiveFile ".img" then
    let json := getJSON diArchive false false in
    let diArchive := snd (buildDiskFromJSON diArchive json) in
    let sTempIMG := tempIMG sTempJSON in
    writeDisk sTempIMG diArchive false 0 true ;;;
    let* same := compareDisks sTempIMG sArchiveFile in
    if negb same then
      printf (DUnsuccessful sArchiveFile) ;;; ret true
    else
      unlinkSync sTempIMG ;;; ret false
  else ret false.

(** Lines 517-523: what becomes of the temporary JSON. *)
Definition settleTempJSON (argv : Argv.t) (warning : bool) (sTempJSON sFile : string) : M unit :=
  if negb warning then
    if Argv.rebuild argv then renameSync sTempJSON sFile
    else unlinkSync sTempJSON
  else ret tt.

(** Lines 497-524, the body of [if (diArchive)]. *)
Definition verifyArchive (argv : Argv.t) (diskette : Diskette.t) (sFile sArchiveFile : string)
    (command name : string) (diArchive : DI) : M unit :=
  let sTempJSON := tempJSON name in
  let diArchive :=
    setArgs diArchive (command +:+ " --output " +:+ sTempJSON +:+ Diskette.options diskette) in
  writeDisk sTempJSON diArchive false 0 true ;;;
  let* warning := compareRebuilt sArchiveFile sTempJSON diArchive in
  settleTempJSON argv warning sTempJSON sFile.

(** Lines 483-525: the archive check for the catalog entry stored at [sFile]
    whose archived form is at [sArchiveFile]. *)
Definition checkArchive (argv : Argv.t) (diskette : Diskette.t) (sFile sArchiveFile : string)
    : M unit :=
  if selected argv sArchiveFile then
    printf (DReadingArchive sArchiveFile) ;;;
    let sectorIDs := orString (Argv.sectorID argv) (Diskette.sectorID diskette) in
    let sectorErrors := orString (Argv.sectorError argv) (Diskette.sectorError diskette) in
    let suppData := orString (Argv.suppData argv) (Diskette.suppData diskette) in
    let* suppData :=
      (match suppData with
       | Some p =>
           if truthyLabel suppData
           then fun w => readFile (path.join (rootDir w) p) (Some utf8) w
           else ret None
       | None => ret None
       end) in
    let name := path.basename sArchiveFile in
    let* loaded :=
      (if JS.endsWith sArchiveFile "/" then
         let* di := readDir sArchiveFile false None None None in
         ret (di, "--dir " +:+ name)
       else
         let* di := readDisk sArchiveFile false sectorIDs sectorErrors suppData in
         ret (di, "--disk " +:+ name)) in
    match loaded with
    | (Some diArchive, command) =>
        verifyArchive argv diskette sFile sArchiveFile command name diArchive
    | (None, _) => ret tt
    end
  else ret tt.

End ArchiveCheck.

(** ** Measures on the result of the walk *)

(** All records of a list, at every depth. *)
Fixpoint countRecord (f : FileData) : nat :=
  match f with
  | FileData.make _ _ _ _ _ _ (Some l) =>
      S ((fix countList (l : list FileData) : nat :=
            match l with
            | [] => 0
            | g :: t => countRecord g + countList t
            end) l)
  | FileData.make _ _ _ _ _ _ None => 1
  end%nat.

Fixpoint countRecords (l : list FileData) : nat :=
  match l with
  | [] => 0
  | f :: t => countRecord f + countRecords t
  end%nat.

(** A record carrying the volume-label attribute. *)
Definition isLabel (f : FileData) : bool := FileData.attr f =? DiskImage.ATTR.VOLUME.

(** The volume-label records of a list, at every depth. *)
Fixpoint countLabel (f : FileData) : nat :=
  ((if isLabel f then 1 else 0) +
   match f with
   | FileData.make _ _ _ _ _ _ (Some l) =>
       (fix countList (l : list FileData) : nat :=
          match l with
          | [] => 0
          | g :: t => countLabel g + countList t
          end) l
   | FileData.make _ _ _ _ _ _ None => 0
   end)%nat.

Fixpoint countLabels (l : list FileData) : nat :=
  match l with
  | [] => 0
  | f :: t => countLabel f + countLabels t
  end%nat.

(** The records that are neither directories nor labels, at every depth. *)
Fixpoint countFile (f : FileData) : nat :=
  match f with
  | FileData.make _ _ _ _ _ _ (Some l) =>
      (fix countList (l : list FileData) : nat :=
         match l with
         | [] => 0
         | g :: t => countFile g + countList t
         end) l
  | FileData.make _ _ a _ _ _ None => if (a =? DiskImage.ATTR.VOLUME)%Z then 0 else 1
  end%nat.

Fixpoint countFiles (l : list FileData) : nat :=
  match l with
  | [] => 0
  | f :: t => countFile f + countFiles t
  end%nat.

(** The entries of a tree, at every depth. *)
Fixpoint countEntries (d : fsnode) : nat :=
  match d with
  | Dir _ es =>
      (fix countList (es : list (string * fsnode)) : nat :=
         match es with
         | [] => 0
         | (_, c) :: t => S (countEntries c) + countList t
         end) es
  | _ => 0
  end%nat.

(** ** Predicates used in the statements *)

(** The order of the two rewrites as the specification words it: collapse
    the runs of CR first, expand the LFs afterwards. *)
Definition collapseThenExpand (data : jsstring) : jsstring :=
  JS.replaceLF (JS.replaceCRs data).

(** Every line terminator of [s] is CR LF: each CR is followed by LF and
    each LF follows a CR. *)
Fixpoint crlfOnly (s : jsstring) : bool :=
  match s with
  | [] => true
  | c :: t =>
      if c =? JS.CR then
        match t with
        | d :: t' => (d =? JS.LF) && crlfOnly t'
        | [] => false
        end
      else negb (c =? JS.LF) && crlfOnly t
  end.

(** No CR follows a CR and every LF follows a CR, [prev] being the
    character before [s]. *)
Fixpoint settledFrom (prev : Z) (s : jsstring) : bool :=
  match s with
  | [] => true
  | c :: t =>
      (if c =? JS.LF then prev =? JS.CR else negb ((c =? JS.CR) && (prev =? JS.CR)))
      && settledFrom c t
  end.

(** Every LF follows a CR, [prev] being the character before [s]. *)
Fixpoint lfGuarded (prev : Z) (s : jsstring) : bool :=
  match s with
  | [] => true
  | c :: t => (if c =? JS.LF then prev =? JS.CR else true) && lfGuarded c t
  end.

(** [s] does not start with CR. *)
Definition noLeadingCR (s : jsstring) : bool :=
  match s with
  | c :: _ => negb (c =? JS.CR)
  | [] => true
  end.

(** Every code unit of [s] is below 128. *)
Definition sevenBit (s : jsstring) : bool :=
  forallb (fun c => (0 <=? c) && (c <? 128)) s.

(** The message of line 196, printed when the length read differs from the
    size [fs.statSync] reported. *)
Definition sizeNotes (len size : Z) : list diag :=
  if len =? size then [] else [DLengthMismatch len size].

(** The record pushed for a file whose final data is [d]
    ([attr] 0, [size] the length of the data). *)
Definition fileRecord (sPath sName : string) (mtime : Z) (d : filedata) : FileData :=
  FileData.make sPath sName 0 mtime (dataLength d) (Some d) None.

(** The message of line 201, printed when the rewrite changed the text. *)
Definition replacedNotes (sName : string) (s dataNew : jsstring) : list diag :=
  if bool_decide (dataNew = s) then []
  else [DReplaced sName (Z.of_nat (length s)) (Z.of_nat (length dataNew))].

(** The list holding the record an entry gave, if it gave one. *)
Definition pushed (file : option FileData) : list FileData :=
  match file with
  | Some f => [f]
  | None => []
  end.

(** The label the walk ends up with: none for a missing label, for the
    token "none" and for the empty string. *)
Definition effectiveLabel (sLabel : option string) : option string :=
  match resolveLabel sLabel with
  | Some l => if String.eqb l "" then None else Some l
  | None => None
  end.

(** The label [readDir] hands to [readDirFiles]: line 113 replaces a
    missing or empty label by the base name of the directory. *)
Definition givenLabel (sDir : string) (sLabel : option string) : string :=
  match sLabel with
  | Some s => if String.eqb s "" then path.basename sDir else s
  | None => path.basename sDir
  end.


(** The list the loop starts from. *)
Definition labelList (sDir : string) (sLabel : option string) (now : Z) : list FileData :=
  match effectiveLabel sLabel with
  | Some l => [labelRecord sDir l now]
  | None => []
  end.

(** A tree on which no [fs] call of the walk throws. *)
Fixpoint walkable (d : fsnode) : bool :=
  match d with
  | File _ _ _ => true
  | Dir _ es =>
      (fix all (es : list (string * fsnode)) : bool :=
         match es with
         | [] => true
         | (_, c) :: t => walkable c && all t
         end) es
  | Faulty => false
  end.

(** The world after [n] further entries have drawn on the budget. *)
Definition spend (n : Z) (w : world) : world :=
  mkWorld (nMaxFiles w - n) (rootDir w) (clock w) (dirs w) (disk w) (locked w) (full w)
          (umask w) (console w).

(** The world after the messages [ds] have been printed. *)
Definition printed (ds : list diag) (w : world) : world :=
  mkWorld (nMaxFiles w) (rootDir w) (clock w) (dirs w) (disk w) (locked w) (full w)
          (umask w) (console w ++ ds).

(** The world with the files of the store replaced. *)
Definition withDisk (d : gmap string fsfile) (w : world) : world :=
  mkWorld (nMaxFiles w) (rootDir w) (clock w) (dirs w) d (locked w) (full w) (umask w) (console w).

(** Nothing readable is stored at [sFile]. *)
Definition unreadable (w : world) (sFile : string) : Prop :=
  sFile = ""%string \/ disk w !! sFile = None \/
  exists mode, disk w !! sFile = Some (mkFsFile None mode).

(** A mode that forbids writing to everyone. *)
Definition readOnlyMode (mode : Z) : bool := Z.land mode writeBits =? 0.

(** The mode [writeDisk] leaves on a file it wrote: octal 444 for a name
    ending in ".IMG" whatever its case, the creation mode otherwise. *)
Definition writtenMode `{NodeRuntime} (sFile : string) (w : world) : Z :=
  if JS.endsWith (toUpperCase sFile) ".IMG" then mode444
  else Z.land mode666 (Z.lnot (umask w)).

(** The world after [writeDisk] wrote [bytes] to [sFile]. *)
Definition written `{NodeRuntime} (sFile : string) (bytes : DataBuffer) (w : world) : world :=
  withDisk (<[sFile := mkFsFile (Some bytes) (writtenMode sFile w)]> (disk w))
           (printed [DWriting sFile] w).

(** The archived file cannot be read: nothing is stored at the path, or
    reading what is stored throws. *)
Definition cannotRead (w : world) (sFile : string) : Prop :=
  disk w !! sFile = None \/ exists mode, disk w !! sFile = Some (mkFsFile None mode).

(** A message that reports an error caught by a [catch] block. *)
Definition isErrorNote (d : diag) : Prop :=
  match d with
  | DError _ => True
  | _ => False
  end.

(** ** A concrete runtime and disk image class for the examples *)

Module Sample.

Definition codeOfByte (b : Byte.byte) : Z := Z.of_N (Byte.to_N b).

Definition byteOfCode (c : Z) : Byte.byte :=
  default Byte.x00 (Byte.of_N (Z.to_N (c mod 256))).

(** One code unit per byte, which is UTF-8 on 7-bit content; names are
    upper-cased as ASCII names are. *)
Definition runtime : NodeRuntime :=
  {| utf8Decode := map codeOfByte;
     utf8Decode_nil := eq_refl;
     utf8Encode := map byteOfCode;
     bufferFromString := map byteOfCode;
     toUpperCase := JS.upperASCII;
     toUpperCase_nil := eq_refl;
     toUpperCase_ascii := fun s a _ => JS.upperASCII_app s a |}.




(** A toy disk image: its bytes and its arguments. Its JSON form is the
    bytes read as text; loading JSON pads the image to a whole number of
    two-byte sectors. *)
Record image : Type := mkImage { bytes : DataBuffer; args : string }.

Definition padSector (db : DataBuffer) : DataBuffer :=
  if Nat.even (length db) then db else db ++ [Byte.x00].

Definition fileBytes (f : FileData) : DataBuffer :=
  match FileData.data f with
  | Some (Buf db) => db
  | _ => []
  end.

Definition imageClass : DiskImageClass image :=
  {| newDiskImage := fun _ => mkImage [] "";
     buildDiskFromFiles := fun di _ aFileData _ =>
       (true, mkImage (flat_map fileBytes aFileData) (args di));
     buildDiskFromJSON := fun di json =>
       (true, mkImage (padSector (map byteOfCode json)) (args di));
     buildDiskFromPSI := fun di _ => (false, di);
     buildDiskFromBuffer := fun di db _ _ _ _ => (true, mkImage db (args di));
     setArgs := fun di a => mkImage (bytes di) a;
     getJSON := fun di _ _ => map codeOfByte (bytes di);
     getData := fun di => Some (bytes di) |}.

(** An empty world with budget [n] and umask octal 022. *)
Definition world0 (n : Z) : world := mkWorld n "/pcjs" 1000 ∅ ∅ ∅ ∅ 0x12 [].

(** The bytes of an ASCII text. *)
Definition ascii (s : string) : DataBuffer := map byte_of_ascii (list_ascii_of_string s).

(** A readable, non-empty file for the walk. *)
Definition file (s : string) : fsnode :=
  File 500 (Z.of_nat (String.length s)) (Some (ascii s)).

(** A world whose only directory tree is [d], at the path "/d". *)
Definition worldAt (n : Z) (d : fsnode) : world :=
  mkWorld n "/pcjs" 1000 {["/d"%string := d]} ∅ ∅ ∅ 0x12 [].

(** A directory "a" holding the file "f", then the file "g". *)
Definition nestedDir : fsnode :=
  Dir 1 [("a"%string, Dir 2 [("f"%string, file "hello")]); ("g"%string, file "x")].

(** A hidden entry, a file whose read throws, then the files "a" and "b". *)
Definition mixedDir : fsnode :=
  Dir 1 [(".git"%string, Faulty); ("bad"%string, File 1 3 None);
         ("a"%string, file "x"); ("b"%string, file "y")].

(** A world whose store holds [files]. *)
Definition storeWorld (files : gmap string fsfile) : world :=
  mkWorld 0 "/pcjs" 1000 ∅ files ∅ ∅ 0x12 [].

(** A world whose store holds [files] and refuses changes at "disk.img". *)
Definition lockedWorld (files : gmap string fsfile) : world :=
  mkWorld 0 "/pcjs" 1000 ∅ files {["disk.img"%string]} ∅ 0x12 [].

(** A world whose store holds [files] and has no room for a new file at
    the canonical JSON of the example. *)
Definition fullWorld (files : gmap string fsfile) : world :=
  mkWorld 0 "/pcjs" 1000 ∅ files {["/pcjs/disks/disk.json"%string]}
          {["/pcjs/disks/disk.json"%string]} 0x12 [].

(** An image of three bytes. *)
Definition image3 : image := mkImage (ascii "abc") "".

(** The options [--checkarchive], with or without [--rebuild]. *)
Definition argvCheck (rebuild : bool) : Argv.t := Argv.make rebuild Flag None None None.

(** A catalog entry without options. *)
Definition diskette0 : Diskette.t := Diskette.make "" None None None.

(** The canonical JSON of the entry and its archived binary. *)
Definition sJSON : string := "/pcjs/disks/disk.json".
Definition sArchive : string := "/pcjs/disks/archive/disk.img".

(** A store with an old canonical JSON and an archived binary of three
    bytes, which the toy image class does not rebuild byte for byte. *)
Definition driftStore : gmap string fsfile :=
  {[ sJSON := mkFsFile (Some (ascii "old")) 0x1a4;
     sArchive := mkFsFile (Some (ascii "abc")) 0x124 ]}.

(** The same store with an archived binary of four bytes, which is rebuilt
    byte for byte. *)
Definition soundStore : gmap string fsfile :=
  {[ sJSON := mkFsFile (Some (ascii "old")) 0x1a4;
     sArchive := mkFsFile (Some (ascii "abcd")) 0x124 ]}.

(** The same store with an archived binary that cannot be read. *)
Definition lostStore : gmap string fsfile :=
  {[ sJSON := mkFsFile (Some (ascii "old")) 0x1a4;
     sArchive := mkFsFile None 0x124 ]}.

(** Three files. *)
Definition flatDir : fsnode :=
  Dir 1 [("a"%string, file "x"); ("b"%string, file "y"); ("c"%string, file "z")].

End Sample.

(** ** Statements about the walk *)

(** The world with the budget set to [n]. *)
Definition budgeted (n : Z) (w : world) : world :=
  mkWorld n (rootDir w) (clock w) (dirs w) (disk w) (locked w) (full w) (umask w) (console w).

(** What the walk of a directory adds to the list it starts from: no label
    record at any depth, and no more file records than the budget it used. *)
Definition walkBound (w : world) (rest : list FileData) (w' : world) : Prop :=
  countLabels rest = 0%nat /\
  Z.of_nat (countFiles rest) + Z.max 0 (nMaxFiles w') <= Z.max 0 (nMaxFiles w).

Section WalkStatements.
Context `{NodeRuntime}.

(** An entry that gives a record: a visible file whose read succeeds and
    whose data is truthy (under normalization a text file must not decode
    to the empty string). *)
Definition yieldsRecord (fNormalize : bool) (e : string * fsnode) : bool :=
  negb (JS.startsWithDot (fst e)) &&
  match snd e with
  | File _ _ (Some db) =>
      if fNormalize && isTextFile (fst e)
      then match utf8Decode db with
           | [] => false
           | _ :: _ => true
           end
      else true
  | _ => false
  end.

(** The walk of [d], when it returns a list, returns the label list followed
    by records within [walkBound]. *)
Definition walkFacts (d : fsnode) : Prop :=
  forall sDir fNormalize sLabel w l w',
    readDirFiles sDir fNormalize sLabel d w = (Ok l, w') ->
    exists rest, l = labelList sDir sLabel (clock w) ++ rest /\ walkBound w rest w'.

(** The walk of the directory [d] returns a list. *)
Definition walkReturns (d : fsnode) : Prop :=
  forall sDir fNormalize sLabel w mtime es,
    d = Dir mtime es -> walkable d = true ->
    exists l w', readDirFiles sDir fNormalize sLabel d w = (Ok l, w').

End WalkStatements.

(** Case analysis on the conditions the goal branches on. *)
Ltac split_ifs :=
  repeat match goal with
         | |- context [if ?b then _ else _] => destruct b
         end.

(** Induction on a tree with the hypothesis for every entry of a directory. *)
Section fsnode_induction.
Variable P : fsnode -> Prop.
Hypothesis HFile : forall mtime size content, P (File mtime size content).
Hypothesis HDir :
  forall mtime entries, Forall (fun e => P (snd e)) entries -> P (Dir mtime entries).
Hypothesis HFaulty : P Faulty.

Fixpoint fsnode_tree_ind (d : fsnode) : P d :=
  match d with
  | File mtime size content => HFile mtime size content
  | Dir mtime entries =>
      HDir mtime entries
        ((fix all (es : list (string * fsnode)) : Forall (fun e => P (snd e)) es :=
            match es with
            | [] => List.Forall_nil _
            | (sName, c) :: t =>
                @List.Forall_cons _ (fun e => P (snd e)) (sName, c) t
                  (fsnode_tree_ind c) (all t)
            end) entries)
  | Faulty => HFaulty
  end.
End fsnode_induction.

(** ** Further functions of the module *)

(** [JSON.parse], which [readJSON] calls: the parsed value, or the
    [SyntaxError] it throws. *)
Class JSONRuntime (J : Type) : Type := {
  JSON_parse : jsstring -> outcome J
}.

Section MoreFunctions.
Context `{NodeRuntime} {J : Type} `{JSONRuntime J}.

(** [writeFile(sFile, data)] *)
Definition writeFile (sFile : string) (data : filedata) : M bool :=
  if String.eqb sFile "" then ret false
  else
    tryCatch
      (writeFileSync sFile (bytesOf data) ;;; ret true)
      (fun message => printf (DError message) ;;; ret false).

(** [readJSON(sFile)] *)
Definition readJSON (sFile : string) : M (option J) :=
  tryCatch
    (let* data := fsReadFileSync sFile in
     match JSON_parse (utf8Decode data) with
     | Ok json => ret (Some json)
     | Thrown message => throw message
     end)
    (fun message => printf (DError message) ;;; ret None).

End MoreFunctions.

(** ** Further predicates used in the statements *)

(** Every code unit of [s] is a byte value. *)
Definition byteValued (s : jsstring) : bool :=
  forallb (fun c => (0 <=? c) && (c <? 256)) s.

(** The characters of [s] other than CR, in order. *)
Definition withoutCR (s : list Z) : list Z :=
  filter (fun c => c <> JS.CR) s.

(** [w'] differs from [w] at most by a lower budget and by further
    messages: the stores, the clock and the settings are the same. *)
Definition onlyWalked (w w' : world) : Prop :=
  nMaxFiles w' <= nMaxFiles w /\ rootDir w' = rootDir w /\ clock w' = clock w /\
  dirs w' = dirs w /\ disk w' = disk w /\ locked w' = locked w /\ full w' = full w /\
  umask w' = umask w /\ exists ds, console w' = console w ++ ds.

(** A record as the loop pushes it for an entry of the directory [sDir],
    at every depth: its path is its name joined to the directory, its name
    does not start with a dot; a file record has attribute 0, a buffer as
    data and the length of that buffer as size; a directory record has the
    subdirectory attribute, size -1, an empty buffer and records of the same
    kind for its own path. *)
Fixpoint walkRecord (sDir : string) (f : FileData) : Prop :=
  match f with
  | FileData.make p n a _ s dt fl =>
      p = path.join sDir n /\ JS.startsWithDot n = false /\
      match fl with
      | Some l =>
          a = DiskImage.ATTR.SUBDIR /\ s = -1 /\ dt = Some (Buf []) /\
          (fix all (l : list FileData) : Prop :=
             match l with
             | [] => True
             | g :: t => walkRecord (path.join sDir n) g /\ all t
             end) l
      | None =>
          a = 0 /\ exists db, dt = Some (Buf db) /\ s = Z.of_nat (length db)
      end
  end.

(** No character of [s] is a dot. *)
Fixpoint noDot (s : string) : bool :=
  match s with
  | EmptyString => true
  | String c t => negb (Ascii.eqb c "."%char) && noDot t
  end.

Section DiskStatements.
Context `{NodeRuntime} {DI : Type} `{DiskImageClass DI}.

(** The builder [readDisk] chooses for the file name and the bytes read:
    by the extension of the base name, in lower case only. *)
Definition builtFrom (sFile : string) (db : DataBuffer) (forceBPB : bool)
    (sectorIDs sectorErrors : option string) (suppData : option filedata) : bool * DI :=
  let diskName := path.basename sFile in
  let di := newDiskImage (Some diskName) in
  if JS.endsWith diskName ".json" then buildDiskFromJSON di (utf8Decode db)
  else if JS.endsWith diskName ".psi" then buildDiskFromPSI di db
  else buildDiskFromBuffer di db forceBPB sectorIDs sectorErrors suppData.

End DiskStatements.

Section WalkInvariants.
Context `{NodeRuntime}.

(** The walk of [d], whatever its outcome, only lowers the budget and
    prints. *)
Definition walkFrame (d : fsnode) : Prop :=
  forall sDir fNormalize sLabel w r w',
    readDirFiles sDir fNormalize sLabel d w = (r, w') -> onlyWalked w w'.

(** The walk of [d], when it returns a list, returns the label list followed
    by records of the entries: [walkRecord]s whose names are, in order, names
    of entries of the directory. *)
Definition walkShape (d : fsnode) : Prop :=
  forall sDir fNormalize sLabel w l w',
    readDirFiles sDir fNormalize sLabel d w = (Ok l, w') ->
    exists rest,
      l = labelList sDir sLabel (clock w) ++ rest /\
      Forall (walkRecord sDir) rest /\
      match d with
      | Dir _ es => sublist (map FileData.name rest) (map fst es)
      | _ => True
      end.

End WalkInvariants.

(** A toy [JSON.parse] for the examples: the value of a text is the text
    itself, and the empty text is refused. *)
Definition sampleJSON : JSONRuntime jsstring :=
  {| JSON_parse := fun s => match s with
                            | [] => Thrown "Unexpected end of JSON input"
                            | _ => Ok s
                            end |}.

(** * Properties *)

(** ** Line endings *)

Section LineEndings.

Lemma replaceCRs_cons_other (c : Z) (t : jsstring) :
  c <> JS.CR -> JS.replaceCRs (c :: t) = c :: JS.replaceCRs t.
Proof.
  intros Hc. simpl. destruct (Z.eqb_spec c JS.CR) as [->|_]; [congruence|reflexivity].
Qed.

Lemma replaceCRs_CR_CR (t : jsstring) :
  JS.replaceCRs (JS.CR :: JS.CR :: t) = JS.replaceCRs (JS.CR :: t).
Proof. reflexivity. Qed.

Lemma replaceLF_cons_LF (t : jsstring) :
  JS.replaceLF (JS.LF :: t) = JS.CR :: JS.LF :: JS.replaceLF t.
Proof. reflexivity. Qed.

Lemma replaceLF_cons_other (c : Z) (t : jsstring) :
  c <> JS.LF -> JS.replaceLF (c :: t) = c :: JS.replaceLF t.
Proof.
  intros Hc. unfold JS.replaceLF. simpl.
  destruct (Z.eqb_spec c JS.LF) as [->|_]; [congruence|reflexivity].
Qed.

(** The rewrite leaves a settled text alone; the first statement is for a
    text that follows a CR. *)
Lemma fixLineEndings_settled (s : jsstring) :
  (settledFrom JS.CR s = true ->
   JS.replaceCRs (JS.CR :: JS.replaceLF s) = JS.CR :: s) /\
  (forall p, p <> JS.CR -> settledFrom p s = true -> fixLineEndings s = s).
Proof.
  unfold fixLineEndings. induction s as [|c t [IHa IHb]].
  - split; [reflexivity | intros; reflexivity].
  - split.
    + simpl settledFrom. intros Hs. apply andb_prop in Hs as [Hc Ht].
      destruct (Z.eqb_spec c JS.LF) as [->|Hlf].
      * rewrite replaceLF_cons_LF, replaceCRs_CR_CR.
        change (JS.replaceCRs (JS.CR :: JS.LF :: JS.replaceLF t))
          with (JS.CR :: JS.replaceCRs (JS.LF :: JS.replaceLF t)).
        rewrite (replaceCRs_cons_other JS.LF) by discriminate.
        rewrite (IHb JS.LF); [reflexivity | discriminate | exact Ht].
      * rewrite andb_true_r in Hc.
        apply negb_true_iff in Hc. apply Z.eqb_neq in Hc.
        rewrite (replaceLF_cons_other c) by exact Hlf.
        assert (Hstep : JS.replaceCRs (JS.CR :: c :: JS.replaceLF t)
                        = JS.CR :: JS.replaceCRs (c :: JS.replaceLF t)).
        { simpl. destruct (Z.eqb_spec c JS.CR); [contradiction|reflexivity]. }
        rewrite Hstep, (replaceCRs_cons_other c) by exact Hc.
        rewrite (IHb c); [reflexivity | exact Hc | exact Ht].
    + intros p Hp. simpl settledFrom. intros Hs. apply andb_prop in Hs as [Hc Ht].
      destruct (Z.eqb_spec c JS.LF) as [->|Hlf].
      * apply Z.eqb_eq in Hc. contradiction.
      * rewrite (replaceLF_cons_other c) by exact Hlf.
        destruct (Z.eqb_spec c JS.CR) as [->|Hcr].
        -- apply IHa. exact Ht.
        -- rewrite (replaceCRs_cons_other c) by exact Hcr.
           rewrite (IHb c); [reflexivity | exact Hcr | exact Ht].
Qed.

(** A text whose terminators are all CR LF is settled. *)
Lemma crlfOnly_settled (n : nat) :
  forall (s : jsstring) (p : Z),
    (length s <= n)%nat -> p <> JS.CR -> crlfOnly s = true -> settledFrom p s = true.
Proof.
  induction n as [|n IH]; intros s p Hlen Hp Hs.
  - destruct s; [reflexivity | simpl in Hlen; lia].
  - destruct s as [|c t]; [reflexivity|].
    simpl in Hs. simpl settledFrom.
    destruct (Z.eqb_spec c JS.CR) as [->|Hcr].
    + destruct t as [|d t']; [discriminate|].
      apply andb_prop in Hs as [Hd Ht']. apply Z.eqb_eq in Hd. subst d.
      apply Z.eqb_neq in Hp. simpl. rewrite Hp. simpl.
      apply IH; [simpl in Hlen; lia | discriminate | exact Ht'].
    + apply andb_prop in Hs as [Hlf Ht]. apply negb_true_iff in Hlf.
      rewrite Hlf. simpl.
      apply IH; [simpl in Hlen; lia | exact Hcr | exact Ht].
Qed.

Lemma fixLineEndings_crlfOnly (s : jsstring) :
  crlfOnly s = true -> fixLineEndings s = s.
Proof.
  intros Hs. apply (proj2 (fixLineEndings_settled s) 0); [discriminate|].
  apply (crlfOnly_settled (length s)); [lia | discriminate | exact Hs].
Qed.

Lemma replaceLF_lfGuarded (s : jsstring) :
  forall p, lfGuarded p (JS.replaceLF s) = true.
Proof.
  induction s as [|c t IH]; intros p; [reflexivity|].
  destruct (Z.eqb_spec c JS.LF) as [->|Hlf].
  - rewrite replaceLF_cons_LF. simpl. apply IH.
  - rewrite (replaceLF_cons_other c) by exact Hlf. simpl.
    rewrite (proj2 (Z.eqb_neq c JS.LF) Hlf). apply IH.
Qed.

Lemma lfGuarded_lead (p q : Z) (x : jsstring) :
  noLeadingCR x = false -> lfGuarded p x = true -> lfGuarded q x = true.
Proof.
  destruct x as [|c t]; [discriminate|]. simpl. intros Hc.
  apply negb_false_iff, Z.eqb_eq in Hc. subst c. simpl. trivial.
Qed.

(** Collapsing the CR runs of a text whose LFs all follow a CR settles it. *)
Lemma replaceCRs_settled (x : jsstring) :
  forall p, lfGuarded p x = true -> (p =? JS.CR) && negb (noLeadingCR x) = false ->
            settledFrom p (JS.replaceCRs x) = true.
Proof.
  induction x as [|c t IH]; intros p Hg Hside; [reflexivity|].
  simpl in Hg. apply andb_prop in Hg as [Hc Ht].
  destruct (Z.eqb_spec c JS.CR) as [->|Hcr].
  - simpl in Hside. rewrite andb_true_r in Hside.
    destruct (noLeadingCR t) eqn:Hlead.
    + assert (Hstep : JS.replaceCRs (JS.CR :: t) = JS.CR :: JS.replaceCRs t).
      { destruct t as [|d t']; [reflexivity|]. simpl in Hlead.
        apply negb_true_iff in Hlead. simpl. rewrite Hlead. reflexivity. }
      rewrite Hstep. simpl. rewrite Hside. simpl.
      apply IH; [exact Ht|]. apply andb_false_r.
    + assert (Hstep : JS.replaceCRs (JS.CR :: t) = JS.replaceCRs t).
      { destruct t as [|d t']; [discriminate|]. simpl in Hlead.
        apply negb_false_iff in Hlead. simpl. rewrite Hlead. reflexivity. }
      rewrite Hstep. apply IH.
      * apply (lfGuarded_lead JS.CR); assumption.
      * rewrite Hside. reflexivity.
  - rewrite (replaceCRs_cons_other c) by exact Hcr. simpl.
    rewrite (proj2 (Z.eqb_neq c JS.CR) Hcr). simpl.
    apply andb_true_intro. split.
    + destruct (c =? JS.LF); [exact Hc | reflexivity].
    + apply IH; [exact Ht|]. rewrite (proj2 (Z.eqb_neq c JS.CR) Hcr). reflexivity.
Qed.

(** The output of the rewrite is settled, so a second pass changes nothing. *)
Lemma fixLineEndings_idempotent (s : jsstring) :
  fixLineEndings (fixLineEndings s) = fixLineEndings s.
Proof.
  apply (proj2 (fixLineEndings_settled (fixLineEndings s)) 0); [discriminate|].
  unfold fixLineEndings. apply replaceCRs_settled; [apply replaceLF_lfGuarded | reflexivity].
Qed.

End LineEndings.

(** ** Reading one file of a directory *)

Lemma printed_nil (w : world) : printed [] w = w.
Proof. destruct w. unfold printed. simpl. rewrite app_nil_r. reflexivity. Qed.

Lemma printed_app (a b : list diag) (w : world) : printed b (printed a w) = printed (a ++ b) w.
Proof. unfold printed. simpl. rewrite app_assoc. reflexivity. Qed.
Lemma append_nonempty (a b : string) : a +:+ String "/" b <> ""%string.
Proof. destruct a; discriminate. Qed.

Lemma join_nonempty (a b : string) : String.eqb (path.join a b) "" = false.
Proof.
  apply String.eqb_neq. unfold path.join.
  destruct (JS.endsWith a "/") eqn:He.
  - destruct a; [discriminate He | discriminate].
  - apply append_nonempty.
Qed.

Lemma land_bit7_small (c : Z) : 0 <= c < 128 -> Z.land c 0x80 = 0.
Proof.
  intros Hc. apply Z.bits_inj'. intros n Hn.
  rewrite Z.land_spec, Z.bits_0.
  change 0x80 with (2 ^ 7). rewrite Z.pow2_bits_eqb by lia.
  destruct (Z.eqb_spec 7 n) as [<-|Hne]; [|apply andb_false_r].
  rewrite andb_true_r. apply Z.testbit_false; [lia|].
  rewrite Z.div_small by (change (2 ^ 7) with 128; lia). reflexivity.
Qed.

Lemma sevenBit_isASCII (s : jsstring) : sevenBit s = true -> isASCII s = true.
Proof.
  unfold sevenBit, isASCII. rewrite !forallb_forall. intros Hs c Hc.
  specialize (Hs c Hc). apply andb_prop in Hs as [H0 H1].
  apply Z.leb_le in H0. apply Z.ltb_lt in H1.
  apply Z.eqb_eq, land_bit7_small. lia.
Qed.

Section EntryFile.
Context `{NodeRuntime}.

Lemma readFileAt_readable (sFile : string) (db : DataBuffer) (encoding : option Encoding) (w : world) :
  String.eqb sFile "" = false ->
  readFileAt (Some (Some db)) sFile encoding w =
  (Ok (Some (match encoding with Some utf8 => Str (utf8Decode db) | None => Buf db end)), w).
Proof. intros Hs. unfold readFileAt. rewrite Hs. destruct encoding as [[]|]; reflexivity. Qed.

Lemma readFileAt_failing (sFile : string) (encoding : option Encoding) (w : world) :
  String.eqb sFile "" = false ->
  readFileAt (Some None) sFile encoding w = (Ok None, printed [DError "EACCES"] w).
Proof. intros Hs. unfold readFileAt. rewrite Hs. reflexivity. Qed.

Lemma readFileAt_missing (sFile : string) (encoding : option Encoding) (w : world) :
  readFileAt None sFile encoding w = (Ok None, w).
Proof. unfold readFileAt. destruct (String.eqb sFile ""); reflexivity. Qed.

Lemma when_sizeNotes (len size : Z) (w : world) :
  when (negb (len =? size)) (printf (DLengthMismatch len size)) w
  = (Ok tt, printed (sizeNotes len size) w).
Proof.
  unfold sizeNotes. destruct (len =? size); simpl; [|reflexivity].
  unfold ret. rewrite printed_nil. reflexivity.
Qed.

(** The text branch, on text that passes [isASCII] and on text that does not. *)
Lemma normalizeText_ascii (sName : string) (s : jsstring) (w : world) :
  isASCII s = true ->
  normalizeText sName (Str s) w =
  (Ok (Buf (bufferFromString (fixLineEndings s))),
   printed (replacedNotes sName s (fixLineEndings s)) w).
Proof.
  intros Ha. unfold normalizeText, replacedNotes, bind. rewrite Ha.
  destruct (bool_decide (fixLineEndings s = s)); simpl; [|reflexivity].
  unfold ret. rewrite printed_nil. reflexivity.
Qed.

Lemma normalizeText_other (sName : string) (s : jsstring) (w : world) :
  isASCII s = false ->
  normalizeText sName (Str s) w =
  (Ok (Buf (bufferFromString s)), printed [DNonASCII sName] w).
Proof. intros Ha. unfold normalizeText, bind. rewrite Ha. reflexivity. Qed.

(** A file read as bytes: normalization off, or not a text file. *)
Lemma readEntryFile_binary (fNormalize : bool) (sPath sName : string) (mtime size : Z)
    (db : DataBuffer) (w : world) :
  String.eqb sPath "" = false ->
  fNormalize && isTextFile sName = false ->
  readEntryFile fNormalize sPath sName mtime size (Some db) w =
  (Ok (Some (fileRecord sPath sName mtime (Buf db))),
   printed (sizeNotes (Z.of_nat (length db)) size) w).
Proof.
  intros Hp Ht. unfold readEntryFile, bind. rewrite Ht.
  rewrite readFileAt_readable by exact Hp. unfold falsy. cbv beta iota.
  rewrite when_sizeNotes. reflexivity.
Qed.

(** A text file under normalization with non-empty content. *)
Lemma readEntryFile_text (sPath sName : string) (mtime size : Z)
    (db : DataBuffer) (w : world) :
  String.eqb sPath "" = false ->
  isTextFile sName = true ->
  utf8Decode db <> [] ->
  readEntryFile true sPath sName mtime size (Some db) w =
  let s := utf8Decode db in
  let '(r, w') := normalizeText sName (Str s)
                    (printed (sizeNotes (Z.of_nat (length s)) size) w) in
  (match r with
   | Ok d => Ok (Some (fileRecord sPath sName mtime d))
   | Thrown e => Thrown e
   end, w').
Proof.
  intros Hp Ht Hs. unfold readEntryFile, bind. rewrite Ht. simpl andb. cbv iota.
  rewrite readFileAt_readable by exact Hp.
  destruct (utf8Decode db) as [|c t] eqn:Hd; [congruence|].
  unfold falsy. cbv beta iota. rewrite when_sizeNotes.
  change (true && true) with true. cbv iota zeta.
  change (dataLength (Str (c :: t))) with (Z.of_nat (length (c :: t))).
  destruct (normalizeText sName (Str (c :: t)) _) as [[d|e] w']; reflexivity.
Qed.

(** A text file under normalization whose content decodes to the empty
    string: no record, no message. *)
Lemma readEntryFile_empty_text (sPath sName : string) (mtime size : Z) (w : world) :
  isTextFile sName = true ->
  readEntryFile true sPath sName mtime size (Some []) w = (Ok None, w).
Proof.
  intros Ht. unfold readEntryFile, bind, readFileAt. rewrite Ht. simpl andb. cbv iota.
  destruct (String.eqb sPath ""); [reflexivity|].
  simpl. rewrite utf8Decode_nil. reflexivity.
Qed.

(** A file whose read throws: the error is printed, no record. *)
Lemma readEntryFile_failing (fNormalize : bool) (sPath sName : string) (mtime size : Z)
    (w : world) :
  String.eqb sPath "" = false ->
  readEntryFile fNormalize sPath sName mtime size None w =
  (Ok None, printed [DError "EACCES"] w).
Proof.
  intros Hp. unfold readEntryFile, bind.
  rewrite readFileAt_failing by exact Hp. reflexivity.
Qed.

End EntryFile.

Section TextClaims.
Context `{NodeRuntime}.


(** C4: a text whose code units are all below 128 and whose line
    terminators are all CR LF is a fixed point of the line-ending rewrite;
    the text branch stores its bytes as they are and prints nothing. *)
Theorem normalization_keeps_crlf_text (sName : string) (s : jsstring) (w : world) :
  sevenBit s = true ->
  crlfOnly s = true ->
  fixLineEndings s = s /\
  normalizeText sName (Str s) w = (Ok (Buf (bufferFromString s)), w).
Proof.
  intros H7 Hc. pose proof (fixLineEndings_crlfOnly s Hc) as Hfix.
  split; [exact Hfix|].
  rewrite normalizeText_ascii by (apply sevenBit_isASCII; exact H7).
  unfold replacedNotes. rewrite Hfix.
  rewrite bool_decide_eq_true_2 by reflexivity.
  rewrite printed_nil. reflexivity.
Qed.

End TextClaims.

(** The text branch applied twice stores what it stores when applied once. *)
Lemma normalization_second_pass `{NodeRuntime} (s : jsstring) :
  bufferFromString (fixLineEndings (fixLineEndings s)) = bufferFromString (fixLineEndings s).
Proof. rewrite fixLineEndings_idempotent. reflexivity. Qed.



(** The fixed-point theorem at the text "a", CR, LF, "b". *)
Lemma normalization_keeps_crlf_text_witness :
  (sevenBit [97; 13; 10; 98] = true /\ crlfOnly [97; 13; 10; 98] = true) /\
  fixLineEndings [97; 13; 10; 98] = [97; 13; 10; 98] /\
  @normalizeText Sample.runtime "A.TXT" (Str [97; 13; 10; 98]) (Sample.world0 5) =
    (Ok (Buf (@bufferFromString Sample.runtime [97; 13; 10; 98])), Sample.world0 5).
Proof.
  split; [split; reflexivity|].
  exact (@normalization_keeps_crlf_text Sample.runtime "A.TXT" [97; 13; 10; 98]
           (Sample.world0 5) eq_refl eq_refl).
Defined.

(** ** The loop and the walk *)

Lemma spend_spend (a b : Z) (w : world) : spend a (spend b w) = spend (b + a) w.
Proof. unfold spend. simpl. f_equal. lia. Qed.

Lemma forFiles_nil (body : string -> fsnode -> M (option FileData)) (acc : list FileData)
    (w : world) :
  forFiles body [] acc w = (Ok acc, w).
Proof. reflexivity. Qed.

Lemma forFiles_exhausted (body : string -> fsnode -> M (option FileData))
    (es : list (string * fsnode)) (acc : list FileData) (w : world) :
  nMaxFiles w <= 0 -> forFiles body es acc w = (Ok acc, w).
Proof.
  intros Hn. destruct es as [|[sName nd] rest]; [reflexivity|].
  simpl. unfold bind, getMaxFiles.
  rewrite (proj2 (Z.ltb_ge 0 (nMaxFiles w)) Hn). reflexivity.
Qed.

(** One turn of the loop: the body runs, the budget drops by one whatever
    the body yielded, the loop goes on with the rest. *)
Lemma forFiles_step (body : string -> fsnode -> M (option FileData))
    (sName : string) (nd : fsnode) (rest : list (string * fsnode))
    (acc : list FileData) (w : world) :
  0 < nMaxFiles w ->
  forFiles body ((sName, nd) :: rest) acc w =
  match body sName nd w with
  | (Ok file, w') => forFiles body rest (acc ++ pushed file) (spend 1 w')
  | (Thrown e, w') => (Thrown e, w')
  end.
Proof.
  intros Hn. simpl. unfold bind, getMaxFiles.
  rewrite (proj2 (Z.ltb_lt 0 (nMaxFiles w)) Hn).
  destruct (body sName nd w) as [[file|e] w']; [|reflexivity].
  destruct file as [f|]; simpl; [reflexivity|].
  rewrite app_nil_r. reflexivity.
Qed.

Section Walk.
Context `{NodeRuntime}.

Lemma initialList_eq (sDir : string) (sLabel : option string) (w : world) :
  initialList sDir sLabel w = (Ok (labelList sDir sLabel (clock w)), w).
Proof.
  unfold initialList, labelList, effectiveLabel, truthyLabel.
  destruct (resolveLabel sLabel) as [l|]; [|reflexivity].
  destruct (String.eqb l ""); reflexivity.
Qed.

Lemma readDirFiles_Dir (sDir : string) (fNormalize : bool) (sLabel : option string)
    (mtime : Z) (es : list (string * fsnode)) (w : world) :
  readDirFiles sDir fNormalize sLabel (Dir mtime es) w =
  forFiles (visitEntry (fun sPath c => readDirFiles sPath fNormalize None c) fNormalize sDir)
    es (labelList sDir sLabel (clock w)) w.
Proof.
  simpl. unfold bind. rewrite initialList_eq. reflexivity.
Qed.


Lemma visitEntry_hidden (recur : string -> fsnode -> M (list FileData)) (fNormalize : bool)
    (sDir sName : string) (nd : fsnode) (w : world) :
  JS.startsWithDot sName = true ->
  visitEntry recur fNormalize sDir sName nd w = (Ok None, w).
Proof. intros Hh. unfold visitEntry. rewrite Hh. reflexivity. Qed.

(** Reading a file only prints: it yields no record or a file record, never
    throws, and leaves budget and clock alone. *)
Lemma readEntryFile_effect (fNormalize : bool) (sPath sName : string) (mtime size : Z)
    (content : option DataBuffer) (w : world) (r : outcome (option FileData)) (w' : world) :
  readEntryFile fNormalize sPath sName mtime size content w = (r, w') ->
  nMaxFiles w' = nMaxFiles w /\ clock w' = clock w /\
  (r = Ok None \/ exists d, r = Ok (Some (fileRecord sPath sName mtime d))).
Proof.
  unfold readEntryFile, bind, readFileAt, tryCatch, readFileSync, normalizeText, bind,
    when, printf, ret, throw, fileRecord.
  destruct (String.eqb sPath ""), content as [db|], (fNormalize && isTextFile sName);
    simpl; try destruct (utf8Decode db) as [|c t]; simpl; split_ifs; simpl;
    intros E; inversion E; subst; simpl;
    (split; [reflexivity|split; [reflexivity|]]);
    first [left; reflexivity | right; eexists (Buf _); reflexivity].
Qed.

Lemma countLabels_app (a b : list FileData) :
  countLabels (a ++ b) = (countLabels a + countLabels b)%nat.
Proof. induction a as [|f a IH]; simpl; [reflexivity|]. rewrite IH. lia. Qed.

Lemma countFiles_app (a b : list FileData) :
  countFiles (a ++ b) = (countFiles a + countFiles b)%nat.
Proof. induction a as [|f a IH]; simpl; [reflexivity|]. rewrite IH. lia. Qed.

Lemma countRecords_app (a b : list FileData) :
  countRecords (a ++ b) = (countRecords a + countRecords b)%nat.
Proof. induction a as [|f a IH]; simpl; [reflexivity|]. rewrite IH. lia. Qed.

Lemma countLabel_dir (sPath sName : string) (a mtime size : Z) (d : option filedata)
    (l : list FileData) :
  countLabel (FileData.make sPath sName a mtime size d (Some l)) =
  ((if (a =? DiskImage.ATTR.VOLUME)%Z then 1 else 0) + countLabels l)%nat.
Proof. reflexivity. Qed.

Lemma countFile_dir (sPath sName : string) (a mtime size : Z) (d : option filedata)
    (l : list FileData) :
  countFile (FileData.make sPath sName a mtime size d (Some l)) = countFiles l.
Proof. reflexivity. Qed.

Lemma countRecord_dir (sPath sName : string) (a mtime size : Z) (d : option filedata)
    (l : list FileData) :
  countRecord (FileData.make sPath sName a mtime size d (Some l)) = S (countRecords l).
Proof. reflexivity. Qed.

Lemma forFiles_walkFacts (fNormalize : bool) (sDir : string) (es : list (string * fsnode)) :
  Forall (fun e => walkFacts (snd e)) es ->
  forall acc w l w',
    forFiles (visitEntry (fun sPath c => readDirFiles sPath fNormalize None c) fNormalize sDir)
      es acc w = (Ok l, w') ->
    exists rest, l = acc ++ rest /\ walkBound w rest w'.
Proof.
  unfold walkBound.
  induction 1 as [|[sName nd] rest Hnd Hrest IH]; intros acc w l w' Hrun.
  - rewrite forFiles_nil in Hrun. inversion Hrun; subst.
    exists []. rewrite app_nil_r. simpl. split; [reflexivity|]. split; [reflexivity|lia].
  - destruct (Z_lt_le_dec 0 (nMaxFiles w)) as [Hpos|Hle].
    2:{ rewrite forFiles_exhausted in Hrun by exact Hle. inversion Hrun; subst.
        exists []. rewrite app_nil_r. simpl. split; [reflexivity|]. split; [reflexivity|lia]. }
    rewrite forFiles_step in Hrun by exact Hpos.
    destruct (visitEntry _ fNormalize sDir sName nd w) as [[file|e] w1] eqn:Hbody;
      [|discriminate].
    apply IH in Hrun as (more & -> & Hlab & Hbud). simpl in Hbud.
    assert (Hfile : countLabels (pushed file) = 0%nat /\
                    Z.of_nat (countFiles (pushed file)) + Z.max 0 (nMaxFiles w1 - 1)
                    <= Z.max 0 (nMaxFiles w)).
    { unfold visitEntry in Hbody.
      destruct (JS.startsWithDot sName).
      - inversion Hbody; subst. simpl. split; [reflexivity|lia].
      - destruct nd as [mtime size content|mtime entries|].
        + apply readEntryFile_effect in Hbody as (Hn & _ & [E|[d E]]);
            inversion E; subst; simpl; rewrite Hn; split; try reflexivity; lia.
        + unfold bind in Hbody.
          destruct (readDirFiles _ fNormalize None (Dir mtime entries) w)
            as [[files|e] w2] eqn:Hsub; [|discriminate].
          inversion Hbody; subst. simpl in Hnd.
          apply Hnd in Hsub as (sub & Hfiles & Hl & Hb).
          change (files = sub) in Hfiles. subst files.
          unfold pushed. cbn [countLabels countFiles].
          rewrite countLabel_dir, countFile_dir.
          change (DiskImage.ATTR.SUBDIR =? DiskImage.ATTR.VOLUME) with false.
          rewrite Hl. split; [reflexivity|]. lia.
        + discriminate. }
    destruct Hfile as [Hfl Hfb].
    exists (pushed file ++ more). rewrite app_assoc. split; [reflexivity|].
    rewrite countLabels_app, countFiles_app. split; [lia|]. lia.
Qed.

Lemma walkFacts_all (d : fsnode) : walkFacts d.
Proof.
  induction d as [mtime size content|mtime entries IH|] using fsnode_tree_ind;
    intros sDir fNormalize sLabel w l w' Hrun.
  - discriminate.
  - rewrite readDirFiles_Dir in Hrun.
    apply (forFiles_walkFacts fNormalize sDir entries IH) in Hrun. exact Hrun.
  - discriminate.
Qed.

End Walk.

Section WalkResults.
Context `{NodeRuntime}.

Lemma walkable_Dir (mtime : Z) (es : list (string * fsnode)) :
  walkable (Dir mtime es) = forallb (fun e => walkable (snd e)) es.
Proof.
  simpl. induction es as [|[sName c] t IH]; [reflexivity|].
  simpl. rewrite IH. reflexivity.
Qed.

Lemma forFiles_returns (fNormalize : bool) (sDir : string) (es : list (string * fsnode)) :
  Forall (fun e => walkReturns (snd e)) es ->
  forallb (fun e => walkable (snd e)) es = true ->
  forall acc w,
    exists l w',
      forFiles (visitEntry (fun sPath c => readDirFiles sPath fNormalize None c) fNormalize sDir)
        es acc w = (Ok l, w').
Proof.
  induction 1 as [|[sName nd] rest Hnd Hrest IH]; intros Hall acc w.
  - exists acc, w. reflexivity.
  - simpl in Hall. apply andb_prop in Hall as [Hw Hall].
    destruct (Z_lt_le_dec 0 (nMaxFiles w)) as [Hpos|Hle].
    2:{ exists acc, w. apply forFiles_exhausted. exact Hle. }
    rewrite forFiles_step by exact Hpos.
    assert (Hbody : exists file w1,
               visitEntry (fun sPath c => readDirFiles sPath fNormalize None c)
                 fNormalize sDir sName nd w = (Ok file, w1)).
    { unfold visitEntry. destruct (JS.startsWithDot sName); [exists None, w; reflexivity|].
      destruct nd as [mtime size content|mtime entries|]; [| |discriminate Hw].
      - destruct (readEntryFile fNormalize (path.join sDir sName) sName mtime size content w)
          as [r w1] eqn:Hr.
        pose proof (readEntryFile_effect _ _ _ _ _ _ _ _ _ Hr) as (_ & _ & [->|[d ->]]);
          eauto.
      - simpl in Hnd.
        destruct (Hnd (path.join sDir sName) fNormalize None w mtime entries eq_refl Hw)
          as (files & w1 & Hsub).
        unfold bind. rewrite Hsub. eauto. }
    destruct Hbody as (file & w1 & ->). apply IH. exact Hall.
Qed.

(** On a tree without faulty entries the walk of a directory returns. *)
Lemma walkReturns_all (d : fsnode) : walkReturns d.
Proof.
  induction d as [mtime size content|mtime entries IH|] using fsnode_tree_ind;
    intros sDir fNormalize sLabel w mtime' es Hd Hw; try discriminate.
  rewrite readDirFiles_Dir. rewrite walkable_Dir in Hw.
  apply forFiles_returns; assumption.
Qed.

(** An entry that [yieldsRecord] gives a file record and only prints. *)
Lemma yieldsRecord_visit (recur : string -> fsnode -> M (list FileData)) (fNormalize : bool)
    (sDir sName : string) (nd : fsnode) (w : world) :
  yieldsRecord fNormalize (sName, nd) = true ->
  exists d ds,
    visitEntry recur fNormalize sDir sName nd w =
    (Ok (Some (fileRecord (path.join sDir sName) sName
                 (match nd with File mtime _ _ => mtime | _ => 0 end) d)),
     printed ds w).
Proof.
  unfold yieldsRecord, visitEntry. simpl fst. simpl snd. intros Hy.
  apply andb_prop in Hy as [Hv Hf]. apply negb_true_iff in Hv. rewrite Hv.
  destruct nd as [mtime size [db|]|mtime entries|]; try discriminate.
  destruct (fNormalize && isTextFile sName) eqn:Ht.
  - apply andb_prop in Ht as [-> Ht].
    destruct (utf8Decode db) as [|c t] eqn:Hd; [discriminate|].
    rewrite readEntryFile_text;
      [| apply join_nonempty | exact Ht | rewrite Hd; discriminate].
    cbv zeta. rewrite Hd.
    destruct (isASCII (c :: t)) eqn:Ha.
    + rewrite normalizeText_ascii by exact Ha. rewrite printed_app. eauto.
    + rewrite normalizeText_other by exact Ha. rewrite printed_app. eauto.
  - rewrite readEntryFile_binary; [eauto | apply join_nonempty | exact Ht].
Qed.

(** A directory of entries that all give a record: the loop pushes one
    record per entry until the entries or the budget run out. *)
Lemma forFiles_flat (recur : string -> fsnode -> M (list FileData)) (fNormalize : bool)
    (sDir : string) (es : list (string * fsnode)) :
  forallb (yieldsRecord fNormalize) es = true ->
  forall acc w,
    exists l w',
      forFiles (visitEntry recur fNormalize sDir) es acc w = (Ok (acc ++ l), w') /\
      length l = Nat.min (length es) (Z.to_nat (nMaxFiles w)) /\
      countRecords l = length l /\ countFiles l = length l /\ countLabels l = 0%nat /\
      nMaxFiles w' = nMaxFiles w - Z.of_nat (length l).
Proof.
  induction es as [|[sName nd] rest IH]; intros Hall acc w.
  - exists [], w. rewrite app_nil_r. simpl. repeat split; lia.
  - simpl in Hall. apply andb_prop in Hall as [Hy Hall].
    destruct (Z_lt_le_dec 0 (nMaxFiles w)) as [Hpos|Hle].
    2:{ exists [], w. rewrite app_nil_r, forFiles_exhausted by exact Hle.
        replace (Z.to_nat (nMaxFiles w)) with 0%nat by lia.
        rewrite Nat.min_0_r. simpl. repeat split; lia. }
    rewrite forFiles_step by exact Hpos.
    destruct (yieldsRecord_visit recur fNormalize sDir sName nd w Hy) as (d & ds & ->).
    destruct (IH Hall (acc ++ pushed (Some (fileRecord (path.join sDir sName) sName
                                       (match nd with File mtime _ _ => mtime | _ => 0 end) d)))
                (spend 1 (printed ds w)))
      as (l & w' & Hrun & Hlen & Hrec & Hfil & Hlab & Hn).
    cbn [nMaxFiles spend printed] in Hlen, Hn.
    eexists (_ :: l), w'. rewrite Hrun. simpl pushed.
    rewrite <- app_assoc. simpl app. split; [reflexivity|].
    cbn [length countRecords countFiles countLabels].
    rewrite Hrec, Hfil, Hlab, Hn, Hlen.
    replace (Z.to_nat (nMaxFiles w)) with (S (Z.to_nat (nMaxFiles w - 1))) by lia.
    unfold fileRecord. simpl. repeat split; lia.
Qed.

Lemma readDir_files_eq (sDir : string) (fNormalize : bool) (sLabel : option string)
    (nMax : option Z) (w : world) :
  readDir_files sDir fNormalize sLabel nMax w =
  readDirFiles sDir fNormalize
    (if truthyLabel sLabel then sLabel else Some (path.basename sDir))
    (default Faulty (dirs w !! sDir)) (budgeted (orNumber nMax 256) w).
Proof. reflexivity. Qed.

End WalkResults.

Section WalkClaims.
Context `{NodeRuntime}.

Lemma countFiles_labelList (sDir : string) (sLabel : option string) (now : Z) :
  countFiles (labelList sDir sLabel now) = 0%nat.
Proof. unfold labelList. destruct (effectiveLabel sLabel); reflexivity. Qed.

Lemma countRecords_labelList (sDir : string) (sLabel : option string) (now : Z) :
  countRecords (labelList sDir sLabel now) = countLabels (labelList sDir sLabel now).
Proof. unfold labelList. destruct (effectiveLabel sLabel); reflexivity. Qed.

(** An entry for which the body yields no record costs one unit of budget
    and nothing else. *)
Lemma readDirFiles_skip (sDir : string) (fNormalize : bool) (sLabel : option string)
    (mtime : Z) (sName : string) (nd : fsnode) (rest : list (string * fsnode))
    (ds : list diag) (w : world) :
  0 < nMaxFiles w ->
  visitEntry (fun sPath c => readDirFiles sPath fNormalize None c) fNormalize sDir sName nd w
    = (Ok None, printed ds w) ->
  readDirFiles sDir fNormalize sLabel (Dir mtime ((sName, nd) :: rest)) w =
  readDirFiles sDir fNormalize sLabel (Dir mtime rest) (spend 1 (printed ds w)).
Proof.
  intros Hpos Hbody. rewrite !readDirFiles_Dir.
  rewrite forFiles_step by exact Hpos. rewrite Hbody.
  simpl pushed. rewrite app_nil_r. reflexivity.
Qed.

Lemma readDir_files_returns (sDir : string) (fNormalize : bool) (sLabel : option string)
    (nMax : option Z) (w : world) (mtime : Z) (es : list (string * fsnode)) :
  dirs w !! sDir = Some (Dir mtime es) ->
  walkable (Dir mtime es) = true ->
  exists l w', readDir_files sDir fNormalize sLabel nMax w = (Ok l, w').
Proof.
  intros Hdir Hw. rewrite readDir_files_eq, Hdir.
  exact (walkReturns_all (Dir mtime es) sDir fNormalize _ _ mtime es eq_refl Hw).
Qed.

(** C2 (amended): the budget ([nMax], 256 when missing or zero) is one
    counter for the whole recursive walk, lowered by one after every entry
    the loop visits, whatever the body did with it (for a subdirectory,
    after its own entries were walked). The walk of a directory tree on
    which no [fs] call throws returns a list; every file record at any depth
    has cost one unit of the counter, so the records that are neither
    directories nor the label number at most the budget; and a directory
    whose entries are all visible readable files, with at least as many
    entries as the budget, gives exactly as many records as the budget,
    besides the label. *)
Theorem budget_bounds_file_records (sDir : string) (fNormalize : bool)
    (sLabel : option string) (nMax : option Z) (w : world) :
  (forall mtime es,
      dirs w !! sDir = Some (Dir mtime es) -> walkable (Dir mtime es) = true ->
      exists l w', readDir_files sDir fNormalize sLabel nMax w = (Ok l, w')) /\
  (forall l w',
      readDir_files sDir fNormalize sLabel nMax w = (Ok l, w') ->
      Z.of_nat (countFiles l) + Z.max 0 (nMaxFiles w') <= Z.max 0 (orNumber nMax 256) /\
      (forall mtime es,
          dirs w !! sDir = Some (Dir mtime es) ->
          forallb (yieldsRecord fNormalize) es = true ->
          (Z.to_nat (orNumber nMax 256) <= length es)%nat ->
          countFiles l = Z.to_nat (orNumber nMax 256) /\
          countRecords l = (countLabels l + Z.to_nat (orNumber nMax 256))%nat)) /\
  (forall body sName nd rest acc w0,
      0 < nMaxFiles w0 ->
      forFiles body ((sName, nd) :: rest) acc w0 =
      match body sName nd w0 with
      | (Ok file, w1) => forFiles body rest (acc ++ pushed file) (spend 1 w1)
      | (Thrown e, w1) => (Thrown e, w1)
      end).
Proof.
  split; [|split].
  - intros mtime es. apply readDir_files_returns.
  - intros l w' Hrun. rewrite readDir_files_eq in Hrun. split.
    + apply walkFacts_all in Hrun as (rest & -> & _ & Hb).
      rewrite countFiles_app, countFiles_labelList. simpl in Hb |- *. exact Hb.
    + intros mtime es Hdir Hflat Hmany. rewrite Hdir in Hrun.
      change (default Faulty (Some (Dir mtime es))) with (Dir mtime es) in Hrun.
      rewrite readDirFiles_Dir in Hrun.
      edestruct (forFiles_flat (fun sPath c => readDirFiles sPath fNormalize None c)
                   fNormalize sDir es Hflat)
        as (l2 & w2 & Hloop & Hlen & Hrec & Hfil & Hlab & _).
      rewrite Hloop in Hrun. inversion Hrun; subst. clear Hrun.
      cbn [nMaxFiles budgeted] in Hlen.
      rewrite countFiles_app, countRecords_app, countLabels_app.
      rewrite countFiles_labelList, countRecords_labelList, Hfil, Hrec, Hlab, Hlen.
      split; lia.
  - intros body sName nd rest acc w0. apply forFiles_step.
Qed.






Lemma givenLabel_eq (sDir : string) (sLabel : option string) :
  (if truthyLabel sLabel then sLabel else Some (path.basename sDir)) =
  Some (givenLabel sDir sLabel).
Proof.
  destruct sLabel as [s|]; [|reflexivity]. simpl.
  destruct (String.eqb s ""); reflexivity.
Qed.


(** C9: a hidden entry and a file whose read throws each cost one unit of
    the budget and give no record: the walk goes on as if the entry were not
    there, with one unit less. So a walk can return fewer records than its
    budget and still leave entries out: with a budget of 3, the directory
    holding a hidden entry, an unreadable file and the files "a" and "b"
    gives the record of "a" alone. *)
Theorem unrecorded_entries_use_budget (sDir : string) (fNormalize : bool)
    (sLabel : option string) (mtime : Z) (sName : string) (nd : fsnode)
    (rest : list (string * fsnode)) (w : world) :
  0 < nMaxFiles w ->
  (JS.startsWithDot sName = true ->
   readDirFiles sDir fNormalize sLabel (Dir mtime ((sName, nd) :: rest)) w =
   readDirFiles sDir fNormalize sLabel (Dir mtime rest) (spend 1 w)) /\
  (JS.startsWithDot sName = false ->
   forall mt size, nd = File mt size None ->
   readDirFiles sDir fNormalize sLabel (Dir mtime ((sName, nd) :: rest)) w =
   readDirFiles sDir fNormalize sLabel (Dir mtime rest)
     (spend 1 (printed [DError "EACCES"] w))) /\
  (exists l w',
      readDirFiles "/d" false (Some "none"%string) Sample.mixedDir (Sample.world0 3)
      = (Ok l, w') /\
      l = [fileRecord "/d/a" "a" 500 (Buf (Sample.ascii "x"))] /\
      Z.of_nat (countRecords l) < nMaxFiles (Sample.world0 3) /\
      nMaxFiles w' = 0).
Proof.
  intros Hpos. split; [|split].
  - intros Hh. rewrite <- (printed_nil w) at 2.
    apply readDirFiles_skip; [exact Hpos|].
    rewrite printed_nil. apply visitEntry_hidden. exact Hh.
  - intros Hv mt size ->. apply readDirFiles_skip; [exact Hpos|].
    unfold visitEntry. rewrite Hv.
    apply readEntryFile_failing, join_nonempty.
  - eexists _, _. split; [vm_compute; reflexivity|].
    split; [reflexivity|]. split; reflexivity.
Qed.

End WalkClaims.

(** The budget theorem on the directory of three files with a budget of 2. *)
Lemma budget_bounds_file_records_witness :
  exists l w',
    @readDir_files Sample.runtime "/d" false (Some "none"%string) (Some 2)
      (Sample.worldAt 0 Sample.flatDir) = (Ok l, w') /\
    Z.of_nat (countFiles l) + Z.max 0 (nMaxFiles w') <= Z.max 0 (orNumber (Some 2) 256) /\
    countFiles l = Z.to_nat (orNumber (Some 2) 256) /\
    countRecords l = (countLabels l + Z.to_nat (orNumber (Some 2%Z) 256%Z))%nat.
Proof.
  eexists _, _. split; [vm_compute; reflexivity|].
  pose proof (proj1 (proj2 (@budget_bounds_file_records Sample.runtime "/d" false
                              (Some "none"%string) (Some 2)
                              (Sample.worldAt 0 Sample.flatDir))) _ _ eq_refl)
    as [Hb Hflat].
  split; [exact Hb|].
  exact (Hflat 1 [("a"%string, Sample.file "x"); ("b"%string, Sample.file "y");
                  ("c"%string, Sample.file "z")] eq_refl eq_refl
           (le_S _ _ (le_n 2))).
Defined.

(** C2, as the claim words it, fails on a directory "a" holding one file,
    followed by a file "g": three entries against a budget of 1, and the walk
    returns two records, the directory and the file in it. *)
Lemma budget_exact_counterexample :
  countEntries Sample.nestedDir = 3%nat /\
  exists l w',
    @readDir_files Sample.runtime "/d" false (Some "none"%string) (Some 1)
      (Sample.worldAt 0 Sample.nestedDir) = (Ok l, w') /\
    countRecords l = 2%nat /\ countRecords l <> Z.to_nat 1.
Proof.
  split; [reflexivity|]. eexists _, _.
  split; [vm_compute; reflexivity|]. split; [reflexivity|]. discriminate.
Qed.



Example volume_label_from_basename :
  exists l w',
    @readDir_files Sample.runtime "/d" false None None
      (Sample.worldAt 0 Sample.nestedDir) = (Ok l, w') /\
    hd_error l = Some (labelRecord "/d" "d" 1000) /\ countLabels l = 1%nat.
Proof. eexists _, _. split; [vm_compute; reflexivity|]. split; reflexivity. Qed.

(** The hidden entry in front of the file "a". *)
Lemma unrecorded_entries_use_budget_witness :
  0 < nMaxFiles (Sample.world0 2) /\
  @readDirFiles Sample.runtime "/d" false None
    (Dir 1 [(".git"%string, Faulty); ("a"%string, Sample.file "x")]) (Sample.world0 2) =
  @readDirFiles Sample.runtime "/d" false None
    (Dir 1 [("a"%string, Sample.file "x")]) (spend 1 (Sample.world0 2)).
Proof.
  split; [reflexivity|].
  exact (proj1 (@unrecorded_entries_use_budget Sample.runtime "/d" false None 1 ".git"
                  Faulty [("a"%string, Sample.file "x")] (Sample.world0 2) eq_refl) eq_refl).
Defined.

(** ** Writing and comparing disk files *)

Section Output.
Context `{NodeRuntime} {DI : Type} `{DiskImageClass DI}.

(** [readFile] on the store, case by case. *)
Lemma readFile_readable (sFile : string) (db : DataBuffer) (mode : Z) (w : world) :
  sFile <> ""%string ->
  disk w !! sFile = Some (mkFsFile (Some db) mode) ->
  readFile sFile None w = (Ok (Some (Buf db)), w).
Proof.
  intros Hs Hd. apply String.eqb_neq in Hs.
  unfold readFile. rewrite Hd. simpl. apply readFileAt_readable. exact Hs.
Qed.

Lemma readFile_unreadable (sFile : string) (w : world) :
  unreadable w sFile ->
  exists ds, readFile sFile None w = (Ok None, printed ds w).
Proof.
  intros [->|[Hd|[mode Hd]]].
  - exists []. rewrite printed_nil. reflexivity.
  - exists []. rewrite printed_nil. unfold readFile. rewrite Hd. apply readFileAt_missing.
  - unfold readFile. rewrite Hd. simpl.
    destruct (String.eqb sFile "") eqn:Hs.
    + exists []. rewrite printed_nil. unfold readFileAt. rewrite Hs. reflexivity.
    + exists [DError "EACCES"]. apply readFileAt_failing. exact Hs.
Qed.

(** [readFile] with encoding [null] only prints, and gives a buffer exactly
    for a readable file at a non-empty path. *)
Lemma readFile_cases (sFile : string) (w : world) :
  (unreadable w sFile /\ exists ds, readFile sFile None w = (Ok None, printed ds w)) \/
  (exists db mode, sFile <> ""%string /\ disk w !! sFile = Some (mkFsFile (Some db) mode) /\
                   readFile sFile None w = (Ok (Some (Buf db)), w)).
Proof.
  destruct (String.eqb_spec sFile "") as [->|Hs].
  { left. split; [left; reflexivity|]. apply readFile_unreadable. left. reflexivity. }
  destruct (disk w !! sFile) as [[[db|] mode]|] eqn:Hd.
  - right. exists db, mode. split; [exact Hs|]. split; [reflexivity|].
    eapply readFile_readable; eassumption.
  - left. assert (Hu : unreadable w sFile) by (right; right; eauto).
    split; [exact Hu|]. apply readFile_unreadable. exact Hu.
  - left. assert (Hu : unreadable w sFile) by (right; left; exact Hd).
    split; [exact Hu|]. apply readFile_unreadable. exact Hu.
Qed.

Lemma unreadable_printed (ds : list diag) (w : world) (sFile : string) :
  unreadable (printed ds w) sFile <-> unreadable w sFile.
Proof. reflexivity. Qed.

(** [compareDisks] only prints and never throws; its result is [true]
    exactly when both files are readable and hold the same bytes. *)
Lemma compareDisks_cases (sDisk1 sDisk2 : string) (w : world) :
  exists ds,
    (compareDisks sDisk1 sDisk2 w = (Ok false, printed ds w) /\
     (unreadable w sDisk1 \/ unreadable w sDisk2 \/
      exists b1 b2 m1 m2,
        disk w !! sDisk1 = Some (mkFsFile (Some b1) m1) /\
        disk w !! sDisk2 = Some (mkFsFile (Some b2) m2) /\ b1 <> b2)) \/
    (compareDisks sDisk1 sDisk2 w = (Ok true, printed ds w) /\
     exists b m1 m2,
       sDisk1 <> ""%string /\ sDisk2 <> ""%string /\
       disk w !! sDisk1 = Some (mkFsFile (Some b) m1) /\
       disk w !! sDisk2 = Some (mkFsFile (Some b) m2)).
Proof.
  unfold compareDisks, bind.
  destruct (readFile_cases sDisk1 w) as [[Hu1 [ds1 ->]]|(b1 & m1 & Hs1 & Hd1 & ->)].
  - destruct (readFile_cases sDisk2 (printed ds1 w))
      as [[Hu2 [ds2 ->]]|(b2 & m2 & Hs2 & Hd2 & ->)].
    + exists (ds1 ++ ds2). left. rewrite printed_app. split; [reflexivity|]. left. exact Hu1.
    + exists ds1. left. split; [reflexivity|]. left. exact Hu1.
  - destruct (readFile_cases sDisk2 w) as [[Hu2 [ds2 ->]]|(b2 & m2 & Hs2 & Hd2 & ->)].
    + exists ds2. left. split; [reflexivity|]. right. left. exact Hu2.
    + exists []. rewrite printed_nil. simpl. unfold compare, ret.
      destruct (decide (b1 = b2)) as [->|Hne].
      * right. rewrite bool_decide_eq_true_2 by reflexivity.
        split; [reflexivity|]. exists b2, m1, m2. auto.
      * left. rewrite bool_decide_eq_false_2 by exact Hne.
        split; [reflexivity|]. right. right. exists b1, b2, m1, m2. auto.
Qed.

(** The [fs] calls that change the store, on a locked path and on a free one. *)
Lemma unlinkSync_locked (sFile : string) (w : world) :
  bool_decide (sFile ∈ locked w) = true -> bool_decide (sFile ∈ full w) = false ->
  unlinkSync sFile w = (Thrown "EACCES", w).
Proof. intros Hl Hf. unfold unlinkSync, frozen. rewrite Hl, Hf. reflexivity. Qed.

Lemma writeFileSync_locked (sFile : string) (bytes : DataBuffer) (w : world) :
  bool_decide (sFile ∈ locked w) = true -> bool_decide (sFile ∈ full w) = false ->
  writeFileSync sFile bytes w = (Thrown "EACCES", w).
Proof. intros Hl Hf. unfold writeFileSync, frozen. rewrite Hl, Hf. reflexivity. Qed.

Lemma unlinkSync_free (sFile : string) (f : fsfile) (w : world) :
  bool_decide (sFile ∈ locked w) = false -> disk w !! sFile = Some f ->
  unlinkSync sFile w = (Ok tt, withDisk (delete sFile (disk w)) w).
Proof. intros Hl Hf. unfold unlinkSync, frozen. rewrite Hl, Hf. reflexivity. Qed.

Lemma writeFileSync_new (sFile : string) (bytes : DataBuffer) (w : world) :
  bool_decide (sFile ∈ locked w) = false -> disk w !! sFile = None ->
  writeFileSync sFile bytes w =
  (Ok tt, withDisk (<[sFile := mkFsFile (Some bytes) (Z.land mode666 (Z.lnot (umask w)))]>
                      (disk w)) w).
Proof. intros Hl Hf. unfold writeFileSync, frozen, noRoom. rewrite Hl, Hf. reflexivity. Qed.

Lemma chmodSync_free (sFile : string) (mode : Z) (f : fsfile) (w : world) :
  bool_decide (sFile ∈ locked w) = false -> disk w !! sFile = Some f ->
  chmodSync sFile mode w =
  (Ok tt, withDisk (<[sFile := mkFsFile (fbytes f) mode]> (disk w)) w).
Proof. intros Hl Hf. unfold chmodSync, frozen. rewrite Hl, Hf. reflexivity. Qed.

(** Where there is no room an entry can still be removed, and no file can
    be created. *)
Lemma unlinkSync_noRoom (sFile : string) (f : fsfile) (w : world) :
  bool_decide (sFile ∈ full w) = true -> disk w !! sFile = Some f ->
  unlinkSync sFile w = (Ok tt, withDisk (delete sFile (disk w)) w).
Proof.
  intros Hn Hf. unfold unlinkSync, frozen. rewrite Hn, Hf, andb_false_r. reflexivity.
Qed.

Lemma writeFileSync_noRoom (sFile : string) (bytes : DataBuffer) (w : world) :
  bool_decide (sFile ∈ locked w) = true -> bool_decide (sFile ∈ full w) = true ->
  disk w !! sFile = None ->
  writeFileSync sFile bytes w = (Thrown "ENOSPC", w).
Proof.
  intros Hl Hn Hf. unfold writeFileSync, frozen, noRoom. rewrite Hl, Hn, Hf. reflexivity.
Qed.

Lemma withDisk_withDisk (d1 d2 : gmap string fsfile) (w : world) :
  withDisk d2 (withDisk d1 w) = withDisk d2 w.
Proof. reflexivity. Qed.

(** Lines 318-321 on a free path: the old file, if any, is unlinked, the
    new one created and, for an image, made read-only. *)
Lemma writeDisk_commit (sFile : string) (bytes : DataBuffer) (w : world) :
  bool_decide (sFile ∈ locked w) = false ->
  (printf (DWriting sFile) ;;;
   when (bool_decide (is_Some (disk w !! sFile))) (unlinkSync sFile) ;;;
   writeFileSync sFile bytes ;;;
   when (JS.endsWith (toUpperCase sFile) ".IMG") (chmodSync sFile mode444)) w
  = (Ok tt, written sFile bytes w).
Proof.
  intros Hl. unfold bind. change (printf (DWriting sFile) w) with (Ok tt, printed [DWriting sFile] w).
  cbv iota beta.
  assert (Hunlink : exists w1,
             when (bool_decide (is_Some (disk w !! sFile))) (unlinkSync sFile)
               (printed [DWriting sFile] w) = (Ok tt, w1) /\
             disk w1 !! sFile = None /\ locked w1 = locked w /\ umask w1 = umask w /\
             <[sFile := mkFsFile (Some bytes) (Z.land mode666 (Z.lnot (umask w)))]> (disk w1)
             = <[sFile := mkFsFile (Some bytes) (Z.land mode666 (Z.lnot (umask w)))]> (disk w) /\
             forall d, withDisk d w1 = withDisk d (printed [DWriting sFile] w)).
  { destruct (disk w !! sFile) as [f|] eqn:Hf.
    - rewrite bool_decide_eq_true_2 by eauto. simpl when.
      rewrite (unlinkSync_free sFile f) by assumption.
      eexists. split; [reflexivity|]. simpl.
      rewrite lookup_delete_eq, insert_delete_eq. auto.
    - rewrite bool_decide_eq_false_2 by (intros [? ?]; discriminate). simpl when.
      eexists. split; [reflexivity|]. simpl. auto. }
  destruct Hunlink as (w1 & -> & Hnone & Hlk & Hum & Hins & Hwd).
  rewrite writeFileSync_new by (rewrite ?Hlk; assumption).
  rewrite Hum, Hins, Hwd. unfold written, writtenMode.
  destruct (JS.endsWith (toUpperCase sFile) ".IMG"); simpl when.
  - erewrite chmodSync_free; [|exact Hl|simpl; apply lookup_insert_eq].
    simpl. rewrite insert_insert_eq. reflexivity.
  - reflexivity.
Qed.

Lemma writeDisk_refused (sFile : string) (bytes : DataBuffer) (w : world) :
  bool_decide (sFile ∈ locked w) = true -> bool_decide (sFile ∈ full w) = false ->
  exists w1,
    (printf (DWriting sFile) ;;;
     when (bool_decide (is_Some (disk w !! sFile))) (unlinkSync sFile) ;;;
     writeFileSync sFile bytes ;;;
     when (JS.endsWith (toUpperCase sFile) ".IMG") (chmodSync sFile mode444)) w
    = (Thrown "EACCES", w1) /\
    printf (DError "EACCES") w1 = (Ok tt, printed [DWriting sFile; DError "EACCES"] w).
Proof.
  intros Hl Hn. unfold bind.
  change (printf (DWriting sFile) w) with (Ok tt, printed [DWriting sFile] w).
  cbv iota beta. exists (printed [DWriting sFile] w).
  split.
  - destruct (bool_decide (is_Some (disk w !! sFile))); simpl when.
    + rewrite unlinkSync_locked by assumption. reflexivity.
    + unfold ret. rewrite writeFileSync_locked by assumption. reflexivity.
  - unfold printf, printed. simpl. rewrite <- app_assoc. reflexivity.
Qed.

(** Lines 318-321 where there is no room: the old file, if any, is unlinked
    by line 319, then line 320 throws; the file is lost. *)
Lemma writeDisk_noRoom (sFile : string) (bytes : DataBuffer) (w : world) :
  bool_decide (sFile ∈ locked w) = true -> bool_decide (sFile ∈ full w) = true ->
  exists w1,
    (printf (DWriting sFile) ;;;
     when (bool_decide (is_Some (disk w !! sFile))) (unlinkSync sFile) ;;;
     writeFileSync sFile bytes ;;;
     when (JS.endsWith (toUpperCase sFile) ".IMG") (chmodSync sFile mode444)) w
    = (Thrown "ENOSPC", w1) /\
    printf (DError "ENOSPC") w1 =
    (Ok tt, printed [DWriting sFile; DError "ENOSPC"] (withDisk (delete sFile (disk w)) w)).
Proof.
  intros Hl Hn. unfold bind.
  change (printf (DWriting sFile) w) with (Ok tt, printed [DWriting sFile] w).
  cbv iota beta.
  destruct (disk w !! sFile) as [f|] eqn:Hf.
  - rewrite bool_decide_eq_true_2 by eauto. simpl when.
    rewrite (unlinkSync_noRoom sFile f) by assumption.
    rewrite writeFileSync_noRoom; [|exact Hl|exact Hn|simpl; apply lookup_delete_eq].
    eexists. split; [reflexivity|].
    unfold printf, printed, withDisk. simpl. rewrite <- app_assoc. reflexivity.
  - rewrite bool_decide_eq_false_2 by (intros [? ?]; discriminate). simpl when.
    unfold ret. rewrite writeFileSync_noRoom by assumption.
    eexists. split; [reflexivity|].
    rewrite (delete_id (disk w) sFile Hf).
    unfold printf, printed, withDisk. simpl. rewrite <- app_assoc. reflexivity.
Qed.

(** What [writeDisk] does, case by case: it never throws, and changes the
    store at [sFile] only. *)
Lemma writeDisk_cases (sFile : string) (di : DI) (fLegacy : bool) (indent : Z)
    (fOverwrite : bool) (w : world) :
  writeDisk sFile di fLegacy indent fOverwrite w =
  (Ok tt,
   if bool_decide (is_Some (disk w !! sFile)) && negb fOverwrite
   then printed [DExists (path.basename sFile)] w
   else match diskData sFile di fLegacy with
        | Some d =>
            if falsy (Some d) then printed [DNotWritten (path.basename sFile)] w
            else if bool_decide (sFile ∈ locked w)
                 then if bool_decide (sFile ∈ full w)
                      then printed [DWriting sFile; DError "ENOSPC"]
                             (withDisk (delete sFile (disk w)) w)
                      else printed [DWriting sFile; DError "EACCES"] w
                 else written sFile (bytesOf d) w
        | None => printed [DNotWritten (path.basename sFile)] w
        end).
Proof.
  unfold writeDisk, tryCatch.
  unfold bind at 1. unfold existsSync at 1. cbv iota beta.
  destruct (bool_decide (is_Some (disk w !! sFile)) && negb fOverwrite) eqn:Hgo.
  - apply andb_prop in Hgo as [-> Ho]. apply negb_true_iff in Ho. subst fOverwrite.
    reflexivity.
  - assert (Hcond : negb (bool_decide (is_Some (disk w !! sFile))) || fOverwrite = true).
    { destruct (bool_decide (is_Some (disk w !! sFile))), fOverwrite;
        simpl in *; congruence. }
    rewrite Hcond. cbv zeta.
    destruct (diskData sFile di fLegacy) as [d|]; [|reflexivity].
    destruct (falsy (Some d)) eqn:Hfalsy; [reflexivity|].
    destruct (bool_decide (sFile ∈ locked w)) eqn:Hl.
    + destruct (bool_decide (sFile ∈ full w)) eqn:Hn.
      * destruct (writeDisk_noRoom sFile (bytesOf d) w Hl Hn) as (w1 & -> & ->). reflexivity.
      * destruct (writeDisk_refused sFile (bytesOf d) w Hl Hn) as (w1 & -> & ->). reflexivity.
    + rewrite writeDisk_commit by exact Hl. reflexivity.
Qed.

(** [writeDisk] leaves every other path of the store alone. *)
Lemma writeDisk_frame (sFile : string) (di : DI) (fLegacy : bool) (indent : Z)
    (fOverwrite : bool) (w : world) (p : string) :
  p <> sFile ->
  disk (snd (writeDisk sFile di fLegacy indent fOverwrite w)) !! p = disk w !! p.
Proof.
  intros Hp. rewrite writeDisk_cases. simpl.
  destruct (_ && _); [reflexivity|].
  destruct (diskData sFile di fLegacy) as [[[|c t]|db]|]; try reflexivity; simpl.
  all: destruct (bool_decide (sFile ∈ locked w));
    [destruct (bool_decide (sFile ∈ full w));
       [simpl; apply lookup_delete_ne; congruence|reflexivity]|].
  all: unfold written, withDisk; simpl; apply lookup_insert_ne; congruence.
Qed.

End Output.

Section OutputClaims.
Context `{NodeRuntime} {DI : Type} `{DiskImageClass DI}.

(** C7: without the overwrite flag, [writeDisk] on a path where a file
    exists only reports that the file exists; the store is unchanged. *)
Theorem writeDisk_keeps_existing_file (sFile : string) (di : DI) (fLegacy : bool)
    (indent : Z) (w : world) :
  is_Some (disk w !! sFile) ->
  writeDisk sFile di fLegacy indent false w =
    (Ok tt, printed [DExists (path.basename sFile)] w) /\
  disk (snd (writeDisk sFile di fLegacy indent false w)) = disk w.
Proof.
  intros Hex. rewrite writeDisk_cases.
  rewrite bool_decide_eq_true_2 by exact Hex. simpl. split; reflexivity.
Qed.

(** C6 (amended): when [writeDisk] writes (the path is free or the
    overwrite flag is set, there is data, the file system accepts the
    write), a name ending in ".json" in any case gets the JSON text and any
    other name the raw buffer; a name ending in ".img" in any case is left
    with mode octal 444, which forbids writing, and every other file with
    the creation mode, octal 666 less the umask. *)
Theorem writeDisk_format_and_mode (sFile : string) (di : DI) (fLegacy : bool) (indent : Z)
    (fOverwrite : bool) (w : world) (d : filedata) :
  disk w !! sFile = None \/ fOverwrite = true ->
  sFile ∉ locked w ->
  diskData sFile di fLegacy = Some d ->
  falsy (Some d) = false ->
  writeDisk sFile di fLegacy indent fOverwrite w = (Ok tt, written sFile (bytesOf d) w) /\
  disk (written sFile (bytesOf d) w) !! sFile =
    Some (mkFsFile (Some (bytesOf d)) (writtenMode sFile w)) /\
  (JS.endsWith (toUpperCase sFile) ".JSON" = true ->
   d = Str (getJSON di true fLegacy) /\ bytesOf d = utf8Encode (getJSON di true fLegacy)) /\
  (JS.endsWith (toUpperCase sFile) ".JSON" = false ->
   exists db, getData di = Some db /\ d = Buf db /\ bytesOf d = db) /\
  (JS.endsWith (toUpperCase sFile) ".IMG" = true ->
   writtenMode sFile w = mode444 /\ readOnlyMode (writtenMode sFile w) = true) /\
  (JS.endsWith (toUpperCase sFile) ".IMG" = false ->
   writtenMode sFile w = Z.land mode666 (Z.lnot (umask w))).
Proof.
  intros Hfree Hl Hd Hf. split; [|split; [|split; [|split; [|split]]]].
  - rewrite writeDisk_cases, Hd, Hf.
    rewrite (bool_decide_eq_false_2 _ Hl).
    destruct Hfree as [Hnone| ->].
    + rewrite Hnone. rewrite bool_decide_eq_false_2 by (intros [? ?]; discriminate).
      reflexivity.
    + rewrite andb_false_r. reflexivity.
  - unfold written, withDisk. simpl. apply lookup_insert_eq.
  - intros Hj. unfold diskData in Hd. rewrite Hj in Hd. inversion Hd. auto.
  - intros Hj. unfold diskData in Hd. rewrite Hj in Hd.
    destruct (getData di) as [db|]; [|discriminate]. inversion Hd. eauto.
  - intros Hi. unfold writtenMode. rewrite Hi. split; reflexivity.
  - intros Hi. unfold writtenMode. rewrite Hi. reflexivity.
Qed.

(** [readFile] never throws and prints error notes only. *)
Lemma readFile_prints (sFile : string) (encoding : option Encoding) (w : world) :
  exists r ds, readFile sFile encoding w = (Ok r, printed ds w) /\ Forall isErrorNote ds.
Proof.
  unfold readFile, readFileAt.
  destruct (String.eqb sFile "").
  { exists None, []. rewrite printed_nil. split; [reflexivity|constructor]. }
  destruct (disk w !! sFile) as [[[db|] mode]|]; simpl.
  - destruct encoding as [[]|]; eexists _, []; rewrite printed_nil;
      (split; [reflexivity|constructor]).
  - exists None, [DError "EACCES"]. split; [reflexivity|]. repeat constructor.
  - exists None, []. rewrite printed_nil. split; [reflexivity|constructor].
Qed.

(** [readDisk] on a file that cannot be read: the error is caught and
    printed, no image is returned. *)
Lemma readDisk_cannotRead (sFile : string) (forceBPB : bool)
    (sectorIDs sectorErrors : option string) (suppData : option filedata) (w : world) :
  cannotRead w sFile ->
  exists e, readDisk (DI := DI) sFile forceBPB sectorIDs sectorErrors suppData w
            = (Ok None, printed [DError e] w).
Proof.
  intros [Hd|[mode Hd]]; unfold readDisk, tryCatch, bind, fsReadFileSync; rewrite Hd; simpl;
    eexists; reflexivity.
Qed.

(** Lines 505-516 when the comparison fails: the warning is printed after
    whatever the two reads printed, and nothing is unlinked. *)
Lemma compareRebuilt_flagged (sArchiveFile sTempJSON : string) (diArchive : DI) (w : world) :
  let di2 := snd (buildDiskFromJSON diArchive (getJSON diArchive false false)) in
  let w2 := snd (writeDisk (tempIMG sTempJSON) di2 false 0 true w) in
  JS.endsWith sArchiveFile ".img" = true ->
  fst (compareDisks (tempIMG sTempJSON) sArchiveFile w2) = Ok false ->
  exists ds,
    compareRebuilt sArchiveFile sTempJSON diArchive w =
    (Ok true, printed (ds ++ [DUnsuccessful sArchiveFile]) w2) /\
    Forall isErrorNote ds.
Proof.
  intros di2 w2 Himg Hcmp. unfold compareRebuilt. rewrite Himg. cbv zeta. fold di2.
  unfold bind at 1.
  assert (Hw : writeDisk (tempIMG sTempJSON) di2 false 0 true w = (Ok tt, w2))
    by (unfold w2; rewrite writeDisk_cases; reflexivity).
  rewrite Hw. clearbody w2. cbv iota beta. unfold bind.
  unfold compareDisks, bind in Hcmp |- *.
  destruct (readFile_prints (tempIMG sTempJSON) None w2) as (r1 & ds1 & Hr1 & He1).
  rewrite Hr1 in Hcmp |- *.
  destruct (readFile_prints sArchiveFile None (printed ds1 w2)) as (r2 & ds2 & Hr2 & He2).
  rewrite Hr2 in Hcmp |- *. rewrite printed_app in Hcmp |- *.
  exists (ds1 ++ ds2). split; [|apply Forall_app; split; assumption].
  rewrite <- (printed_app (ds1 ++ ds2) [DUnsuccessful sArchiveFile] w2).
  destruct (falsy r1); [reflexivity|].
  destruct (falsy r2); [reflexivity|].
  destruct r1 as [[s1|b1]|], r2 as [[s2|b2]|]; simpl in Hcmp; try discriminate.
  unfold ret in Hcmp |- *. simpl in Hcmp. inversion Hcmp as [Hb]. rewrite Hb.
  reflexivity.
Qed.

End OutputClaims.

Section ArchiveClaims.
Context `{NodeRuntime} {DI : Type} `{DiskImageClass DI}.

Lemma unreadable_readable_absurd (w : world) (sFile : string) (b : DataBuffer) (mode : Z) :
  unreadable w sFile -> sFile <> ""%string ->
  disk w !! sFile = Some (mkFsFile (Some b) mode) -> False.
Proof.
  intros [->|[Hn|[m Hm]]] Hs Hd; [contradiction | congruence | congruence].
Qed.

(** The archive check when the archived file cannot be read: [readDisk]
    catches the error and prints it, nothing is written or compared. *)
Lemma checkArchive_cannotRead (argv : Argv.t) (diskette : Diskette.t)
    (sFile sArchiveFile : string) (w : world) :
  JS.endsWith sArchiveFile "/" = false ->
  cannotRead w sArchiveFile ->
  exists ds,
    checkArchive (DI := DI) argv diskette sFile sArchiveFile w = (Ok tt, printed ds w) /\
    Forall (fun d => d <> DUnsuccessful sArchiveFile) ds /\
    (selected argv sArchiveFile = true -> exists e, last ds = Some (DError e)).
Proof.
  intros Hdir Hlost. unfold checkArchive.
  destruct (selected argv sArchiveFile).
  2:{ exists []. rewrite printed_nil. split; [reflexivity|]. split; [constructor|discriminate]. }
  unfold bind at 1.
  change (printf (DReadingArchive sArchiveFile) w)
    with (Ok tt, printed [DReadingArchive sArchiveFile] w).
  cbv iota beta zeta. rewrite Hdir. unfold bind at 1.
  set (w1 := printed [DReadingArchive sArchiveFile] w).
  match goal with
  | |- exists ds, (let (o, w') := ?X in _) = _ /\ _ =>
      assert (Hsupp : exists r ds0, X = (Ok r, printed ds0 w1) /\ Forall isErrorNote ds0)
  end.
  { destruct (orString _ _) as [p|].
    - destruct (truthyLabel (Some p)).
      + apply readFile_prints.
      + exists None, []. rewrite printed_nil. split; [reflexivity|constructor].
    - exists None, []. rewrite printed_nil. split; [reflexivity|constructor]. }
  destruct Hsupp as (r & ds0 & -> & He0). cbv iota beta.
  unfold bind at 1. unfold bind at 1.
  destruct (readDisk_cannotRead sArchiveFile false
              (orString (Argv.sectorID argv) (Diskette.sectorID diskette))
              (orString (Argv.sectorError argv) (Diskette.sectorError diskette))
              r (printed ds0 w1) Hlost) as (e & ->).
  cbv iota beta. unfold ret.
  exists ([DReadingArchive sArchiveFile] ++ ds0 ++ [DError e]).
  unfold w1. rewrite !printed_app.
  split; [rewrite <- ?app_assoc; reflexivity|]. split.
  - simpl. constructor; [discriminate|]. apply Forall_app. split.
    + eapply Forall_impl; [exact He0|]. intros [] Hx; try contradiction; discriminate.
    + repeat constructor. discriminate.
  - intros _. exists e. rewrite app_assoc. apply last_snoc.
Qed.

(** C10 (amended): [compareDisks] returns false whenever one of the two
    files cannot be read, and true exactly when both are read and hold the
    same bytes. In the archive check a temporary binary that cannot be read
    back is therefore reported by the mismatch warning; an archived binary
    that cannot be read is stopped earlier, by [readDisk], with an error
    message and without the warning. *)
Theorem unreadable_binary_in_archive_check (sDisk1 sDisk2 : string) (w : world)
    (argv : Argv.t) (diskette : Diskette.t) (sFile sArchiveFile sTempJSON : string)
    (diArchive : DI) :
  (unreadable w sDisk1 \/ unreadable w sDisk2 ->
   fst (compareDisks sDisk1 sDisk2 w) = Ok false) /\
  (fst (compareDisks sDisk1 sDisk2 w) = Ok true <->
   exists b m1 m2,
     sDisk1 <> ""%string /\ sDisk2 <> ""%string /\
     disk w !! sDisk1 = Some (mkFsFile (Some b) m1) /\
     disk w !! sDisk2 = Some (mkFsFile (Some b) m2)) /\
  (let di2 := snd (buildDiskFromJSON diArchive (getJSON diArchive false false)) in
   let w2 := snd (writeDisk (tempIMG sTempJSON) di2 false 0 true w) in
   JS.endsWith sArchiveFile ".img" = true ->
   unreadable w2 (tempIMG sTempJSON) ->
   exists ds,
     compareRebuilt sArchiveFile sTempJSON diArchive w =
     (Ok true, printed (ds ++ [DUnsuccessful sArchiveFile]) w2) /\
     Forall isErrorNote ds) /\
  (JS.endsWith sArchiveFile "/" = false ->
   cannotRead w sArchiveFile ->
   exists ds,
     checkArchive (DI := DI) argv diskette sFile sArchiveFile w = (Ok tt, printed ds w) /\
     Forall (fun d => d <> DUnsuccessful sArchiveFile) ds /\
     (selected argv sArchiveFile = true -> exists e, last ds = Some (DError e))).
Proof.
  assert (Hfalse : forall s1 s2 w0,
             unreadable w0 s1 \/ unreadable w0 s2 -> fst (compareDisks s1 s2 w0) = Ok false).
  { intros s1 s2 w0 Hu.
    destruct (compareDisks_cases s1 s2 w0) as [ds [[-> _]|[_ Hboth]]]; [reflexivity|].
    destruct Hboth as (b & m1 & m2 & Hs1 & Hs2 & Hd1 & Hd2).
    destruct Hu as [Hu|Hu]; exfalso; eapply unreadable_readable_absurd; eassumption. }
  split; [apply Hfalse|]. split; [|split].
  - split.
    + intros Htrue.
      destruct (compareDisks_cases sDisk1 sDisk2 w) as [ds [[Heq _]|[_ Hboth]]];
        [rewrite Heq in Htrue; discriminate | exact Hboth].
    + intros (b & m1 & m2 & Hs1 & Hs2 & Hd1 & Hd2).
      destruct (compareDisks_cases sDisk1 sDisk2 w)
        as [ds [[_ [Hu|[Hu|Hne]]]|[-> _]]]; [| | |reflexivity].
      * exfalso. eapply unreadable_readable_absurd; eassumption.
      * exfalso. eapply unreadable_readable_absurd; eassumption.
      * destruct Hne as (b1 & b2 & n1 & n2 & He1 & He2 & Hne). congruence.
  - intros di2 w2 Himg Hu. apply compareRebuilt_flagged; [exact Himg|].
    apply Hfalse. left. exact Hu.
  - apply checkArchive_cannotRead.
Qed.

(** C1 (amended): after a flagged mismatch the warning is printed and
    nothing more is done: the temporary binary and the temporary JSON both
    stay as [writeDisk] left them, the temporary JSON being neither deleted
    nor renamed onto the canonical JSON, with [--rebuild] as without it; the
    canonical JSON file is untouched. *)
Theorem flagged_mismatch_keeps_temporaries (argv : Argv.t) (diskette : Diskette.t)
    (sFile sArchiveFile command name : string) (diArchive : DI) (w : world) :
  let sTempJSON := tempJSON name in
  let di1 := setArgs diArchive
               (command +:+ " --output " +:+ sTempJSON +:+ Diskette.options diskette) in
  let w1 := snd (writeDisk sTempJSON di1 false 0 true w) in
  let di2 := snd (buildDiskFromJSON di1 (getJSON di1 false false)) in
  let w2 := snd (writeDisk (tempIMG sTempJSON) di2 false 0 true w1) in
  JS.endsWith sArchiveFile ".img" = true ->
  fst (compareDisks (tempIMG sTempJSON) sArchiveFile w2) = Ok false ->
  exists ds,
    verifyArchive argv diskette sFile sArchiveFile command name diArchive w =
      (Ok tt, printed (ds ++ [DUnsuccessful sArchiveFile]) w2) /\
    Forall isErrorNote ds /\
    disk (printed (ds ++ [DUnsuccessful sArchiveFile]) w2) = disk w2 /\
    (sTempJSON <> tempIMG sTempJSON -> disk w2 !! sTempJSON = disk w1 !! sTempJSON) /\
    (sFile <> sTempJSON -> sFile <> tempIMG sTempJSON -> disk w2 !! sFile = disk w !! sFile).
Proof.
  intros sTempJSON di1 w1 di2 w2 Himg Hcmp.
  destruct (compareRebuilt_flagged sArchiveFile sTempJSON di1 w1 Himg Hcmp)
    as (ds & Hflag & Hds).
  exists ds. split; [|split; [exact Hds|split; [reflexivity|split]]].
  - unfold verifyArchive. fold sTempJSON. cbv zeta. fold di1. unfold bind at 1.
    assert (Hw : writeDisk sTempJSON di1 false 0 true w = (Ok tt, w1))
      by (unfold w1; rewrite writeDisk_cases; reflexivity).
    rewrite Hw. cbv iota beta. unfold bind. rewrite Hflag. reflexivity.
  - intros Hne. unfold w2. apply writeDisk_frame. exact Hne.
  - intros Hj Hi. unfold w2, w1. rewrite !writeDisk_frame by assumption. reflexivity.
Qed.

End ArchiveClaims.

(** ** The claims on concrete runs *)

(** [writeDisk] without the overwrite flag on the canonical JSON of the
    sample store. *)
Lemma writeDisk_keeps_existing_file_witness :
  is_Some (disk (Sample.storeWorld Sample.soundStore) !! Sample.sJSON) /\
  @writeDisk Sample.runtime _ Sample.imageClass Sample.sJSON Sample.image3 false 0 false
    (Sample.storeWorld Sample.soundStore) =
    (Ok tt, printed [DExists "disk.json"] (Sample.storeWorld Sample.soundStore)) /\
  disk (snd (@writeDisk Sample.runtime _ Sample.imageClass Sample.sJSON Sample.image3
               false 0 false (Sample.storeWorld Sample.soundStore))) =
  disk (Sample.storeWorld Sample.soundStore).
Proof.
  assert (Hex : is_Some (disk (Sample.storeWorld Sample.soundStore) !! Sample.sJSON)).
  { eexists. vm_compute. reflexivity. }
  split; [exact Hex|].
  exact (@writeDisk_keeps_existing_file Sample.runtime _ Sample.imageClass Sample.sJSON
           Sample.image3 false 0 (Sample.storeWorld Sample.soundStore) Hex).
Defined.

(** [writeDisk] of a three-byte image to the new file "/out/disk.IMG". *)
Lemma writeDisk_format_and_mode_witness :
  let w := Sample.storeWorld Sample.soundStore in
  let d := Buf (Sample.ascii "abc") in
  (disk w !! "/out/disk.IMG"%string = None \/ false = true) /\
  ("/out/disk.IMG"%string ∉ locked w) /\
  @diskData Sample.runtime _ Sample.imageClass "/out/disk.IMG" Sample.image3 false = Some d /\
  falsy (Some d) = false /\
  @writeDisk Sample.runtime _ Sample.imageClass "/out/disk.IMG" Sample.image3 false 0 false w
    = (Ok tt, @written Sample.runtime "/out/disk.IMG" (Sample.ascii "abc") w) /\
  @writtenMode Sample.runtime "/out/disk.IMG" w = mode444.
Proof.
  cbv zeta.
  assert (H1 : disk (Sample.storeWorld Sample.soundStore) !! "/out/disk.IMG"%string = None
               \/ false = true) by (left; vm_compute; reflexivity).
  assert (H2 : "/out/disk.IMG"%string ∉ locked (Sample.storeWorld Sample.soundStore))
    by (simpl; apply not_elem_of_empty).
  split; [exact H1|]. split; [exact H2|]. split; [reflexivity|]. split; [reflexivity|].
  pose proof (@writeDisk_format_and_mode Sample.runtime _ Sample.imageClass "/out/disk.IMG"
                Sample.image3 false 0 false (Sample.storeWorld Sample.soundStore)
                (Buf (Sample.ascii "abc")) H1 H2 eq_refl eq_refl)
    as (Hw & _ & _ & _ & Himg & _).
  split; [exact Hw|]. exact (proj1 (Himg eq_refl)).
Defined.

(** C6, as the claim words it, fails on the output file "/out/disk.bin"
    under umask octal 022: the raw buffer is written and the file keeps the
    creation mode octal 644, which allows its owner to write. *)
Lemma writeDisk_mode_counterexample :
  let w' := snd (@writeDisk Sample.runtime _ Sample.imageClass "/out/disk.bin"
                   Sample.image3 false 0 false (Sample.storeWorld Sample.soundStore)) in
  disk w' !! "/out/disk.bin"%string = Some (mkFsFile (Some (Sample.ascii "abc")) 0x1a4) /\
  readOnlyMode 0x1a4 = false.
Proof. cbv zeta. split; [vm_compute; reflexivity | reflexivity]. Qed.

(** The archive check when the temporary binary cannot be written: the
    path "disk.img" is locked, nothing can be read back, the warning is
    printed. *)
Lemma unreadable_binary_in_archive_check_witness :
  let w := Sample.lockedWorld Sample.soundStore in
  let di2 := snd (@buildDiskFromJSON _ Sample.imageClass Sample.image3
                    (@getJSON _ Sample.imageClass Sample.image3 false false)) in
  let w2 := snd (@writeDisk Sample.runtime _ Sample.imageClass (tempIMG "disk.json")
                   di2 false 0 true w) in
  (JS.endsWith Sample.sArchive ".img" = true /\ unreadable w2 (tempIMG "disk.json")) /\
  exists ds,
    @compareRebuilt Sample.runtime _ Sample.imageClass Sample.sArchive "disk.json"
      Sample.image3 w =
    (Ok true, printed (ds ++ [DUnsuccessful Sample.sArchive]) w2) /\
    Forall isErrorNote ds.
Proof.
  cbv zeta.
  assert (Hu : unreadable
                 (snd (@writeDisk Sample.runtime _ Sample.imageClass (tempIMG "disk.json")
                         (snd (@buildDiskFromJSON _ Sample.imageClass Sample.image3
                                 (@getJSON _ Sample.imageClass Sample.image3 false false)))
                         false 0 true (Sample.lockedWorld Sample.soundStore)))
                 (tempIMG "disk.json")).
  { right. left. vm_compute. reflexivity. }
  split; [split; [reflexivity | exact Hu]|].
  exact (proj1 (proj2 (proj2
           (@unreadable_binary_in_archive_check Sample.runtime _ Sample.imageClass
              "a" "b" (Sample.lockedWorld Sample.soundStore) (Sample.argvCheck false)
              Sample.diskette0 Sample.sJSON Sample.sArchive "disk.json" Sample.image3)))
           eq_refl Hu).
Defined.

(** C10, as the claim words it, fails for the archived binary: when it
    cannot be read, the check prints the error caught by [readDisk] and
    stops; no mismatch warning is printed. *)
Lemma unreadable_archive_counterexample :
  let w' := snd (@checkArchive Sample.runtime _ Sample.imageClass (Sample.argvCheck false)
                   Sample.diskette0 Sample.sJSON Sample.sArchive
                   (Sample.storeWorld Sample.lostStore)) in
  cannotRead (Sample.storeWorld Sample.lostStore) Sample.sArchive /\
  console w' = [DReadingArchive Sample.sArchive; DError "EACCES"] /\
  ~ In (DUnsuccessful Sample.sArchive) (console w').
Proof.
  cbv zeta. split; [right; exists 0x124; vm_compute; reflexivity|].
  split; [vm_compute; reflexivity|].
  assert (E : console (snd (@checkArchive Sample.runtime _ Sample.imageClass
                              (Sample.argvCheck false) Sample.diskette0 Sample.sJSON
                              Sample.sArchive (Sample.storeWorld Sample.lostStore)))
              = [DReadingArchive Sample.sArchive; DError "EACCES"])
    by (vm_compute; reflexivity).
  rewrite E. intros [Hx|[Hx|[]]]; discriminate Hx.
Qed.

(** The mismatch theorem on the store whose archived binary is not rebuilt
    byte for byte, with [--rebuild]. *)
Lemma flagged_mismatch_keeps_temporaries_witness :
  let w := printed [DReadingArchive Sample.sArchive] (Sample.storeWorld Sample.driftStore) in
  let di := @setArgs _ Sample.imageClass Sample.image3 "--disk disk.img --output disk.json" in
  let w2 := snd (@writeDisk Sample.runtime _ Sample.imageClass "disk.img"
                   (snd (@buildDiskFromJSON _ Sample.imageClass di
                           (@getJSON _ Sample.imageClass di false false)))
                   false 0 true
                   (snd (@writeDisk Sample.runtime _ Sample.imageClass "disk.json" di
                           false 0 true w))) in
  (JS.endsWith Sample.sArchive ".img" = true /\
   fst (@compareDisks Sample.runtime "disk.img" Sample.sArchive w2) = Ok false) /\
  exists ds,
    @verifyArchive Sample.runtime _ Sample.imageClass (Sample.argvCheck true)
      Sample.diskette0 Sample.sJSON Sample.sArchive "--disk disk.img" "disk.img"
      Sample.image3 w =
    (Ok tt, printed (ds ++ [DUnsuccessful Sample.sArchive]) w2) /\
    disk w2 !! Sample.sJSON = disk w !! Sample.sJSON.
Proof.
  cbv zeta. split; [split; [reflexivity | vm_compute; reflexivity]|].
  destruct (@flagged_mismatch_keeps_temporaries Sample.runtime _ Sample.imageClass
              (Sample.argvCheck true) Sample.diskette0 Sample.sJSON Sample.sArchive
              "--disk disk.img" "disk.img" Sample.image3
              (printed [DReadingArchive Sample.sArchive] (Sample.storeWorld Sample.driftStore))
              eq_refl ltac:(vm_compute; reflexivity))
    as (ds & Hrun & _ & _ & _ & Hcanon).
  exists ds. split; [exact Hrun|].
  apply Hcanon; vm_compute; discriminate.
Defined.

(** C1, as the claim words it, fails after a flagged mismatch: with
    [--rebuild] the canonical JSON keeps its old bytes and the temporary
    JSON is still in the store, so it was not renamed; without [--rebuild]
    the temporary JSON is still in the store, so it was not deleted. *)
Lemma flagged_mismatch_counterexample :
  let run := fun rebuild =>
    snd (@checkArchive Sample.runtime _ Sample.imageClass (Sample.argvCheck rebuild)
           Sample.diskette0 Sample.sJSON Sample.sArchive
           (Sample.storeWorld Sample.driftStore)) in
  In (DUnsuccessful Sample.sArchive) (console (run true)) /\
  disk (run true) !! Sample.sJSON = Some (mkFsFile (Some (Sample.ascii "old")) 0x1a4) /\
  disk (run true) !! "disk.json"%string = Some (mkFsFile (Some (Sample.ascii "abc")) 0x1a4) /\
  In (DUnsuccessful Sample.sArchive) (console (run false)) /\
  disk (run false) !! "disk.json"%string = Some (mkFsFile (Some (Sample.ascii "abc")) 0x1a4) /\
  disk (run false) !! "disk.img"%string =
    Some (mkFsFile (Some (Sample.ascii "abc" ++ [Byte.x00])) 0x124).
Proof.
  cbv beta zeta.
  assert (Ec : forall b,
             console (snd (@checkArchive Sample.runtime _ Sample.imageClass
                             (Sample.argvCheck b) Sample.diskette0 Sample.sJSON
                             Sample.sArchive (Sample.storeWorld Sample.driftStore)))
             = [DReadingArchive Sample.sArchive; DWriting "disk.json"; DWriting "disk.img";
                DUnsuccessful Sample.sArchive])
    by (intros []; vm_compute; reflexivity).
  rewrite !Ec.
  repeat split; try (vm_compute; reflexivity); simpl; auto.
Qed.

(** Without a mismatch the temporary JSON is settled as the flag says:
    renamed onto the canonical JSON with [--rebuild], deleted without. *)
Example reconciled_archive_settles :
  let run := fun rebuild =>
    snd (@checkArchive Sample.runtime _ Sample.imageClass (Sample.argvCheck rebuild)
           Sample.diskette0 Sample.sJSON Sample.sArchive
           (Sample.storeWorld Sample.soundStore)) in
  disk (run true) !! Sample.sJSON = Some (mkFsFile (Some (Sample.ascii "abcd")) 0x1a4) /\
  disk (run true) !! "disk.json"%string = None /\
  disk (run true) !! "disk.img"%string = None /\
  disk (run false) !! Sample.sJSON = Some (mkFsFile (Some (Sample.ascii "old")) 0x1a4) /\
  disk (run false) !! "disk.json"%string = None.
Proof. cbv beta zeta. repeat split; vm_compute; reflexivity. Qed.

(** ** The helpers on concrete values *)

Example basename_examples :
  path.basename "/a/b/disk.img" = "disk.img"%string /\
  path.basename "a/b//" = "b"%string /\
  path.basename "/" = ""%string /\
  path.join "/d" "x" = "/d/x"%string.
Proof. repeat split; reflexivity. Qed.

Example isTextFile_examples :
  @isTextFile Sample.runtime "readme.txt" = true /\ @isTextFile Sample.runtime "MAKEFILE.mak" = true /\
  @isTextFile Sample.runtime "prog.exe" = false /\ @isTextFile Sample.runtime "txt" = false.
Proof. repeat split; reflexivity. Qed.

Example tempJSON_examples :
  tempJSON "disk.img" = "disk.json"%string /\
  tempIMG "disk.json" = "disk.img"%string /\
  tempJSON "disk" = "disk.json"%string /\
  tempJSON ".img" = ".img.json"%string.
Proof. repeat split; reflexivity. Qed.

(** [isASCII] looks at bit 7 of each code unit only: the code unit 256
    passes it although it is not 7-bit. *)
Example isASCII_tests_bit7 :
  isASCII [65; 127] = true /\ isASCII [65; 233] = false /\
  isASCII [256] = true /\ sevenBit [256] = false.
Proof. repeat split; reflexivity. Qed.

Example fixLineEndings_examples :
  fixLineEndings [97; 10; 98] = [97; 13; 10; 98] /\
  fixLineEndings [97; 13; 10; 98] = [97; 13; 10; 98] /\
  fixLineEndings [97; 13; 13; 10] = [97; 13; 10] /\
  fixLineEndings [97; 13; 98] = [97; 13; 98] /\
  collapseThenExpand [97; 13; 10; 98] = [97; 13; 13; 10; 98].
Proof. repeat split; reflexivity. Qed.

(** * Further properties of the module *)

(** ** Strings *)

Lemma string_length_app (a b : string) :
  String.length (a +:+ b) = (String.length a + String.length b)%nat.
Proof. induction a as [|c a IH]; simpl; [reflexivity|]. rewrite IH. reflexivity. Qed.

Lemma substring_all (b : string) : substring 0 (String.length b) b = b.
Proof. induction b as [|c b IH]; simpl; [reflexivity|]. rewrite IH. reflexivity. Qed.

Lemma substring_app_right (a b : string) :
  substring (String.length a) (String.length b) (a +:+ b) = b.
Proof. induction a as [|c a IH]; simpl; [apply substring_all | exact IH]. Qed.

Lemma substring_split (s : string) :
  forall n, (n <= String.length s)%nat ->
            s = substring 0 n s +:+ substring n (String.length s - n) s.
Proof.
  induction s as [|c s IH]; intros n Hn.
  - destruct n; reflexivity.
  - destruct n as [|n].
    + simpl. rewrite substring_all. reflexivity.
    + simpl in Hn.
      change (String c s =
              String c (substring 0 n s +:+ substring n (String.length s - n) s)).
      f_equal. apply IH. lia.
Qed.

Lemma endsWith_app (a b : string) : JS.endsWith (a +:+ b) b = true.
Proof.
  unfold JS.endsWith. rewrite string_length_app.
  rewrite (proj2 (Nat.leb_le _ _)) by lia.
  replace (String.length a + String.length b - String.length b)%nat
    with (String.length a) by lia.
  rewrite substring_app_right. apply String.eqb_refl.
Qed.

Lemma endsWith_split (s suffix : string) :
  JS.endsWith s suffix = true ->
  s = substring 0 (String.length s - String.length suffix) s +:+ suffix.
Proof.
  unfold JS.endsWith. destruct (Nat.leb_spec (String.length suffix) (String.length s));
    [|discriminate].
  intros Heq. apply String.eqb_eq in Heq.
  rewrite (substring_split s (String.length s - String.length suffix)) at 1 by lia.
  replace (String.length s - (String.length s - String.length suffix))%nat
    with (String.length suffix) by lia.
  rewrite Heq. reflexivity.
Qed.

Lemma upperAscii_idempotent (c : ascii) : JS.upperAscii (JS.upperAscii c) = JS.upperAscii c.
Proof. destruct c as [[] [] [] [] [] [] [] []]; vm_compute; reflexivity. Qed.

Lemma upperASCII_idempotent (s : string) :
  JS.upperASCII (JS.upperASCII s) = JS.upperASCII s.
Proof.
  induction s as [|c s IH]; simpl; [reflexivity|].
  rewrite upperAscii_idempotent, IH. reflexivity.
Qed.

Lemma upperASCII_length (s : string) : String.length (JS.upperASCII s) = String.length s.
Proof. induction s as [|c s IH]; simpl; [reflexivity|]. rewrite IH. reflexivity. Qed.

Lemma upperASCII_substring (s : string) :
  forall n m, JS.upperASCII (substring n m s) = substring n m (JS.upperASCII s).
Proof.
  induction s as [|c s IH]; intros n m.
  - destruct n, m; reflexivity.
  - destruct n as [|n]; simpl.
    + destruct m as [|m]; simpl; [reflexivity|]. rewrite IH. reflexivity.
    + apply IH.
Qed.

Lemma upperAscii_plain (c : ascii) :
  (nat_of_ascii c <? 128)%nat = true -> (nat_of_ascii (JS.upperAscii c) <? 128)%nat = true.
Proof. destruct c as [[] [] [] [] [] [] [] []]; vm_compute; congruence. Qed.

Lemma upperASCII_plain (s : string) : JS.plain s = true -> JS.plain (JS.upperASCII s) = true.
Proof.
  induction s as [|c s IH]; [reflexivity|]. simpl. intros Hs.
  apply andb_prop in Hs as [Hc Hs]. rewrite (upperAscii_plain c Hc), (IH Hs). reflexivity.
Qed.

Lemma plain_substring (s : string) :
  JS.plain s = true -> forall n m, JS.plain (substring n m s) = true.
Proof.
  induction s as [|c s IH]; intros Hs n m.
  - destruct n, m; reflexivity.
  - simpl in Hs. apply andb_prop in Hs as [Hc Hs]. destruct n as [|n]; simpl.
    + destruct m as [|m]; simpl; [reflexivity|]. rewrite Hc, (IH Hs). reflexivity.
    + apply IH. exact Hs.
Qed.

Section TextNames.
Context `{NodeRuntime}.

(** On a name of ASCII characters [toUpperCase] changes a-z to A-Z. *)
Lemma toUpperCase_plain (s : string) : JS.plain s = true -> toUpperCase s = JS.upperASCII s.
Proof.
  intros Hs. pose proof (toUpperCase_ascii "" s Hs) as Hup.
  rewrite toUpperCase_nil in Hup. exact Hup.
Qed.

(** X1: [isTextFile] looks at the end of the name and not at its case: any
    name followed by one of the nine extensions written in ASCII letters of
    either case is a text file; a name of ASCII characters is a text file
    only if it is such a name; and upper-casing a name of ASCII characters
    does not change the answer. (A name with other characters can be a text
    file without ending in the letters of an extension: [toUpperCase] maps
    U+017F to "S".) *)
Theorem isTextFile_suffix_any_case (s : string) :
  (forall ext, JS.plain ext = true -> In (JS.upperASCII ext) asTextFileExts ->
               isTextFile (s +:+ ext) = true) /\
  (JS.plain s = true -> isTextFile s = true ->
   exists front ext, s = front +:+ ext /\ JS.plain ext = true /\
                     In (JS.upperASCII ext) asTextFileExts) /\
  (JS.plain s = true -> isTextFile (toUpperCase s) = isTextFile s).
Proof.
  split; [|split].
  - intros ext Hp Hin. unfold isTextFile. apply existsb_exists.
    exists (JS.upperASCII ext). split; [exact Hin|].
    rewrite (toUpperCase_ascii s ext Hp). apply endsWith_app.
  - unfold isTextFile. intros Hp Ht. rewrite (toUpperCase_plain s Hp) in Ht.
    apply existsb_exists in Ht as (EXT & Hin & Hends).
    pose proof Hends as Hlen. unfold JS.endsWith in Hlen.
    rewrite upperASCII_length in Hlen.
    destruct (Nat.leb_spec (String.length EXT) (String.length s)) as [Hle|]; [|discriminate].
    apply String.eqb_eq in Hlen.
    exists (substring 0 (String.length s - String.length EXT) s),
           (substring (String.length s - String.length EXT) (String.length EXT) s).
    split; [|split].
    + rewrite (substring_split s (String.length s - String.length EXT)) at 1 by lia.
      f_equal. f_equal. lia.
    + apply plain_substring. exact Hp.
    + rewrite upperASCII_substring, Hlen. exact Hin.
  - intros Hp. unfold isTextFile.
    rewrite (toUpperCase_plain s Hp).
    rewrite (toUpperCase_plain _ (upperASCII_plain s Hp)).
    rewrite upperASCII_idempotent. reflexivity.
Qed.

End TextNames.

(** ** Code units and line endings *)

Lemma land_bit7_high (c : Z) : 128 <= c < 256 -> Z.land c 0x80 <> 0.
Proof.
  intros Hc Hz.
  assert (Hbit : Z.testbit (Z.land c 0x80) 7 = true).
  { rewrite Z.land_spec. change 0x80 with (2 ^ 7).
    rewrite Z.pow2_bits_eqb by lia. rewrite Z.eqb_refl, andb_true_r.
    apply Z.testbit_true; [lia|].
    change (2 ^ 7) with 128.
    replace (c / 128) with 1; [reflexivity|].
    apply Z.div_unique with (r := c - 128); lia. }
  rewrite Hz in Hbit. rewrite Z.bits_0 in Hbit. discriminate.
Qed.

(** X2: on a string of byte values (every code unit below 256) [isASCII]
    is exactly the test that every code unit is below 128. *)
Theorem isASCII_on_byte_values (s : jsstring) :
  byteValued s = true -> isASCII s = sevenBit s.
Proof.
  unfold byteValued, isASCII, sevenBit.
  induction s as [|c t IH]; [reflexivity|]. simpl. intros Hb.
  apply andb_prop in Hb as [Hc Ht]. rewrite (IH Ht). f_equal.
  apply andb_prop in Hc as [H0 H1]. apply Z.leb_le in H0. apply Z.ltb_lt in H1.
  rewrite (proj2 (Z.leb_le 0 c) H0). simpl.
  destruct (Z.ltb_spec c 128) as [Hlt|Hge].
  - apply Z.eqb_eq, land_bit7_small. lia.
  - apply Z.eqb_neq, land_bit7_high. lia.
Qed.

Lemma isASCII_on_byte_values_witness :
  byteValued [65; 200] = true /\ isASCII [65; 200] = sevenBit [65; 200].
Proof.
  split; [reflexivity|]. exact (isASCII_on_byte_values [65; 200] eq_refl).
Defined.

Lemma withoutCR_replaceLF (s : jsstring) : withoutCR (JS.replaceLF s) = withoutCR s.
Proof.
  unfold withoutCR. induction s as [|c t IH]; [reflexivity|].
  destruct (Z.eqb_spec c JS.LF) as [->|Hlf].
  - rewrite replaceLF_cons_LF.
    rewrite filter_cons_False by (intros Hx; apply Hx; reflexivity).
    rewrite !filter_cons_True by discriminate. rewrite IH. reflexivity.
  - rewrite (replaceLF_cons_other c) by exact Hlf.
    rewrite !filter_cons. rewrite IH. reflexivity.
Qed.

Lemma withoutCR_replaceCRs (x : jsstring) : withoutCR (JS.replaceCRs x) = withoutCR x.
Proof.
  unfold withoutCR. induction x as [|c t IH]; [reflexivity|].
  destruct (Z.eqb_spec c JS.CR) as [->|Hcr].
  - rewrite (filter_cons_False _ JS.CR t) by (intros Hx; apply Hx; reflexivity).
    rewrite <- IH. simpl JS.replaceCRs.
    destruct t as [|d t']; [reflexivity|].
    destruct (Z.eqb_spec d JS.CR) as [->|Hd]; simpl.
    + reflexivity.
    + rewrite filter_cons_False by (intros Hx; apply Hx; reflexivity). reflexivity.
  - rewrite (replaceCRs_cons_other c) by exact Hcr.
    rewrite !filter_cons_True by exact Hcr. rewrite IH. reflexivity.
Qed.

(** X3: whatever the text, the line-ending rewrite gives a text in which
    every LF follows a CR and no CR follows a CR; it keeps every character
    other than CR, in order (so it neither drops nor adds a line feed); and
    a second pass changes nothing. *)
Theorem fixLineEndings_normal_form (s : jsstring) :
  settledFrom 0 (fixLineEndings s) = true /\
  withoutCR (fixLineEndings s) = withoutCR s /\
  fixLineEndings (fixLineEndings s) = fixLineEndings s.
Proof.
  split; [|split].
  - unfold fixLineEndings. apply replaceCRs_settled; [apply replaceLF_lfGuarded|reflexivity].
  - unfold fixLineEndings. rewrite withoutCR_replaceCRs. apply withoutCR_replaceLF.
  - apply fixLineEndings_idempotent.
Qed.

(** ** Reading and writing single files *)

Section FileAccess.
Context `{NodeRuntime} {J : Type} `{JSONRuntime J}.

(** X4: [readFile] never throws and changes nothing but the console: for
    an empty path or a path where nothing is stored it returns [undefined]
    without a message; for a file whose read throws it prints that one error
    and returns [undefined]; for a readable file it returns the content, as
    a string under "utf8" and as a buffer under [null]. *)
Theorem readFile_outcomes (sFile : string) (encoding : option Encoding) (w : world) :
  (exists r ds, readFile sFile encoding w = (Ok r, printed ds w) /\
                (length ds <= 1)%nat /\ Forall isErrorNote ds) /\
  (sFile = ""%string \/ disk w !! sFile = None -> readFile sFile encoding w = (Ok None, w)) /\
  (forall mode, sFile <> ""%string -> disk w !! sFile = Some (mkFsFile None mode) ->
                readFile sFile encoding w = (Ok None, printed [DError "EACCES"] w)) /\
  (forall db mode, sFile <> ""%string -> disk w !! sFile = Some (mkFsFile (Some db) mode) ->
                   readFile sFile encoding w =
                   (Ok (Some (match encoding with
                              | Some utf8 => Str (utf8Decode db)
                              | None => Buf db
                              end)), w)).
Proof.
  assert (Hsilent : sFile = ""%string \/ disk w !! sFile = None ->
                    readFile sFile encoding w = (Ok None, w)).
  { intros [->|Hd]; [reflexivity|]. unfold readFile. rewrite Hd. apply readFileAt_missing. }
  assert (Hfail : forall mode, sFile <> ""%string ->
                               disk w !! sFile = Some (mkFsFile None mode) ->
                               readFile sFile encoding w =
                               (Ok None, printed [DError "EACCES"] w)).
  { intros mode Hs Hd. unfold readFile. rewrite Hd. simpl.
    apply readFileAt_failing, String.eqb_neq, Hs. }
  assert (Hread : forall db mode, sFile <> ""%string ->
                    disk w !! sFile = Some (mkFsFile (Some db) mode) ->
                    readFile sFile encoding w =
                    (Ok (Some (match encoding with
                               | Some utf8 => Str (utf8Decode db)
                               | None => Buf db
                               end)), w)).
  { intros db mode Hs Hd. unfold readFile. rewrite Hd. simpl.
    apply readFileAt_readable, String.eqb_neq, Hs. }
  split; [|split; [exact Hsilent|split; [exact Hfail|exact Hread]]].
  destruct (String.eqb_spec sFile "") as [Hs|Hs].
  { exists None, []. rewrite printed_nil, Hsilent by (left; exact Hs).
    split; [reflexivity|]. split; [simpl; lia|constructor]. }
  destruct (disk w !! sFile) as [[[db|] mode]|] eqn:Hd.
  - eexists _, []. rewrite printed_nil, (Hread db mode Hs eq_refl).
    split; [reflexivity|]. split; [simpl; lia|constructor].
  - exists None, [DError "EACCES"]. rewrite (Hfail mode Hs eq_refl).
    split; [reflexivity|]. split; [simpl; lia|repeat constructor].
  - exists None, []. rewrite printed_nil, Hsilent by (right; reflexivity).
    split; [reflexivity|]. split; [simpl; lia|constructor].
Qed.

(** What [writeFile] does, case by case. *)
Lemma writeFile_cases (sFile : string) (data : filedata) (w : world) :
  writeFile sFile data w =
  if String.eqb sFile "" then (Ok false, w)
  else if frozen w sFile then (Ok false, printed [DError "EACCES"] w)
  else match disk w !! sFile with
       | Some f =>
           if Z.land (fmode f) S_IWUSR =? 0 then (Ok false, printed [DError "EACCES"] w)
           else (Ok true, withDisk (<[sFile := mkFsFile (Some (bytesOf data)) (fmode f)]>
                                      (disk w)) w)
       | None =>
           if noRoom w sFile then (Ok false, printed [DError "ENOSPC"] w)
           else (Ok true, withDisk (<[sFile := mkFsFile (Some (bytesOf data))
                                                 (Z.land mode666 (Z.lnot (umask w)))]>
                                      (disk w)) w)
       end.
Proof.
  unfold writeFile. destruct (String.eqb sFile ""); [reflexivity|].
  unfold tryCatch, bind, writeFileSync.
  destruct (frozen w sFile); [reflexivity|].
  destruct (disk w !! sFile) as [f|].
  - destruct (Z.land (fmode f) S_IWUSR =? 0); reflexivity.
  - destruct (noRoom w sFile); reflexivity.
Qed.


(** X6: [readJSON] never throws and changes nothing but the console: it
    returns the parsed value when the file can be read and [JSON.parse]
    accepts its text, and otherwise prints exactly one error (a path where
    nothing is stored included, unlike [readFile]) and returns [undefined]. *)
Theorem readJSON_outcomes (sFile : string) (w : world) :
  (forall db mode json,
      disk w !! sFile = Some (mkFsFile (Some db) mode) ->
      JSON_parse (utf8Decode db) = Ok json ->
      readJSON sFile w = (Ok (Some json), w)) /\
  (forall db mode message,
      disk w !! sFile = Some (mkFsFile (Some db) mode) ->
      JSON_parse (utf8Decode db) = Thrown message ->
      readJSON sFile w = (Ok None, printed [DError message] w)) /\
  (cannotRead w sFile ->
   exists message, readJSON sFile w = (Ok None, printed [DError message] w)) /\
  (exists r ds, readJSON sFile w = (Ok r, printed ds w) /\
                (r = None <-> length ds = 1%nat) /\ Forall isErrorNote ds).
Proof.
  assert (H1 : forall db mode json,
             disk w !! sFile = Some (mkFsFile (Some db) mode) ->
             JSON_parse (utf8Decode db) = Ok json ->
             readJSON sFile w = (Ok (Some json), w)).
  { intros db mode json Hd Hp. unfold readJSON, tryCatch, bind, fsReadFileSync.
    rewrite Hd. simpl. rewrite Hp. reflexivity. }
  assert (H2 : forall db mode message,
             disk w !! sFile = Some (mkFsFile (Some db) mode) ->
             JSON_parse (utf8Decode db) = Thrown message ->
             readJSON sFile w = (Ok None, printed [DError message] w)).
  { intros db mode message Hd Hp. unfold readJSON, tryCatch, bind, fsReadFileSync.
    rewrite Hd. simpl. rewrite Hp. reflexivity. }
  assert (H3 : cannotRead w sFile ->
               exists message, readJSON sFile w = (Ok None, printed [DError message] w)).
  { intros [Hd|[mode Hd]]; unfold readJSON, tryCatch, bind, fsReadFileSync; rewrite Hd;
      simpl; eexists; reflexivity. }
  split; [exact H1|split; [exact H2|split; [exact H3|]]].
  destruct (disk w !! sFile) as [[[db|] mode]|] eqn:Hd.
  - destruct (JSON_parse (utf8Decode db)) as [json|message] eqn:Hp.
    + exists (Some json), []. rewrite printed_nil, (H1 db mode json eq_refl Hp).
      split; [reflexivity|]. split; [split; discriminate|constructor].
    + exists None, [DError message]. rewrite (H2 db mode message eq_refl Hp).
      split; [reflexivity|]. split; [split; reflexivity|repeat constructor].
  - destruct H3 as [message ->]; [right; eauto|].
    exists None, [DError message].
    split; [reflexivity|]. split; [split; reflexivity|repeat constructor].
  - destruct H3 as [message ->]; [left; exact Hd|].
    exists None, [DError message].
    split; [reflexivity|]. split; [split; reflexivity|repeat constructor].
Qed.

End FileAccess.

(** ** Disk files *)

Section DiskFiles.
Context `{NodeRuntime} {DI : Type} `{DiskImageClass DI}.

Lemma readDisk_readable (sFile : string) (db : DataBuffer) (mode : Z) (forceBPB : bool)
    (sectorIDs sectorErrors : option string) (suppData : option filedata) (w : world) :
  disk w !! sFile = Some (mkFsFile (Some db) mode) ->
  readDisk sFile forceBPB sectorIDs sectorErrors suppData w =
  (Ok (if fst (builtFrom sFile db forceBPB sectorIDs sectorErrors suppData)
       then Some (snd (builtFrom sFile db forceBPB sectorIDs sectorErrors suppData))
       else None), w).
Proof.
  intros Hd. unfold readDisk, tryCatch, bind, fsReadFileSync, builtFrom. rewrite Hd. simpl.
  destruct (JS.endsWith (path.basename sFile) ".json").
  - destruct (buildDiskFromJSON _ _) as [[] di]; reflexivity.
  - destruct (JS.endsWith (path.basename sFile) ".psi").
    + destruct (buildDiskFromPSI _ _) as [[] di]; reflexivity.
    + destruct (buildDiskFromBuffer _ _ _ _ _ _) as [[] di]; reflexivity.
Qed.

(** [writeDisk] when it writes. *)
Lemma writeDisk_written (sFile : string) (di : DI) (fLegacy : bool) (indent : Z)
    (fOverwrite : bool) (w : world) (d : filedata) :
  disk w !! sFile = None \/ fOverwrite = true ->
  sFile ∉ locked w ->
  diskData sFile di fLegacy = Some d ->
  falsy (Some d) = false ->
  writeDisk sFile di fLegacy indent fOverwrite w = (Ok tt, written sFile (bytesOf d) w).
Proof.
  intros Hfree Hl Hd Hf. rewrite writeDisk_cases, Hd, Hf.
  rewrite (bool_decide_eq_false_2 _ Hl).
  destruct Hfree as [Hnone| ->].
  - rewrite Hnone. rewrite bool_decide_eq_false_2 by (intros [? ?]; discriminate).
    reflexivity.
  - rewrite andb_false_r. reflexivity.
Qed.

(** X7: [readDisk] never throws and leaves the world as it is but for one
    error message: a file that cannot be read gives [null] and the message;
    a readable file gives the image its builder produced, or [null] without
    a message when the builder refused. *)
Theorem readDisk_outcomes (sFile : string) (forceBPB : bool)
    (sectorIDs sectorErrors : option string) (suppData : option filedata) (w : world) :
  (cannotRead w sFile ->
   exists message,
     readDisk (DI := DI) sFile forceBPB sectorIDs sectorErrors suppData w =
     (Ok None, printed [DError message] w)) /\
  (forall db mode,
      disk w !! sFile = Some (mkFsFile (Some db) mode) ->
      exists r,
        readDisk sFile forceBPB sectorIDs sectorErrors suppData w = (Ok r, w) /\
        (r = None <-> fst (builtFrom sFile db forceBPB sectorIDs sectorErrors suppData) = false) /\
        (forall di, r = Some di ->
                    di = snd (builtFrom sFile db forceBPB sectorIDs sectorErrors suppData))).
Proof.
  split; [apply readDisk_cannotRead|].
  intros db mode Hd. rewrite (readDisk_readable sFile db mode) by exact Hd.
  eexists. split; [reflexivity|].
  destruct (fst (builtFrom sFile db forceBPB sectorIDs sectorErrors suppData)).
  - split; [split; discriminate|]. intros di E. inversion E. reflexivity.
  - split; [split; reflexivity|]. intros di E. discriminate E.
Qed.

(** X8: the two sides do not agree on the case of the extension. After
    [writeDisk] wrote a file whose name ends in ".json" in some case,
    [readDisk] on that file parses the text as JSON when its base name ends
    in lower-case ".json", and otherwise hands the bytes of the JSON text to
    the raw-image builder (or to the PSI builder for a base name ending in
    ".psi"). *)
Theorem writeDisk_then_readDisk (sFile : string) (di : DI) (fLegacy : bool) (indent : Z)
    (fOverwrite forceBPB : bool) (sectorIDs sectorErrors : option string)
    (suppData : option filedata) (w : world) :
  disk w !! sFile = None \/ fOverwrite = true ->
  sFile ∉ locked w ->
  JS.endsWith (toUpperCase sFile) ".JSON" = true ->
  getJSON di true fLegacy <> [] ->
  let bytes := utf8Encode (getJSON di true fLegacy) in
  let w1 := snd (writeDisk sFile di fLegacy indent fOverwrite w) in
  let fresh := newDiskImage (Some (path.basename sFile)) in
  disk w1 !! sFile = Some (mkFsFile (Some bytes) (Z.land mode666 (Z.lnot (umask w)))) /\
  (JS.endsWith (path.basename sFile) ".json" = true ->
   readDisk sFile forceBPB sectorIDs sectorErrors suppData w1 =
   (Ok (if fst (buildDiskFromJSON fresh (utf8Decode bytes))
        then Some (snd (buildDiskFromJSON fresh (utf8Decode bytes))) else None), w1)) /\
  (JS.endsWith (path.basename sFile) ".json" = false ->
   JS.endsWith (path.basename sFile) ".psi" = false ->
   readDisk sFile forceBPB sectorIDs sectorErrors suppData w1 =
   (Ok (if fst (buildDiskFromBuffer fresh bytes forceBPB sectorIDs sectorErrors suppData)
        then Some (snd (buildDiskFromBuffer fresh bytes forceBPB sectorIDs sectorErrors
                          suppData))
        else None), w1)).
Proof.
  intros Hfree Hl Hjson Hne bytes w1 fresh.
  assert (Hd : diskData sFile di fLegacy = Some (Str (getJSON di true fLegacy)))
    by (unfold diskData; rewrite Hjson; reflexivity).
  assert (Hf : falsy (Some (Str (getJSON di true fLegacy))) = false)
    by (simpl; destruct (getJSON di true fLegacy); [contradiction|reflexivity]).
  assert (Hw1 : w1 = written sFile bytes w)
    by (unfold w1; rewrite (writeDisk_written _ _ _ _ _ _ _ Hfree Hl Hd Hf); reflexivity).
  assert (Himg : JS.endsWith (toUpperCase sFile) ".IMG" = false).
  { unfold JS.endsWith in Hjson |- *.
    destruct (Nat.leb_spec (String.length ".JSON") (String.length (toUpperCase sFile)))
      as [Hle|]; [|discriminate].
    apply String.eqb_eq in Hjson.
    destruct (Nat.leb_spec (String.length ".IMG") (String.length (toUpperCase sFile)))
      as [Hle'|]; [|reflexivity].
    apply String.eqb_neq. intros Himg.
    pose proof (substring_split (toUpperCase sFile)
                  (String.length (toUpperCase sFile) - 5)) as Hs1.
    assert (Hlast : forall s, substring (String.length s - 5) 5 s = ".JSON"%string ->
                              substring (String.length s - 4) 4 s = "JSON"%string).
    { intros s Hs. assert (Hlen : (5 <= String.length s)%nat).
      { destruct (Nat.le_gt_cases 5 (String.length s)) as [Hl5|Hl5]; [exact Hl5|].
        assert (Hsub : String.length (substring (String.length s - 5) 5 s) = 5%nat)
          by (rewrite Hs; reflexivity).
        replace (String.length s - 5)%nat with 0%nat in Hsub by lia.
        clear Hs. exfalso. revert Hsub Hl5.
        destruct s as [|c0 [|c1 [|c2 [|c3 [|c4 s]]]]]; simpl; intros; try discriminate; lia. }
      rewrite (substring_split s (String.length s - 5)) by lia.
      replace (String.length s - (String.length s - 5))%nat with 5%nat by lia.
      rewrite Hs. rewrite string_length_app.
      set (front := substring 0 (String.length s - 5) s).
      replace (String.length front + String.length ".JSON" - 4)%nat
        with (String.length front + 1)%nat by (simpl; lia).
      clearbody front. clear. induction front as [|c f IH]; [reflexivity|exact IH]. }
    change (String.length ".IMG") with 4%nat in Himg.
    change (String.length ".JSON") with 5%nat in Hjson.
    rewrite (Hlast _ Hjson) in Himg. discriminate Himg. }
  assert (Hfile : disk w1 !! sFile =
                  Some (mkFsFile (Some bytes) (Z.land mode666 (Z.lnot (umask w))))).
  { rewrite Hw1. unfold written, withDisk, writtenMode. simpl. rewrite Himg.
    apply lookup_insert_eq. }
  split; [exact Hfile|]. split.
  - intros Hlow. rewrite (readDisk_readable sFile _ _ _ _ _ _ _ Hfile).
    unfold builtFrom. rewrite Hlow. reflexivity.
  - intros Hlow Hpsi. rewrite (readDisk_readable sFile _ _ _ _ _ _ _ Hfile).
    unfold builtFrom. rewrite Hlow, Hpsi. reflexivity.
Qed.

End DiskFiles.

(** The three-byte image written as "/out/DISK.JSON" and read back: the
    base name does not end in lower-case ".json", so the JSON text comes
    back as the bytes of a raw image. *)
Lemma writeDisk_then_readDisk_witness :
  let w := Sample.storeWorld Sample.soundStore in
  let w1 := snd (@writeDisk Sample.runtime _ Sample.imageClass "/out/DISK.JSON"
                   Sample.image3 false 0 false w) in
  (disk w !! "/out/DISK.JSON"%string = None \/ false = true) /\
  ("/out/DISK.JSON"%string ∉ locked w) /\
  JS.endsWith (@toUpperCase Sample.runtime "/out/DISK.JSON") ".JSON" = true /\
  @getJSON _ Sample.imageClass Sample.image3 true false <> [] /\
  disk w1 !! "/out/DISK.JSON"%string = Some (mkFsFile (Some (Sample.ascii "abc")) 0x1a4) /\
  @readDisk Sample.runtime _ Sample.imageClass "/out/DISK.JSON" false None None None w1 =
  (Ok (Some (Sample.mkImage (Sample.ascii "abc") "")), w1).
Proof.
  cbv zeta.
  assert (H1 : disk (Sample.storeWorld Sample.soundStore) !! "/out/DISK.JSON"%string = None
               \/ false = true) by (left; vm_compute; reflexivity).
  assert (H2 : "/out/DISK.JSON"%string ∉ locked (Sample.storeWorld Sample.soundStore))
    by (simpl; apply not_elem_of_empty).
  assert (H4 : @getJSON _ Sample.imageClass Sample.image3 true false <> [])
    by (vm_compute; discriminate).
  split; [exact H1|]. split; [exact H2|]. split; [reflexivity|]. split; [exact H4|].
  pose proof (@writeDisk_then_readDisk Sample.runtime _ Sample.imageClass "/out/DISK.JSON"
                Sample.image3 false 0 false false None None None
                (Sample.storeWorld Sample.soundStore) H1 H2 eq_refl H4)
    as (Hfile & _ & Hraw).
  split; [exact Hfile|]. exact (Hraw eq_refl eq_refl).
Defined.

Section DiskWrites.
Context `{NodeRuntime} {DI : Type} `{DiskImageClass DI}.

(** X9: [writeDisk] never throws and never changes another path, but an
    overwrite is not atomic: line 319 unlinks the existing file before line
    320 writes, so when the write then finds no room the old file is lost
    and only the error is printed. The store is left as it was when the
    image gives no data, when the file exists and the overwrite flag is
    off, and when the file system refuses every change at the path (the
    unlink, or the write of a new file, throws first). Where nothing is
    refused the file gets the new bytes. *)
Theorem writeDisk_overwrite_not_atomic (sFile : string) (di : DI) (fLegacy : bool)
    (indent : Z) (fOverwrite : bool) (w : world) :
  exists w',
    writeDisk sFile di fLegacy indent fOverwrite w = (Ok tt, w') /\
    (forall p, p <> sFile -> disk w' !! p = disk w !! p) /\
    (diskData sFile di fLegacy = None \/ falsy (diskData sFile di fLegacy) = true \/
     (is_Some (disk w !! sFile) /\ fOverwrite = false) \/ frozen w sFile = true ->
     disk w' = disk w) /\
    (forall d,
        diskData sFile di fLegacy = Some d -> falsy (Some d) = false ->
        disk w !! sFile = None \/ fOverwrite = true ->
        (noRoom w sFile = true ->
         disk w' = delete sFile (disk w) /\
         console w' = console w ++ [DWriting sFile; DError "ENOSPC"]) /\
        (sFile ∉ locked w ->
         disk w' = <[sFile := mkFsFile (Some (bytesOf d)) (writtenMode sFile w)]> (disk w))).
Proof.
  eexists. split; [apply writeDisk_cases|].
  split; [|split].
  - intros p Hp. rewrite <- (writeDisk_frame sFile di fLegacy indent fOverwrite w p Hp).
    rewrite writeDisk_cases. reflexivity.
  - intros Hcase. unfold frozen in Hcase.
    destruct (bool_decide (is_Some (disk w !! sFile)) && negb fOverwrite) eqn:Hgo;
      [reflexivity|].
    destruct (diskData sFile di fLegacy) as [d|] eqn:Hd; [|reflexivity].
    destruct (falsy (Some d)) eqn:Hf; [reflexivity|].
    destruct Hcase as [Hx|[Hx|[[Hex Ho]|Hx]]]; [discriminate|discriminate| |].
    + rewrite bool_decide_eq_true_2, Ho in Hgo by exact Hex. discriminate.
    + apply andb_prop in Hx as [Hl Hn]. apply negb_true_iff in Hn.
      rewrite Hl, Hn. reflexivity.
  - intros d Hd Hf Hfree.
    assert (Hgo : bool_decide (is_Some (disk w !! sFile)) && negb fOverwrite = false).
    { destruct Hfree as [Hnone| ->]; [|apply andb_false_r].
      rewrite Hnone, bool_decide_eq_false_2 by (intros [? ?]; discriminate). reflexivity. }
    rewrite Hgo, Hd, Hf. split.
    + unfold noRoom. intros Hn. apply andb_prop in Hn as [Hl Hn]. rewrite Hl, Hn.
      split; [reflexivity|]. simpl. reflexivity.
    + intros Hl. rewrite (bool_decide_eq_false_2 _ Hl). reflexivity.
Qed.

(** X10: after [writeDisk] wrote [sFile], writing there again without the
    overwrite flag changes nothing whatever the image, and writing the same
    image again with the overwrite flag gives the same file. *)
Theorem writeDisk_twice (sFile : string) (di di' : DI) (fLegacy fLegacy' : bool)
    (indent : Z) (fOverwrite : bool) (w : world) (d : filedata) :
  disk w !! sFile = None \/ fOverwrite = true ->
  sFile ∉ locked w ->
  diskData sFile di fLegacy = Some d ->
  falsy (Some d) = false ->
  let w1 := snd (writeDisk sFile di fLegacy indent fOverwrite w) in
  disk w1 !! sFile = Some (mkFsFile (Some (bytesOf d)) (writtenMode sFile w)) /\
  disk (snd (writeDisk sFile di' fLegacy' indent false w1)) = disk w1 /\
  disk (snd (writeDisk sFile di fLegacy indent true w1)) = disk w1.
Proof.
  intros Hfree Hl Hd Hf w1.
  assert (Hw1 : w1 = written sFile (bytesOf d) w)
    by (unfold w1; rewrite (writeDisk_written _ _ _ _ _ _ _ Hfree Hl Hd Hf); reflexivity).
  assert (Hfile : disk w1 !! sFile =
                  Some (mkFsFile (Some (bytesOf d)) (writtenMode sFile w))).
  { rewrite Hw1. unfold written, withDisk. simpl. apply lookup_insert_eq. }
  split; [exact Hfile|]. split.
  - rewrite writeDisk_cases. rewrite Hfile.
    rewrite bool_decide_eq_true_2 by eauto. reflexivity.
  - rewrite (writeDisk_written sFile di fLegacy indent true w1 d);
      [|right; reflexivity|rewrite Hw1; exact Hl|exact Hd|exact Hf].
    rewrite Hw1. unfold written, withDisk, writtenMode. simpl.
    apply insert_insert_eq.
Qed.

(** X11: [compareDisks] never throws and does not change the store; its
    answer is the same when the two names are swapped; and a readable file
    compares equal to itself. *)
Theorem compareDisks_symmetric (sDisk1 sDisk2 : string) (w : world) :
  (exists b ds, compareDisks sDisk1 sDisk2 w = (Ok b, printed ds w) /\
                Forall isErrorNote ds) /\
  fst (compareDisks sDisk1 sDisk2 w) = fst (compareDisks sDisk2 sDisk1 w) /\
  (forall db mode, sDisk1 <> ""%string ->
                   disk w !! sDisk1 = Some (mkFsFile (Some db) mode) ->
                   compareDisks sDisk1 sDisk1 w = (Ok true, w)).
Proof.
  split; [|split].
  - unfold compareDisks, bind.
    destruct (readFile_prints sDisk1 None w) as (r1 & ds1 & Hr1 & He1). rewrite Hr1.
    destruct (readFile_prints sDisk2 None (printed ds1 w)) as (r2 & ds2 & Hr2 & He2).
    rewrite Hr2. rewrite printed_app.
    assert (He : Forall isErrorNote (ds1 ++ ds2)) by (apply Forall_app; split; assumption).
    destruct (falsy r1) eqn:Hf1; [eauto|].
    destruct (falsy r2) eqn:Hf2; [eauto|].
    destruct r1 as [[s1|b1]|]; try discriminate.
    + exfalso. unfold readFile, readFileAt in Hr1.
      destruct (String.eqb sDisk1 ""); [discriminate|].
      destruct (disk w !! sDisk1) as [[[db|] mode]|]; simpl in Hr1; discriminate.
    + destruct r2 as [[s2|b2]|]; try discriminate; [|eauto].
      exfalso. unfold readFile, readFileAt in Hr2.
      destruct (String.eqb sDisk2 ""); [discriminate|].
      destruct (disk (printed ds1 w) !! sDisk2) as [[[db|] mode]|]; simpl in Hr2; discriminate.
  - assert (Hside : forall a b,
               fst (compareDisks a b w) = Ok true ->
               fst (compareDisks b a w) = Ok true).
    { intros a b Hab.
      destruct (compareDisks_cases a b w) as [ds [[Heq _]|[_ Hboth]]];
        [rewrite Heq in Hab; discriminate|].
      destruct Hboth as (b0 & m1 & m2 & Hs1 & Hs2 & Hd1 & Hd2).
      destruct (compareDisks_cases b a w) as [ds' [[_ [Hu|[Hu|Hne]]]|[-> _]]];
        [| | |reflexivity].
      - exfalso. eapply unreadable_readable_absurd; eassumption.
      - exfalso. eapply unreadable_readable_absurd; eassumption.
      - destruct Hne as (c1 & c2 & n1 & n2 & He1 & He2 & Hne). congruence. }
    destruct (compareDisks_cases sDisk1 sDisk2 w) as [ds [[Heq _]|[Heq _]]].
    + destruct (compareDisks_cases sDisk2 sDisk1 w) as [ds' [[Heq' _]|[Heq' _]]].
      * rewrite Heq, Heq'. reflexivity.
      * pose proof (Hside sDisk2 sDisk1) as Hx. rewrite Heq' in Hx.
        rewrite Heq in Hx. specialize (Hx eq_refl). discriminate.
    + pose proof (Hside sDisk1 sDisk2) as Hx. rewrite Heq in Hx.
      rewrite Heq. symmetry. apply Hx. reflexivity.
  - intros db mode Hs Hd. unfold compareDisks, bind.
    rewrite (readFile_readable sDisk1 db mode w Hs Hd). simpl.
    rewrite (readFile_readable sDisk1 db mode w Hs Hd). simpl.
    unfold compare. rewrite bool_decide_eq_true_2 by reflexivity. reflexivity.
Qed.

(** X12: two raw writes of one image compare equal: after [writeDisk] wrote
    the buffer of the same image under two different names, neither ending in
    ".json", [compareDisks] on the two names answers true and prints
    nothing. *)
Theorem raw_copies_compare_equal (sDisk1 sDisk2 : string) (di : DI) (fLegacy : bool)
    (indent : Z) (fOverwrite : bool) (db : DataBuffer) (w : world) :
  sDisk1 <> ""%string -> sDisk2 <> ""%string -> sDisk1 <> sDisk2 ->
  JS.endsWith (toUpperCase sDisk1) ".JSON" = false ->
  JS.endsWith (toUpperCase sDisk2) ".JSON" = false ->
  getData di = Some db ->
  sDisk1 ∉ locked w -> sDisk2 ∉ locked w ->
  disk w !! sDisk1 = None \/ fOverwrite = true ->
  disk w !! sDisk2 = None \/ fOverwrite = true ->
  let w1 := snd (writeDisk sDisk1 di fLegacy indent fOverwrite w) in
  let w2 := snd (writeDisk sDisk2 di fLegacy indent fOverwrite w1) in
  compareDisks sDisk1 sDisk2 w2 = (Ok true, w2).
Proof.
  intros Hs1 Hs2 Hne Hj1 Hj2 Hdata Hl1 Hl2 Hf1 Hf2 w1 w2.
  assert (Hd1 : diskData sDisk1 di fLegacy = Some (Buf db))
    by (unfold diskData; rewrite Hj1, Hdata; reflexivity).
  assert (Hd2 : diskData sDisk2 di fLegacy = Some (Buf db))
    by (unfold diskData; rewrite Hj2, Hdata; reflexivity).
  assert (Hw1 : w1 = written sDisk1 db w).
  { unfold w1. rewrite (writeDisk_written _ _ _ _ _ _ (Buf db) Hf1 Hl1 Hd1 eq_refl).
    reflexivity. }
  assert (Hw2 : w2 = written sDisk2 db w1).
  { unfold w2. rewrite (writeDisk_written sDisk2 di fLegacy indent fOverwrite w1 (Buf db));
      [reflexivity| |rewrite Hw1; exact Hl2|exact Hd2|reflexivity].
    destruct Hf2 as [Hnone|Ho]; [left|right; exact Ho].
    rewrite Hw1. unfold written, withDisk. simpl.
    rewrite lookup_insert_ne by exact Hne. exact Hnone. }
  assert (Hr1 : disk w2 !! sDisk1 = Some (mkFsFile (Some db) (writtenMode sDisk1 w))).
  { rewrite Hw2, Hw1. unfold written, withDisk. simpl.
    rewrite lookup_insert_ne by congruence. apply lookup_insert_eq. }
  assert (Hr2 : disk w2 !! sDisk2 = Some (mkFsFile (Some db) (writtenMode sDisk2 w1))).
  { rewrite Hw2. unfold written, withDisk. simpl. apply lookup_insert_eq. }
  unfold compareDisks, bind.
  rewrite (readFile_readable sDisk1 db _ w2 Hs1 Hr1). simpl.
  rewrite (readFile_readable sDisk2 db _ w2 Hs2 Hr2). simpl.
  unfold compare. rewrite bool_decide_eq_true_2 by reflexivity. reflexivity.
Qed.

End DiskWrites.

(** The three-byte image written to the new file "/out/disk.img", then
    written there twice more. *)
Lemma writeDisk_twice_witness :
  let w := Sample.storeWorld Sample.soundStore in
  let d := Buf (Sample.ascii "abc") in
  let w1 := snd (@writeDisk Sample.runtime _ Sample.imageClass "/out/disk.img"
                   Sample.image3 false 0 false w) in
  (disk w !! "/out/disk.img"%string = None \/ false = true) /\
  ("/out/disk.img"%string ∉ locked w) /\
  @diskData Sample.runtime _ Sample.imageClass "/out/disk.img" Sample.image3 false = Some d /\
  falsy (Some d) = false /\
  disk (snd (@writeDisk Sample.runtime _ Sample.imageClass "/out/disk.img"
               (Sample.mkImage (Sample.ascii "other") "") true 0 false w1)) = disk w1 /\
  disk (snd (@writeDisk Sample.runtime _ Sample.imageClass "/out/disk.img"
               Sample.image3 false 0 true w1)) = disk w1.
Proof.
  cbv zeta.
  assert (H1 : disk (Sample.storeWorld Sample.soundStore) !! "/out/disk.img"%string = None
               \/ false = true) by (left; vm_compute; reflexivity).
  assert (H2 : "/out/disk.img"%string ∉ locked (Sample.storeWorld Sample.soundStore))
    by (simpl; apply not_elem_of_empty).
  split; [exact H1|]. split; [exact H2|]. split; [reflexivity|]. split; [reflexivity|].
  exact (proj2 (@writeDisk_twice Sample.runtime _ Sample.imageClass "/out/disk.img"
                  Sample.image3 (Sample.mkImage (Sample.ascii "other") "") false true 0 false
                  (Sample.storeWorld Sample.soundStore) (Buf (Sample.ascii "abc"))
                  H1 H2 eq_refl eq_refl)).
Defined.

(** The three-byte image written to "/out/a.img" and to "/out/b.img". *)
Lemma raw_copies_compare_equal_witness :
  let w := Sample.storeWorld Sample.soundStore in
  let w1 := snd (@writeDisk Sample.runtime _ Sample.imageClass "/out/a.img"
                   Sample.image3 false 0 false w) in
  let w2 := snd (@writeDisk Sample.runtime _ Sample.imageClass "/out/b.img"
                   Sample.image3 false 0 false w1) in
  ("/out/a.img"%string <> "/out/b.img"%string) /\
  @getData _ Sample.imageClass Sample.image3 = Some (Sample.ascii "abc") /\
  ("/out/a.img"%string ∉ locked w) /\ ("/out/b.img"%string ∉ locked w) /\
  (disk w !! "/out/a.img"%string = None \/ false = true) /\
  (disk w !! "/out/b.img"%string = None \/ false = true) /\
  @compareDisks Sample.runtime "/out/a.img" "/out/b.img" w2 = (Ok true, w2).
Proof.
  cbv zeta.
  assert (Hne : "/out/a.img"%string <> "/out/b.img"%string) by discriminate.
  assert (Hl1 : "/out/a.img"%string ∉ locked (Sample.storeWorld Sample.soundStore))
    by (simpl; apply not_elem_of_empty).
  assert (Hl2 : "/out/b.img"%string ∉ locked (Sample.storeWorld Sample.soundStore))
    by (simpl; apply not_elem_of_empty).
  assert (Hf1 : disk (Sample.storeWorld Sample.soundStore) !! "/out/a.img"%string = None
                \/ false = true) by (left; vm_compute; reflexivity).
  assert (Hf2 : disk (Sample.storeWorld Sample.soundStore) !! "/out/b.img"%string = None
                \/ false = true) by (left; vm_compute; reflexivity).
  split; [exact Hne|]. split; [reflexivity|]. split; [exact Hl1|]. split; [exact Hl2|].
  split; [exact Hf1|]. split; [exact Hf2|].
  refine (@raw_copies_compare_equal Sample.runtime _ Sample.imageClass "/out/a.img"
            "/out/b.img" Sample.image3 false 0 false (Sample.ascii "abc")
            (Sample.storeWorld Sample.soundStore) _ _ Hne eq_refl eq_refl eq_refl
            Hl1 Hl2 Hf1 Hf2); discriminate.
Defined.

Section FileAfterDisk.
Context `{NodeRuntime} {DI : Type} `{DiskImageClass DI}.

(** X13: an image file is write-protected against [writeFile] but not
    against [writeDisk]: after [writeDisk] wrote a file whose name ends in
    ".img" in some case, [writeFile] on that name returns false, prints the
    error and leaves the bytes, while [writeDisk] with the overwrite flag
    replaces the file, because it unlinks the old file first. *)
Theorem image_refuses_writeFile (sFile : string) (di di' : DI) (fLegacy : bool) (indent : Z)
    (fOverwrite : bool) (data : filedata) (db db' : DataBuffer) (w : world) :
  sFile <> ""%string ->
  JS.endsWith (toUpperCase sFile) ".IMG" = true ->
  JS.endsWith (toUpperCase sFile) ".JSON" = false ->
  getData di = Some db -> getData di' = Some db' ->
  sFile ∉ locked w ->
  disk w !! sFile = None \/ fOverwrite = true ->
  let w1 := snd (writeDisk sFile di fLegacy indent fOverwrite w) in
  writeFile sFile data w1 = (Ok false, printed [DError "EACCES"] w1) /\
  disk (snd (writeDisk sFile di' fLegacy indent true w1)) !! sFile =
    Some (mkFsFile (Some db') mode444).
Proof.
  intros Hs Himg Hjson Hdata Hdata' Hl Hfree w1.
  assert (Hd : diskData sFile di fLegacy = Some (Buf db))
    by (unfold diskData; rewrite Hjson, Hdata; reflexivity).
  assert (Hd' : diskData sFile di' fLegacy = Some (Buf db'))
    by (unfold diskData; rewrite Hjson, Hdata'; reflexivity).
  assert (Hw1 : w1 = written sFile db w).
  { unfold w1. rewrite (writeDisk_written _ _ _ _ _ _ (Buf db) Hfree Hl Hd eq_refl).
    reflexivity. }
  assert (Hfile : disk w1 !! sFile = Some (mkFsFile (Some db) mode444)).
  { rewrite Hw1. unfold written, withDisk, writtenMode. simpl. rewrite Himg.
    apply lookup_insert_eq. }
  split.
  - rewrite writeFile_cases. rewrite (proj2 (String.eqb_neq sFile "") Hs).
    unfold frozen. rewrite bool_decide_eq_false_2 by (rewrite Hw1; exact Hl).
    simpl andb. cbv iota. rewrite Hfile. reflexivity.
  - rewrite (writeDisk_written sFile di' fLegacy indent true w1 (Buf db'));
      [|right; reflexivity|rewrite Hw1; exact Hl|exact Hd'|reflexivity].
    unfold written, withDisk, writtenMode. simpl. rewrite Himg. apply lookup_insert_eq.
Qed.

End FileAfterDisk.

(** The three-byte image written to "/out/disk.img": [writeFile] is
    refused there, [writeDisk] with the overwrite flag is not. *)
Lemma image_refuses_writeFile_witness :
  let w := Sample.storeWorld Sample.soundStore in
  let w1 := snd (@writeDisk Sample.runtime _ Sample.imageClass "/out/disk.img"
                   Sample.image3 false 0 false w) in
  JS.endsWith (@toUpperCase Sample.runtime "/out/disk.img") ".IMG" = true /\
  ("/out/disk.img"%string ∉ locked w) /\
  (disk w !! "/out/disk.img"%string = None \/ false = true) /\
  @writeFile Sample.runtime "/out/disk.img" (Buf (Sample.ascii "new")) w1 =
    (Ok false, printed [DError "EACCES"] w1) /\
  disk (snd (@writeDisk Sample.runtime _ Sample.imageClass "/out/disk.img"
               (Sample.mkImage (Sample.ascii "new") "") false 0 true w1))
    !! "/out/disk.img"%string = Some (mkFsFile (Some (Sample.ascii "new")) mode444).
Proof.
  cbv zeta.
  assert (Hl : "/out/disk.img"%string ∉ locked (Sample.storeWorld Sample.soundStore))
    by (simpl; apply not_elem_of_empty).
  assert (Hf : disk (Sample.storeWorld Sample.soundStore) !! "/out/disk.img"%string = None
               \/ false = true) by (left; vm_compute; reflexivity).
  split; [reflexivity|]. split; [exact Hl|]. split; [exact Hf|].
  refine (@image_refuses_writeFile Sample.runtime _ Sample.imageClass "/out/disk.img"
            Sample.image3 (Sample.mkImage (Sample.ascii "new") "") false 0 false
            (Buf (Sample.ascii "new")) (Sample.ascii "abc") (Sample.ascii "new")
            (Sample.storeWorld Sample.soundStore) _ eq_refl eq_refl eq_refl eq_refl Hl Hf).
  discriminate.
Defined.

(** ** Invariants of the walk *)

Lemma onlyWalked_refl (w : world) : onlyWalked w w.
Proof.
  unfold onlyWalked. repeat split; try reflexivity; try lia.
  exists []. rewrite app_nil_r. reflexivity.
Qed.

Lemma onlyWalked_trans (w1 w2 w3 : world) :
  onlyWalked w1 w2 -> onlyWalked w2 w3 -> onlyWalked w1 w3.
Proof.
  unfold onlyWalked.
  intros (Hn & Hr & Hc & Hd & Hk & Hl & Hfu & Hu & ds & Hs)
         (Hn' & Hr' & Hc' & Hd' & Hk' & Hl' & Hfu' & Hu' & ds' & Hs').
  repeat split; try congruence; try lia.
  exists (ds ++ ds'). rewrite Hs', Hs, app_assoc. reflexivity.
Qed.

Lemma onlyWalked_printed (ds : list diag) (w : world) : onlyWalked w (printed ds w).
Proof.
  unfold onlyWalked. simpl. repeat split; try reflexivity; try lia. exists ds. reflexivity.
Qed.

Lemma onlyWalked_spend (w : world) : onlyWalked w (spend 1 w).
Proof.
  unfold onlyWalked. simpl. repeat split; try reflexivity; try lia.
  exists []. rewrite app_nil_r. reflexivity.
Qed.

Section WalkInvariantProofs.
Context `{NodeRuntime}.

(** Reading one file never throws and only prints; the record, if any, is a
    file record holding a buffer. *)
Lemma readEntryFile_total (fNormalize : bool) (sPath sName : string) (mtime size : Z)
    (content : option DataBuffer) (w : world) :
  exists r ds,
    readEntryFile fNormalize sPath sName mtime size content w = (Ok r, printed ds w) /\
    (r = None \/ exists db, r = Some (fileRecord sPath sName mtime (Buf db))).
Proof.
  destruct (String.eqb sPath "") eqn:Hp.
  { exists None, []. rewrite printed_nil. split; [|left; reflexivity].
    unfold readEntryFile, bind, readFileAt. rewrite Hp. reflexivity. }
  destruct content as [db|].
  2:{ exists None, [DError "EACCES"]. split; [|left; reflexivity].
      apply readEntryFile_failing. exact Hp. }
  destruct (fNormalize && isTextFile sName) eqn:Ht.
  - apply andb_prop in Ht as [-> Ht].
    destruct (utf8Decode db) as [|c t] eqn:Hd.
    + exists None, []. rewrite printed_nil. split; [|left; reflexivity].
      unfold readEntryFile, bind. rewrite Ht. simpl andb. cbv iota.
      rewrite readFileAt_readable by exact Hp. rewrite Hd. reflexivity.
    + rewrite readEntryFile_text; [|exact Hp|exact Ht|rewrite Hd; discriminate].
      cbv zeta. rewrite Hd.
      destruct (isASCII (c :: t)) eqn:Ha.
      * rewrite normalizeText_ascii by exact Ha. rewrite printed_app.
        eexists _, _. split; [reflexivity|right; eexists; reflexivity].
      * rewrite normalizeText_other by exact Ha. rewrite printed_app.
        eexists _, _. split; [reflexivity|right; eexists; reflexivity].
  - rewrite readEntryFile_binary; [|exact Hp|exact Ht].
    eexists _, _. split; [reflexivity|right; eexists; reflexivity].
Qed.

Lemma forFiles_walkFrame (fNormalize : bool) (sDir : string) (es : list (string * fsnode)) :
  Forall (fun e => walkFrame (snd e)) es ->
  forall acc w r w',
    forFiles (visitEntry (fun sPath c => readDirFiles sPath fNormalize None c) fNormalize sDir)
      es acc w = (r, w') ->
    onlyWalked w w'.
Proof.
  induction 1 as [|[sName nd] rest Hnd Hrest IH]; intros acc w r w' Hrun.
  - rewrite forFiles_nil in Hrun. inversion Hrun; subst. apply onlyWalked_refl.
  - destruct (Z_lt_le_dec 0 (nMaxFiles w)) as [Hpos|Hle].
    2:{ rewrite forFiles_exhausted in Hrun by exact Hle. inversion Hrun; subst.
        apply onlyWalked_refl. }
    rewrite forFiles_step in Hrun by exact Hpos.
    destruct (visitEntry _ fNormalize sDir sName nd w) as [file w1] eqn:Hbody.
    assert (Hw1 : onlyWalked w w1).
    { unfold visitEntry in Hbody. destruct (JS.startsWithDot sName).
      - inversion Hbody; subst. apply onlyWalked_refl.
      - destruct nd as [mtime size content|mtime entries|].
        + destruct (readEntryFile_total fNormalize (path.join sDir sName) sName mtime size
                      content w) as (r0 & ds & Hr & _).
          rewrite Hr in Hbody. inversion Hbody; subst. apply onlyWalked_printed.
        + unfold bind in Hbody.
          destruct (readDirFiles _ fNormalize None (Dir mtime entries) w)
            as [r0 w2] eqn:Hsub.
          simpl in Hnd. apply Hnd in Hsub.
          destruct r0; inversion Hbody; subst; exact Hsub.
        + inversion Hbody; subst. apply onlyWalked_refl. }
    destruct file as [file|e].
    + apply IH in Hrun.
      eapply onlyWalked_trans; [exact Hw1|].
      eapply onlyWalked_trans; [apply onlyWalked_spend|exact Hrun].
    + inversion Hrun; subst. exact Hw1.
Qed.

Lemma walkFrame_all (d : fsnode) : walkFrame d.
Proof.
  induction d as [mtime size content|mtime entries IH|] using fsnode_tree_ind;
    intros sDir fNormalize sLabel w r w' Hrun.
  - inversion Hrun; subst. apply onlyWalked_refl.
  - rewrite readDirFiles_Dir in Hrun.
    apply (forFiles_walkFrame fNormalize sDir entries IH) in Hrun. exact Hrun.
  - inversion Hrun; subst. apply onlyWalked_refl.
Qed.

Lemma walkRecord_dir (sDir sName : string) (mtime : Z) (files : list FileData) :
  JS.startsWithDot sName = false ->
  Forall (walkRecord (path.join sDir sName)) files ->
  walkRecord sDir (FileData.make (path.join sDir sName) sName DiskImage.ATTR.SUBDIR mtime (-1)
                     (Some (Buf [])) (Some files)).
Proof.
  intros Hv Hall. simpl. repeat split; try assumption.
  induction Hall as [|g t Hg Ht IH]; [exact I|]. split; [exact Hg|exact IH].
Qed.

Lemma forFiles_walkShape (fNormalize : bool) (sDir : string) (es : list (string * fsnode)) :
  Forall (fun e => walkShape (snd e)) es ->
  forall acc w l w',
    forFiles (visitEntry (fun sPath c => readDirFiles sPath fNormalize None c) fNormalize sDir)
      es acc w = (Ok l, w') ->
    exists rest, l = acc ++ rest /\ Forall (walkRecord sDir) rest /\
                 sublist (map FileData.name rest) (map fst es).
Proof.
  induction 1 as [|[sName nd] rest Hnd Hrest IH]; intros acc w l w' Hrun.
  - rewrite forFiles_nil in Hrun. inversion Hrun; subst.
    exists []. rewrite app_nil_r. split; [reflexivity|]. split; constructor.
  - destruct (Z_lt_le_dec 0 (nMaxFiles w)) as [Hpos|Hle].
    2:{ rewrite forFiles_exhausted in Hrun by exact Hle. inversion Hrun; subst.
        exists []. rewrite app_nil_r. split; [reflexivity|].
        split; [constructor|apply sublist_nil_l]. }
    rewrite forFiles_step in Hrun by exact Hpos.
    destruct (visitEntry _ fNormalize sDir sName nd w) as [[file|e] w1] eqn:Hbody;
      [|discriminate].
    apply IH in Hrun as (more & -> & Hmore & Hnames).
    assert (Hfile : Forall (walkRecord sDir) (pushed file) /\
                    (map FileData.name (pushed file) = [] \/
                     map FileData.name (pushed file) = [sName])).
    { unfold visitEntry in Hbody. destruct (JS.startsWithDot sName) eqn:Hv.
      - inversion Hbody; subst. split; [constructor|left; reflexivity].
      - destruct nd as [mtime size content|mtime entries|].
        + destruct (readEntryFile_total fNormalize (path.join sDir sName) sName mtime size
                      content w) as (r0 & ds & Hr & [->|[db ->]]);
            rewrite Hr in Hbody; inversion Hbody; subst.
          * split; [constructor|left; reflexivity].
          * split; [|right; reflexivity]. constructor; [|constructor].
            simpl. repeat split; try assumption. exists db. split; reflexivity.
        + unfold bind in Hbody.
          destruct (readDirFiles _ fNormalize None (Dir mtime entries) w)
            as [[files|e] w2] eqn:Hsub; [|discriminate].
          inversion Hbody; subst. simpl in Hnd.
          apply Hnd in Hsub as (sub & Hfiles & Hsub & _).
          change (files = sub) in Hfiles. subst files.
          split; [|right; reflexivity]. constructor; [|constructor].
          apply walkRecord_dir; assumption.
        + discriminate. }
    destruct Hfile as [Hrec Hname].
    exists (pushed file ++ more). rewrite app_assoc. split; [reflexivity|]. split.
    + apply Forall_app. split; assumption.
    + rewrite map_app. simpl map.
      destruct Hname as [-> | ->]; simpl.
      * apply sublist_cons. exact Hnames.
      * apply sublist_skip. exact Hnames.
Qed.

Lemma walkShape_all (d : fsnode) : walkShape d.
Proof.
  induction d as [mtime size content|mtime entries IH|] using fsnode_tree_ind;
    intros sDir fNormalize sLabel w l w' Hrun.
  - discriminate.
  - rewrite readDirFiles_Dir in Hrun.
    apply (forFiles_walkShape fNormalize sDir entries IH) in Hrun. exact Hrun.
  - discriminate.
Qed.

(** X14: the walk never writes: whatever its outcome, [readDirFiles] leaves
    both stores, the clock and the settings as they were; it only prints,
    and the budget never grows. *)
Theorem walk_only_prints_and_spends (sDir : string) (fNormalize : bool)
    (sLabel : option string) (d : fsnode) (w : world) :
  onlyWalked w (snd (readDirFiles sDir fNormalize sLabel d w)).
Proof.
  destruct (readDirFiles sDir fNormalize sLabel d w) as [r w'] eqn:Hrun.
  exact (walkFrame_all d sDir fNormalize sLabel w r w' Hrun).
Qed.

(** X15: every list the walk returns is the label list followed by records
    of entries of the directory, in the order of the entries and without
    repeating or inventing one; at every depth a record's path is its
    directory joined with its name, no name starts with a dot, a file record
    has attribute 0 and a size equal to the length of its buffer, and a
    directory record has the subdirectory attribute, size -1 and an empty
    buffer. *)
Theorem walk_returns_shaped_records (sDir : string) (fNormalize : bool)
    (sLabel : option string) (mtime : Z) (es : list (string * fsnode)) (w : world)
    (l : list FileData) (w' : world) :
  readDirFiles sDir fNormalize sLabel (Dir mtime es) w = (Ok l, w') ->
  exists rest,
    l = labelList sDir sLabel (clock w) ++ rest /\
    Forall (walkRecord sDir) rest /\
    sublist (map FileData.name rest) (map fst es).
Proof. intros Hrun. exact (walkShape_all (Dir mtime es) sDir fNormalize sLabel w l w' Hrun). Qed.

End WalkInvariantProofs.

Section EmptyFiles.
Context `{NodeRuntime}.

Lemma walkShape_entries (es : list (string * fsnode)) :
  Forall (fun e => walkShape (snd e)) es.
Proof. apply Forall_forall. intros e _. apply walkShape_all. Qed.

(** The loop over a listing in two parts: once the budget is used up the
    rest of the first part and the second part are both skipped. *)
Lemma forFiles_app (body : string -> fsnode -> M (option FileData))
    (pre post : list (string * fsnode)) :
  forall acc w,
    forFiles body (pre ++ post) acc w =
    match forFiles body pre acc w with
    | (Ok l1, w1) => forFiles body post l1 w1
    | (Thrown e, w1) => (Thrown e, w1)
    end.
Proof.
  induction pre as [|[sName nd] pre IH]; intros acc w; [reflexivity|].
  destruct (Z_lt_le_dec 0 (nMaxFiles w)) as [Hpos|Hle].
  - change (((sName, nd) :: pre) ++ post) with ((sName, nd) :: (pre ++ post)).
    rewrite !forFiles_step by exact Hpos.
    destruct (body sName nd w) as [[file|e] w']; [apply IH|reflexivity].
  - rewrite (forFiles_exhausted body ((sName, nd) :: pre) acc w Hle).
    rewrite !forFiles_exhausted by exact Hle. reflexivity.
Qed.

(** C8: the ingest of a directory that lists a zero-length file, at any
    place of the listing the budget reaches; [l1] is the list the entries
    before it gave. Under normalization, when the name has a recognized
    text extension, the file leaves no record and no message, only the
    budget drops by one: the list goes on with the records of the entries
    after it. With normalization off, or for another extension, the file is
    kept: its record, of size 0 with an empty buffer, comes next in the
    list. *)
Theorem empty_text_file_dropped (sDir : string) (fNormalize : bool) (sLabel : option string)
    (nMax : option Z) (mtime mt : Z) (sName : string) (pre rest : list (string * fsnode))
    (w : world) (l1 : list FileData) (w1 : world) :
  dirs w !! sDir = Some (Dir mtime (pre ++ (sName, File mt 0 (Some [])) :: rest)) ->
  readDirFiles sDir fNormalize (Some (givenLabel sDir sLabel)) (Dir mtime pre)
    (budgeted (orNumber nMax 256) w) = (Ok l1, w1) ->
  0 < nMaxFiles w1 ->
  let kept := FileData.make (path.join sDir sName) sName 0 mt 0 (Some (Buf [])) None in
  (fNormalize = true -> isTextFile sName = true ->
   (rest = [] -> readDir_files sDir fNormalize sLabel nMax w = (Ok l1, spend 1 w1)) /\
   (pre = [] ->
    readDir_files sDir fNormalize sLabel nMax w =
    readDirFiles sDir fNormalize (Some (givenLabel sDir sLabel)) (Dir mtime rest)
      (spend 1 (budgeted (orNumber nMax 256) w))) /\
   (forall l w',
       readDir_files sDir fNormalize sLabel nMax w = (Ok l, w') ->
       exists recs, l = l1 ++ recs /\
                    sublist (map FileData.name recs) (map fst rest))) /\
  (fNormalize && isTextFile sName = false -> JS.startsWithDot sName = false ->
   (rest = [] ->
    readDir_files sDir fNormalize sLabel nMax w = (Ok (l1 ++ [kept]), spend 1 w1)) /\
   (forall l w',
       readDir_files sDir fNormalize sLabel nMax w = (Ok l, w') ->
       exists recs, l = l1 ++ kept :: recs /\
                    sublist (map FileData.name recs) (map fst rest)) /\
   (walkable (Dir mtime rest) = true ->
    exists l w', readDir_files sDir fNormalize sLabel nMax w = (Ok l, w'))).
Proof.
  intros Hdir Hpre Hpos kept.
  set (w0 := budgeted (orNumber nMax 256) w) in *.
  set (body := visitEntry (fun sPath c => readDirFiles sPath fNormalize None c)
                 fNormalize sDir).
  rewrite readDirFiles_Dir in Hpre. fold body in Hpre.
  assert (Hstart : readDir_files sDir fNormalize sLabel nMax w =
                   forFiles body ((sName, File mt 0 (Some [])) :: rest) l1 w1).
  { rewrite readDir_files_eq, givenLabel_eq, Hdir.
    change (default Faulty (Some (Dir mtime (pre ++ (sName, File mt 0 (Some [])) :: rest))))
      with (Dir mtime (pre ++ (sName, File mt 0 (Some [])) :: rest)).
    rewrite readDirFiles_Dir. fold body. fold w0.
    rewrite forFiles_app, Hpre. reflexivity. }
  split.
  - intros Hnorm Ht.
    assert (Hbody : body sName (File mt 0 (Some [])) w1 = (Ok None, w1)).
    { unfold body, visitEntry. destruct (JS.startsWithDot sName); [reflexivity|].
      rewrite Hnorm. apply readEntryFile_empty_text. exact Ht. }
    assert (Hrun : readDir_files sDir fNormalize sLabel nMax w =
                   forFiles body rest l1 (spend 1 w1)).
    { rewrite Hstart, forFiles_step by exact Hpos. rewrite Hbody.
      simpl pushed. rewrite app_nil_r. reflexivity. }
    split; [|split].
    + intros ->. rewrite Hrun. reflexivity.
    + intros ->. rewrite forFiles_nil in Hpre. injection Hpre as <- <-.
      rewrite Hrun, readDirFiles_Dir. reflexivity.
    + intros l w' Hl. rewrite Hrun in Hl.
      destruct (forFiles_walkShape fNormalize sDir rest (walkShape_entries rest) _ _ _ _ Hl)
        as (recs & -> & _ & Hsub).
      exists recs. split; [reflexivity|exact Hsub].
  - intros Ht Hvis.
    assert (Hbody : body sName (File mt 0 (Some [])) w1 = (Ok (Some kept), w1)).
    { unfold body, visitEntry. rewrite Hvis.
      rewrite readEntryFile_binary; [|apply join_nonempty|exact Ht].
      simpl. rewrite printed_nil. reflexivity. }
    assert (Hrun : readDir_files sDir fNormalize sLabel nMax w =
                   forFiles body rest (l1 ++ [kept]) (spend 1 w1)).
    { rewrite Hstart, forFiles_step by exact Hpos. rewrite Hbody. reflexivity. }
    split; [|split].
    + intros ->. rewrite Hrun. reflexivity.
    + intros l w' Hl. rewrite Hrun in Hl.
      destruct (forFiles_walkShape fNormalize sDir rest (walkShape_entries rest) _ _ _ _ Hl)
        as (recs & -> & _ & Hsub).
      exists recs. split; [rewrite <- app_assoc; reflexivity|exact Hsub].
    + intros Hw. rewrite Hrun. rewrite walkable_Dir in Hw.
      apply forFiles_returns; [|exact Hw].
      apply Forall_forall. intros e _. apply walkReturns_all.
Qed.

End EmptyFiles.

(** The empty file between the files "a" and "b": as E.TXT under
    normalization it is dropped, as E.BIN it is kept with size 0. *)
Lemma empty_text_file_dropped_witness :
  let dir := fun sName =>
    Dir 1 [("a"%string, Sample.file "x"); (sName, File 7 0 (Some []));
           ("b"%string, Sample.file "y")] in
  let a := FileData.make "/d/a" "a" 0 500 1 (Some (Buf (Sample.ascii "x"))) None in
  let run := fun sName =>
    @readDir_files Sample.runtime "/d" true (Some "none"%string) None
      (Sample.worldAt 0 (dir sName)) in
  (@readDirFiles Sample.runtime "/d" true (Some "none"%string)
     (Dir 1 [("a"%string, Sample.file "x")])
     (budgeted 256 (Sample.worldAt 0 (dir "E.TXT"%string)))
   = (Ok [a], spend 1 (budgeted 256 (Sample.worldAt 0 (dir "E.TXT"%string))))) /\
  (exists l w', run "E.TXT"%string = (Ok l, w') /\ map FileData.name l = ["a"; "b"]%string) /\
  (forall l w',
      run "E.TXT"%string = (Ok l, w') ->
      exists recs, l = [a] ++ recs /\ sublist (map FileData.name recs) ["b"%string]) /\
  (exists l w', run "E.BIN"%string = (Ok l, w') /\
                map FileData.name l = ["a"; "E.BIN"; "b"]%string) /\
  (forall l w',
      run "E.BIN"%string = (Ok l, w') ->
      exists recs,
        l = [a] ++ FileData.make "/d/E.BIN" "E.BIN" 0 7 0 (Some (Buf [])) None :: recs /\
        sublist (map FileData.name recs) ["b"%string]).
Proof.
  cbv zeta beta. split; [vm_compute; reflexivity|].
  split; [eexists _, _; split; [vm_compute; reflexivity|reflexivity]|].
  split.
  - exact (proj2 (proj2
             (proj1 (@empty_text_file_dropped Sample.runtime "/d" true (Some "none"%string)
                       None 1 7 "E.TXT" [("a"%string, Sample.file "x")]
                       [("b"%string, Sample.file "y")]
                       (Sample.worldAt 0
                          (Dir 1 [("a"%string, Sample.file "x");
                                  ("E.TXT"%string, File 7 0 (Some []));
                                  ("b"%string, Sample.file "y")]))
                       _ _ eq_refl ltac:(vm_compute; reflexivity) eq_refl)
                eq_refl eq_refl))).
  - split; [eexists _, _; split; [vm_compute; reflexivity|reflexivity]|].
    exact (proj1 (proj2
             (proj2 (@empty_text_file_dropped Sample.runtime "/d" true (Some "none"%string)
                       None 1 7 "E.BIN" [("a"%string, Sample.file "x")]
                       [("b"%string, Sample.file "y")]
                       (Sample.worldAt 0
                          (Dir 1 [("a"%string, Sample.file "x");
                                  ("E.BIN"%string, File 7 0 (Some []));
                                  ("b"%string, Sample.file "y")]))
                       _ _ eq_refl ltac:(vm_compute; reflexivity) eq_refl)
                eq_refl eq_refl))).
Defined.

Lemma walk_returns_shaped_records_witness :
  exists l w',
    @readDirFiles Sample.runtime "/d" false (Some "none"%string) Sample.mixedDir
      (Sample.world0 3) = (Ok l, w') /\
    exists rest,
      l = labelList "/d" (Some "none"%string) (clock (Sample.world0 3)) ++ rest /\
      Forall (walkRecord "/d") rest /\
      sublist (map FileData.name rest) [".git"; "bad"; "a"; "b"]%string.
Proof.
  eexists _, _. split; [vm_compute; reflexivity|].
  exact (@walk_returns_shaped_records Sample.runtime "/d" false (Some "none"%string) 1
           [(".git"%string, Faulty); ("bad"%string, File 1 3 None);
            ("a"%string, Sample.file "x"); ("b"%string, Sample.file "y")]
           (Sample.world0 3) _ _ eq_refl).
Defined.

(** ** The budget at its edges and [readDir] as a whole *)

Section ReadDirProperties.
Context `{NodeRuntime} {DI : Type} `{DiskImageClass DI}.

(** A directory of entries that all give a record: the records are those
    of the first entries, as many as the budget allows. *)
Lemma forFiles_flat_names (recur : string -> fsnode -> M (list FileData))
    (fNormalize : bool) (sDir : string) (es : list (string * fsnode)) :
  forallb (yieldsRecord fNormalize) es = true ->
  forall acc w,
    exists l w',
      forFiles (visitEntry recur fNormalize sDir) es acc w = (Ok (acc ++ l), w') /\
      map FileData.name l = take (Z.to_nat (nMaxFiles w)) (map fst es).
Proof.
  induction es as [|[sName nd] rest IH]; intros Hall acc w.
  - exists [], w. rewrite app_nil_r. simpl map. rewrite take_nil. split; reflexivity.
  - simpl in Hall. apply andb_prop in Hall as [Hy Hall].
    destruct (Z_lt_le_dec 0 (nMaxFiles w)) as [Hpos|Hle].
    2:{ exists [], w. rewrite app_nil_r, forFiles_exhausted by exact Hle.
        replace (Z.to_nat (nMaxFiles w)) with 0%nat by lia. split; reflexivity. }
    rewrite forFiles_step by exact Hpos.
    destruct (yieldsRecord_visit recur fNormalize sDir sName nd w Hy) as (d & ds & ->).
    destruct (IH Hall (acc ++ pushed (Some (fileRecord (path.join sDir sName) sName
                                       (match nd with File mtime _ _ => mtime | _ => 0 end) d)))
                (spend 1 (printed ds w)))
      as (l & w' & Hrun & Hnames).
    cbn [nMaxFiles spend printed] in Hnames.
    eexists (_ :: l), w'. rewrite Hrun. simpl pushed.
    rewrite <- app_assoc. simpl app. split; [reflexivity|].
    replace (Z.to_nat (nMaxFiles w)) with (S (Z.to_nat (nMaxFiles w - 1))) by lia.
    simpl. rewrite Hnames. reflexivity.
Qed.

(** X16: which entries survive the budget: for a directory whose entries are
    all visible readable files, the list is the label list followed by the
    records of the first [nMax] entries, in order (of all of them when there
    are fewer). *)
Theorem budget_keeps_first_entries (sDir : string) (fNormalize : bool)
    (sLabel : option string) (nMax : option Z) (w : world) (mtime : Z)
    (es : list (string * fsnode)) :
  dirs w !! sDir = Some (Dir mtime es) ->
  forallb (yieldsRecord fNormalize) es = true ->
  exists l w',
    readDir_files sDir fNormalize sLabel nMax w =
      (Ok (labelList sDir (if truthyLabel sLabel then sLabel
                           else Some (path.basename sDir)) (clock w) ++ l), w') /\
    map FileData.name l = take (Z.to_nat (orNumber nMax 256)) (map fst es).
Proof.
  intros Hdir Hflat. rewrite readDir_files_eq, Hdir.
  change (default Faulty (Some (Dir mtime es))) with (Dir mtime es).
  rewrite readDirFiles_Dir.
  destruct (forFiles_flat_names (fun sPath c => readDirFiles sPath fNormalize None c)
              fNormalize sDir es Hflat
              (labelList sDir (if truthyLabel sLabel then sLabel
                               else Some (path.basename sDir))
                 (clock (budgeted (orNumber nMax 256) w)))
              (budgeted (orNumber nMax 256) w))
    as (l & w' & Hrun & Hnames).
  exists l, w'. split; [exact Hrun|exact Hnames].
Qed.

(** X17: a negative [nMax] makes the ingest return the label list alone,
    whatever the directory holds, without reading or printing anything; an
    [nMax] of 0 is the same as none, that is 256. *)
Theorem budget_edge_values (sDir : string) (fNormalize : bool) (sLabel : option string)
    (w : world) :
  (forall n mtime es,
      n < 0 -> dirs w !! sDir = Some (Dir mtime es) ->
      readDir_files sDir fNormalize sLabel (Some n) w =
      (Ok (labelList sDir (if truthyLabel sLabel then sLabel
                           else Some (path.basename sDir)) (clock w)),
       budgeted n w)) /\
  readDir_files sDir fNormalize sLabel (Some 0) w =
  readDir_files sDir fNormalize sLabel None w.
Proof.
  split; [|reflexivity].
  intros n mtime es Hn Hdir. rewrite readDir_files_eq, Hdir.
  change (default Faulty (Some (Dir mtime es))) with (Dir mtime es).
  rewrite readDirFiles_Dir.
  assert (Hor : orNumber (Some n) 256 = n).
  { unfold orNumber. destruct (Z.eqb_spec n 0); [lia|reflexivity]. }
  rewrite Hor. apply forFiles_exhausted. simpl. lia.
Qed.

(** X18: [readDir] never throws and never touches the stores. It sets the
    budget anew, so its result does not depend on what an earlier ingest
    left of it. When the directory does not exist, is a file, or its first
    entry is visible and cannot be examined, the result is [null] and the
    error is printed: one entry on which [fs.statSync] throws gives up the
    whole ingest. *)
Theorem readDir_never_throws (sDir : string) (fNormalize : bool) (sLabel : option string)
    (kbTarget nMax : option Z) (w : world) :
  (exists r w',
      readDir (DI := DI) sDir fNormalize sLabel kbTarget nMax w = (Ok r, w') /\
      disk w' = disk w /\ dirs w' = dirs w) /\
  (forall n,
      readDir (DI := DI) sDir fNormalize sLabel kbTarget nMax (budgeted n w) =
      readDir sDir fNormalize sLabel kbTarget nMax w) /\
  (dirs w !! sDir = None ->
   readDir (DI := DI) sDir fNormalize sLabel kbTarget nMax w =
   (Ok None, printed [DError "ENOENT"] (budgeted (orNumber nMax 256) w))) /\
  (forall mtime size content,
      dirs w !! sDir = Some (File mtime size content) ->
      readDir (DI := DI) sDir fNormalize sLabel kbTarget nMax w =
      (Ok None, printed [DError "ENOTDIR"] (budgeted (orNumber nMax 256) w))) /\
  (forall mtime sName rest,
      dirs w !! sDir = Some (Dir mtime ((sName, Faulty) :: rest)) ->
      JS.startsWithDot sName = false ->
      0 < orNumber nMax 256 ->
      readDir (DI := DI) sDir fNormalize sLabel kbTarget nMax w =
      (Ok None, printed [DError "ENOENT"] (budgeted (orNumber nMax 256) w))).
Proof.
  split; [|split; [|split; [|split]]].
  - unfold readDir, tryCatch, bind. rewrite readDir_files_eq.
    destruct (readDirFiles sDir fNormalize _ _ (budgeted (orNumber nMax 256) w))
      as [r w1] eqn:Hrun.
    pose proof (walkFrame_all _ _ _ _ _ _ _ Hrun) as (_ & _ & _ & Hd & Hk & _).
    simpl in Hd, Hk. destruct r as [aFileData|e].
    + destruct (buildDiskFromFiles _ _ _ _) as [ok di]. eexists _, w1.
      split; [reflexivity|]. split; assumption.
    + eexists _, _. split; [reflexivity|]. split; assumption.
  - intros n. reflexivity.
  - intros Hdir. unfold readDir, tryCatch, bind. rewrite readDir_files_eq, Hdir. reflexivity.
  - intros mtime size content Hdir. unfold readDir, tryCatch, bind.
    rewrite readDir_files_eq, Hdir. reflexivity.
  - intros mtime sName rest Hdir Hv Hpos. unfold readDir, tryCatch, bind.
    rewrite readDir_files_eq, Hdir.
    change (default Faulty (Some (Dir mtime ((sName, Faulty) :: rest))))
      with (Dir mtime ((sName, Faulty) :: rest)).
    rewrite readDirFiles_Dir. rewrite forFiles_step by exact Hpos.
    unfold visitEntry. rewrite Hv. reflexivity.
Qed.

End ReadDirProperties.

Lemma budget_keeps_first_entries_witness :
  exists l w',
    @readDir_files Sample.runtime "/d" false (Some "none"%string) (Some 2)
      (Sample.worldAt 0 Sample.flatDir) = (Ok l, w') /\
    map FileData.name l = ["a"; "b"]%string.
Proof.
  destruct (@budget_keeps_first_entries Sample.runtime "/d" false (Some "none"%string)
              (Some 2) (Sample.worldAt 0 Sample.flatDir) 1
              [("a"%string, Sample.file "x"); ("b"%string, Sample.file "y");
               ("c"%string, Sample.file "z")] eq_refl eq_refl)
    as (l & w' & Hrun & Hnames).
  exists l, w'. split; [exact Hrun|exact Hnames].
Defined.

(** ** The archive check when nothing is wrong *)

Lemma substring_app_left (a b : string) : substring 0 (String.length a) (a +:+ b) = a.
Proof.
  induction a as [|c a IH]; [destruct b; reflexivity|].
  change (String c (substring 0 (String.length a) (a +:+ b)) = String c a).
  rewrite IH. reflexivity.
Qed.

Lemma substring_none (s : string) : forall n, substring n 0 s = ""%string.
Proof. induction s as [|c s IH]; intros [|n]; try reflexivity. simpl. apply IH. Qed.

Lemma string_app_empty (s : string) : s +:+ "" = s.
Proof.
  induction s as [|c s IH]; [reflexivity|].
  change (String c (s +:+ "") = String c s). rewrite IH. reflexivity.
Qed.

Lemma string_prefix_cons (a b : ascii) (p s : string) :
  String.prefix (String a p) (String b s) = if ascii_dec a b then String.prefix p s else false.
Proof. reflexivity. Qed.

Lemma string_prefix_app (p u : string) : String.prefix p (p +:+ u) = true.
Proof.
  induction p as [|c p IH]; [destruct u; reflexivity|].
  change (String.prefix (String c p) (String c (p +:+ u)) = true).
  rewrite string_prefix_cons. destruct (ascii_dec c c); [exact IH|congruence].
Qed.

Lemma index_cons (p : string) (a : ascii) (s : string) :
  index 0 p (String a s) =
  if String.prefix p (String a s) then Some 0%nat
  else match index 0 p s with Some n => Some (S n) | None => None end.
Proof. reflexivity. Qed.

(** The first occurrence of a pattern that starts with a dot, in a text
    whose part before the pattern has no dot. *)
Lemma index_after_noDot (s t u : string) :
  noDot s = true ->
  index 0 (String "." t) (s +:+ String "." t +:+ u) = Some (String.length s).
Proof.
  intros Hs. induction s as [|c s IH].
  - change (index 0 (String "." t) (String "." t +:+ u) = Some 0%nat).
    change (String "." t +:+ u) with (String "." (t +:+ u)).
    rewrite index_cons.
    change (String "." (t +:+ u)) with (String "." t +:+ u).
    rewrite (string_prefix_app (String "." t) u). reflexivity.
  - simpl in Hs. apply andb_prop in Hs as [Hc Hs].
    change (String c s +:+ String "." t +:+ u) with (String c (s +:+ String "." t +:+ u)).
    rewrite index_cons, (IH Hs).
    replace (String.prefix (String "." t) (String c (s +:+ String "." t +:+ u))) with false;
      [reflexivity|].
    rewrite string_prefix_cons.
    destruct (ascii_dec "." c) as [<-|_]; [discriminate Hc|reflexivity].
Qed.

Lemma index_noDot (s : string) : noDot s = true -> index 0 "." s = None.
Proof.
  intros Hs. induction s as [|c s IH]; [reflexivity|].
  simpl in Hs. apply andb_prop in Hs as [Hc Hs].
  rewrite index_cons, (IH Hs).
  replace (String.prefix "." (String c s)) with false; [reflexivity|].
  rewrite string_prefix_cons.
  destruct (ascii_dec "." c) as [<-|_]; [discriminate Hc|reflexivity].
Qed.

Lemma tempIMG_of_stem (s : string) : noDot s = true -> tempIMG (s +:+ ".json") = s +:+ ".img".
Proof.
  intros Hs. unfold tempIMG, JS.replace.
  pose proof (index_after_noDot s "json" "" Hs) as Hi.
  change (String "." "json" +:+ "") with ".json"%string in Hi. rewrite Hi.
  rewrite substring_app_left, string_length_app.
  replace (String.length s + String.length ".json" - (String.length s + String.length ".json"))%nat
    with 0%nat by lia.
  rewrite substring_none. reflexivity.
Qed.

(** X19: the temporary files of the archive check are named after the part
    of the archive's base name before its FIRST dot: "pcdos-1.00.img" gives
    "pcdos-1.json" and "pcdos-1.img", so archives whose names agree up to
    the first dot share their temporaries, and the two names differ from
    each other. *)
Theorem temporaries_cut_at_first_dot (s rest : string) :
  noDot s = true -> s <> ""%string ->
  tempJSON (s +:+ "." +:+ rest) = s +:+ ".json" /\
  tempIMG (tempJSON (s +:+ "." +:+ rest)) = s +:+ ".img" /\
  tempJSON s = s +:+ ".json" /\
  tempIMG (tempJSON s) = s +:+ ".img" /\
  s +:+ ".json" <> s +:+ ".img".
Proof.
  intros Hs Hne.
  assert (H1 : tempJSON (s +:+ "." +:+ rest) = s +:+ ".json").
  { unfold tempJSON, JS.indexOf.
    change ("." +:+ rest) with (String "." "" +:+ rest).
    rewrite (index_after_noDot s "" rest Hs).
    assert (Hpos : (0 < String.length s)%nat) by (destruct s; [congruence|simpl; lia]).
    rewrite (proj2 (Z.ltb_lt 0 (Z.of_nat (String.length s)))) by lia.
    unfold JS.substr0. rewrite Nat2Z.id, substring_app_left. reflexivity. }
  assert (H2 : tempJSON s = s +:+ ".json").
  { unfold tempJSON, JS.indexOf. rewrite (index_noDot s Hs). reflexivity. }
  split; [exact H1|]. split; [rewrite H1; apply tempIMG_of_stem; exact Hs|].
  split; [exact H2|]. split; [rewrite H2; apply tempIMG_of_stem; exact Hs|].
  clear. induction s as [|c s IH]; [discriminate|].
  intros Heq. apply IH. injection Heq as Heq. exact Heq.
Qed.

Lemma temporaries_cut_at_first_dot_witness :
  tempJSON "pcdos-1.00.img" = "pcdos-1.json"%string /\
  tempIMG (tempJSON "pcdos-1.00.img") = "pcdos-1.img"%string /\
  tempJSON "pcdos-1.10.img" = tempJSON "pcdos-1.00.img".
Proof.
  pose proof (temporaries_cut_at_first_dot "pcdos-1" "00.img" eq_refl
                ltac:(discriminate)) as (H1 & H2 & _).
  pose proof (temporaries_cut_at_first_dot "pcdos-1" "10.img" eq_refl
                ltac:(discriminate)) as (H3 & _).
  split; [exact H1|]. split; [exact H2|].
  exact (eq_trans H3 (eq_sym H1)).
Defined.

Lemma endsWith_app_other (a b c : string) :
  String.length b = String.length c -> b <> c -> JS.endsWith (a +:+ b) c = false.
Proof.
  intros Hlen Hne. unfold JS.endsWith. rewrite string_length_app, <- Hlen.
  rewrite (proj2 (Nat.leb_le _ _)) by lia.
  replace (String.length a + String.length b - String.length b)%nat
    with (String.length a) by lia.
  rewrite substring_app_right. apply String.eqb_neq. exact Hne.
Qed.

Lemma tempJSON_written_as_json `{NodeRuntime} (name : string) :
  JS.endsWith (toUpperCase (tempJSON name)) ".JSON" = true /\
  JS.endsWith (toUpperCase (tempJSON name)) ".IMG" = false.
Proof.
  unfold tempJSON. cbv zeta. rewrite (toUpperCase_ascii _ ".json" eq_refl).
  change (JS.upperASCII ".json") with ".JSON"%string. split.
  - apply endsWith_app.
  - set (x := toUpperCase _).
    change (x +:+ ".JSON") with (x +:+ ("." +:+ "JSON")).
    replace (x +:+ ("." +:+ "JSON")) with ((x +:+ ".") +:+ "JSON").
    + apply endsWith_app_other; [reflexivity|discriminate].
    + clear. induction x as [|c x IH]; [reflexivity|].
      change (String c ((x +:+ ".") +:+ "JSON") = String c (x +:+ "." +:+ "JSON")).
      rewrite IH. reflexivity.
Qed.

Section ArchiveSettled.
Context `{NodeRuntime} {DI : Type} `{DiskImageClass DI}.

Lemma writeDisk_keeps_locks (sFile : string) (di : DI) (fLegacy : bool) (indent : Z)
    (fOverwrite : bool) (w : world) :
  locked (snd (writeDisk sFile di fLegacy indent fOverwrite w)) = locked w.
Proof.
  rewrite writeDisk_cases. simpl.
  destruct (_ && _); [reflexivity|].
  destruct (diskData sFile di fLegacy) as [[[|c t]|db]|]; try reflexivity; simpl.
  all: destruct (bool_decide (sFile ∈ locked w));
    [destruct (bool_decide (sFile ∈ full w))|]; reflexivity.
Qed.

Lemma writeDisk_returns (sFile : string) (di : DI) (fLegacy : bool) (indent : Z)
    (fOverwrite : bool) (w : world) :
  writeDisk sFile di fLegacy indent fOverwrite w =
  (Ok tt, snd (writeDisk sFile di fLegacy indent fOverwrite w)).
Proof. rewrite writeDisk_cases. reflexivity. Qed.

(** The temporary JSON as [writeDisk] leaves it: the JSON text, with the
    creation mode. *)
Lemma writeDisk_tempJSON (name : string) (di : DI) (w : world) :
  tempJSON name ∉ locked w ->
  getJSON di true false <> [] ->
  snd (writeDisk (tempJSON name) di false 0 true w) =
  withDisk (<[tempJSON name := mkFsFile (Some (utf8Encode (getJSON di true false)))
                                 (Z.land mode666 (Z.lnot (umask w)))]> (disk w))
           (printed [DWriting (tempJSON name)] w).
Proof.
  intros Hl Hj. destruct (tempJSON_written_as_json name) as [Hjson Himg].
  assert (Hd : diskData (tempJSON name) di false = Some (Str (getJSON di true false)))
    by (unfold diskData; rewrite Hjson; reflexivity).
  assert (Hf : falsy (Some (Str (getJSON di true false))) = false)
    by (destruct (getJSON di true false); [congruence|reflexivity]).
  rewrite (writeDisk_written _ _ _ _ _ _ _ (or_intror eq_refl) Hl Hd Hf).
  unfold written, writtenMode. rewrite Himg. reflexivity.
Qed.

(** A comparison that answers true has read both files and printed
    nothing. *)
Lemma compareDisks_true_silent (sDisk1 sDisk2 : string) (w : world) :
  fst (compareDisks sDisk1 sDisk2 w) = Ok true ->
  compareDisks sDisk1 sDisk2 w = (Ok true, w) /\ is_Some (disk w !! sDisk1).
Proof.
  unfold compareDisks, bind.
  destruct (readFile_cases sDisk1 w) as [[Hu1 [ds1 ->]]|(b1 & m1 & Hs1 & Hd1 & ->)].
  - cbv iota beta.
    destruct (readFile sDisk2 None (printed ds1 w)) as [[r|e] w2]; simpl; discriminate.
  - cbv iota beta.
    destruct (readFile_cases sDisk2 w) as [[Hu2 [ds2 ->]]|(b2 & m2 & Hs2 & Hd2 & ->)].
    + simpl. discriminate.
    + simpl. unfold ret. simpl. intros Hc. injection Hc as Hc. rewrite Hc.
      split; [reflexivity|]. rewrite Hd1. eexists. reflexivity.
Qed.

(** X20: the archive check on a ".img" archive whose rebuilt binary compares
    equal: no warning is printed, both temporaries are removed, and the
    store is otherwise as before, except that with [--rebuild] the canonical
    JSON now holds the rebuilt JSON text with the creation mode. Whatever
    was stored under the two temporary names before the check is lost. *)
Theorem verified_archive_settles_temporaries (argv : Argv.t) (diskette : Diskette.t)
    (sFile sArchiveFile command name : string) (diArchive : DI) (w : world) :
  let sTempJSON := tempJSON name in
  let sTempIMG := tempIMG sTempJSON in
  let di1 := setArgs diArchive
               (command +:+ " --output " +:+ sTempJSON +:+ Diskette.options diskette) in
  let w1 := snd (writeDisk sTempJSON di1 false 0 true w) in
  let di2 := snd (buildDiskFromJSON di1 (getJSON di1 false false)) in
  let w2 := snd (writeDisk sTempIMG di2 false 0 true w1) in
  let rebuilt := mkFsFile (Some (utf8Encode (getJSON di1 true false)))
                          (Z.land mode666 (Z.lnot (umask w))) in
  JS.endsWith sArchiveFile ".img" = true ->
  sTempJSON ∉ locked w -> sTempIMG ∉ locked w -> sFile ∉ locked w ->
  sTempJSON <> sTempIMG ->
  getJSON di1 true false <> [] ->
  fst (compareDisks sTempIMG sArchiveFile w2) = Ok true ->
  exists w',
    verifyArchive argv diskette sFile sArchiveFile command name diArchive w = (Ok tt, w') /\
    console w' = console w2 /\
    disk w' = if Argv.rebuild argv
              then <[sFile := rebuilt]> (delete sTempJSON (delete sTempIMG (disk w)))
              else delete sTempJSON (delete sTempIMG (disk w)).
Proof.
  intros sTempJSON sTempIMG di1 w1 di2 w2 rebuilt Himg HlJ HlI HlF Hne Hjson Hcmp.
  destruct (compareDisks_true_silent _ _ _ Hcmp) as [Hsame [fI HfI]].
  assert (Hw1 : w1 = withDisk (<[sTempJSON := rebuilt]> (disk w))
                       (printed [DWriting sTempJSON] w))
    by (apply writeDisk_tempJSON; assumption).
  assert (Hl2 : locked w2 = locked w).
  { unfold w2, w1. rewrite !writeDisk_keeps_locks. reflexivity. }
  assert (HJ2 : disk w2 !! sTempJSON = Some rebuilt).
  { unfold w2. rewrite writeDisk_frame by exact Hne. rewrite Hw1. simpl.
    apply lookup_insert_eq. }
  assert (Hrest : delete sTempJSON (delete sTempIMG (disk w2)) =
                  delete sTempJSON (delete sTempIMG (disk w))).
  { apply map_eq. intros p.
    destruct (decide (p = sTempJSON)) as [->|HpJ]; [rewrite !lookup_delete_eq; reflexivity|].
    rewrite !(lookup_delete_ne _ sTempJSON p) by congruence.
    destruct (decide (p = sTempIMG)) as [->|HpI]; [rewrite !lookup_delete_eq; reflexivity|].
    rewrite !(lookup_delete_ne _ sTempIMG p) by congruence.
    unfold w2. rewrite writeDisk_frame by exact HpI.
    unfold w1. rewrite writeDisk_frame by exact HpJ. reflexivity. }
  set (w3 := withDisk (delete sTempIMG (disk w2)) w2).
  assert (Hrun : compareRebuilt sArchiveFile sTempJSON di1 w1 = (Ok false, w3)).
  { unfold compareRebuilt. rewrite Himg. cbv zeta. fold di2. fold sTempIMG.
    unfold bind at 1. rewrite (writeDisk_returns sTempIMG di2 false 0 true w1). fold w2.
    cbv iota beta. unfold bind at 1. rewrite Hsame. cbv iota beta.
    unfold bind. change (negb true) with false. cbv iota beta.
    rewrite (unlinkSync_free sTempIMG fI w2);
      [reflexivity|rewrite Hl2; apply bool_decide_eq_false_2; exact HlI|exact HfI]. }
  assert (Hlocks : bool_decide (sTempJSON ∈ locked w3) = false /\
                   bool_decide (sFile ∈ locked w3) = false).
  { change (locked w3) with (locked w2). rewrite Hl2.
    split; apply bool_decide_eq_false_2; assumption. }
  assert (HJ3 : disk w3 !! sTempJSON = Some rebuilt).
  { change (disk w3) with (delete sTempIMG (disk w2)).
    rewrite lookup_delete_ne by congruence. exact HJ2. }
  assert (Hverify : verifyArchive argv diskette sFile sArchiveFile command name diArchive w =
                    settleTempJSON argv false sTempJSON sFile w3).
  { unfold verifyArchive. fold sTempJSON. cbv zeta. fold di1. unfold bind at 1.
    rewrite (writeDisk_returns sTempJSON di1 false 0 true w). fold w1. cbv iota beta.
    unfold bind. rewrite Hrun. reflexivity. }
  rewrite Hverify. unfold settleTempJSON. change (negb false) with true. cbv iota.
  destruct Hlocks as [HbJ HbF].
  destruct (Argv.rebuild argv).
  - unfold renameSync, frozen. rewrite HbJ, HbF, HJ3. simpl. eexists. split; [reflexivity|].
    split; [reflexivity|]. simpl. rewrite Hrest. reflexivity.
  - rewrite (unlinkSync_free sTempJSON rebuilt w3 HbJ HJ3). eexists.
    split; [reflexivity|]. split; [reflexivity|]. simpl. exact Hrest.
Qed.

(** X21: an archive that is not a ".img" file (a folder, a ".psi" file) is
    never compared: with [--rebuild] the canonical JSON is replaced by the
    JSON of whatever was read, without any check, and without it the
    temporary JSON is removed again; nothing but the writing of the
    temporary JSON is printed. *)
Theorem other_archives_promoted_unchecked (argv : Argv.t) (diskette : Diskette.t)
    (sFile sArchiveFile command name : string) (diArchive : DI) (w : world) :
  let sTempJSON := tempJSON name in
  let di1 := setArgs diArchive
               (command +:+ " --output " +:+ sTempJSON +:+ Diskette.options diskette) in
  let rebuilt := mkFsFile (Some (utf8Encode (getJSON di1 true false)))
                          (Z.land mode666 (Z.lnot (umask w))) in
  JS.endsWith sArchiveFile ".img" = false ->
  sTempJSON ∉ locked w -> sFile ∉ locked w ->
  getJSON di1 true false <> [] ->
  exists w',
    verifyArchive argv diskette sFile sArchiveFile command name diArchive w = (Ok tt, w') /\
    console w' = console w ++ [DWriting sTempJSON] /\
    disk w' = if Argv.rebuild argv
              then <[sFile := rebuilt]> (delete sTempJSON (disk w))
              else delete sTempJSON (disk w).
Proof.
  intros sTempJSON di1 rebuilt Himg HlJ HlF Hjson.
  set (w1 := snd (writeDisk sTempJSON di1 false 0 true w)).
  assert (Hw1 : w1 = withDisk (<[sTempJSON := rebuilt]> (disk w))
                       (printed [DWriting sTempJSON] w))
    by (apply writeDisk_tempJSON; assumption).
  assert (Hverify : verifyArchive argv diskette sFile sArchiveFile command name diArchive w =
                    settleTempJSON argv false sTempJSON sFile w1).
  { unfold verifyArchive. fold sTempJSON. cbv zeta. fold di1. unfold bind at 1.
    rewrite (writeDisk_returns sTempJSON di1 false 0 true w). fold w1. cbv iota beta.
    unfold bind, compareRebuilt. rewrite Himg. reflexivity. }
  assert (HbJ : bool_decide (sTempJSON ∈ locked w1) = false)
    by (rewrite Hw1; apply bool_decide_eq_false_2; exact HlJ).
  assert (HbF : bool_decide (sFile ∈ locked w1) = false)
    by (rewrite Hw1; apply bool_decide_eq_false_2; exact HlF).
  assert (HJ1 : disk w1 !! sTempJSON = Some rebuilt)
    by (rewrite Hw1; simpl; apply lookup_insert_eq).
  rewrite Hverify. unfold settleTempJSON. change (negb false) with true. cbv iota.
  destruct (Argv.rebuild argv).
  - unfold renameSync, frozen. rewrite HbJ, HbF, HJ1. simpl. eexists. split; [reflexivity|].
    rewrite Hw1. simpl. split; [reflexivity|]. rewrite delete_insert_eq. reflexivity.
  - rewrite (unlinkSync_free sTempJSON rebuilt w1 HbJ HJ1). eexists.
    split; [reflexivity|]. rewrite Hw1. simpl. split; [reflexivity|].
    apply delete_insert_eq.
Qed.


End ArchiveSettled.

(** The archive of four bytes of the sample store, checked with
    [--rebuild]: the rebuilt binary compares equal, the temporaries are gone
    and the canonical JSON holds the rebuilt text. *)
Lemma verified_archive_settles_temporaries_witness :
  let w := Sample.storeWorld Sample.soundStore in
  let di := Sample.mkImage (Sample.ascii "abcd") "" in
  ("disk.json"%string ∉ locked w) /\ ("disk.img"%string ∉ locked w) /\
  (Sample.sJSON ∉ locked w) /\
  exists w',
    @verifyArchive Sample.runtime _ Sample.imageClass (Sample.argvCheck true) Sample.diskette0
      Sample.sJSON Sample.sArchive "--disk disk.img" "disk.img" di w = (Ok tt, w') /\
    console w' = [DWriting "disk.json"; DWriting "disk.img"] /\
    disk w' !! Sample.sJSON = Some (mkFsFile (Some (Sample.ascii "abcd")) 0x1a4) /\
    disk w' !! "disk.json"%string = None /\ disk w' !! "disk.img"%string = None.
Proof.
  cbv zeta.
  assert (HlJ : "disk.json"%string ∉ locked (Sample.storeWorld Sample.soundStore))
    by (simpl; apply not_elem_of_empty).
  assert (HlI : "disk.img"%string ∉ locked (Sample.storeWorld Sample.soundStore))
    by (simpl; apply not_elem_of_empty).
  assert (HlF : Sample.sJSON ∉ locked (Sample.storeWorld Sample.soundStore))
    by (simpl; apply not_elem_of_empty).
  split; [exact HlJ|]. split; [exact HlI|]. split; [exact HlF|].
  destruct (@verified_archive_settles_temporaries Sample.runtime _ Sample.imageClass
              (Sample.argvCheck true) Sample.diskette0 Sample.sJSON Sample.sArchive
              "--disk disk.img" "disk.img" (Sample.mkImage (Sample.ascii "abcd") "")
              (Sample.storeWorld Sample.soundStore) eq_refl HlJ HlI HlF
              ltac:(vm_compute; discriminate) ltac:(vm_compute; discriminate)
              ltac:(vm_compute; reflexivity))
    as (w' & Hrun & Hcon & Hdisk).
  exists w'. split; [exact Hrun|]. split; [rewrite Hcon; vm_compute; reflexivity|].
  rewrite Hdisk. repeat split; vm_compute; reflexivity.
Defined.

(** An archived folder, checked with [--rebuild]: the canonical JSON is
    replaced although nothing was compared. *)
Lemma other_archives_promoted_unchecked_witness :
  let w := Sample.storeWorld Sample.soundStore in
  JS.endsWith "/pcjs/disks/archive/disk/" ".img" = false /\
  exists w',
    @verifyArchive Sample.runtime _ Sample.imageClass (Sample.argvCheck true) Sample.diskette0
      Sample.sJSON "/pcjs/disks/archive/disk/" "--dir disk" "disk" Sample.image3 w
      = (Ok tt, w') /\
    console w' = [DWriting "disk.json"] /\
    disk w' !! Sample.sJSON = Some (mkFsFile (Some (Sample.ascii "abc")) 0x1a4) /\
    disk w' !! "disk.json"%string = None.
Proof.
  cbv zeta. split; [reflexivity|].
  destruct (@other_archives_promoted_unchecked Sample.runtime _ Sample.imageClass
              (Sample.argvCheck true) Sample.diskette0 Sample.sJSON
              "/pcjs/disks/archive/disk/" "--dir disk" "disk" Sample.image3
              (Sample.storeWorld Sample.soundStore) eq_refl
              ltac:(simpl; apply not_elem_of_empty) ltac:(simpl; apply not_elem_of_empty)
              ltac:(vm_compute; discriminate))
    as (w' & Hrun & Hcon & Hdisk).
  exists w'. split; [exact Hrun|]. split; [rewrite Hcon; reflexivity|].
  rewrite Hdisk. split; vm_compute; reflexivity.
Defined.


(** ** The further properties on concrete runs *)

Lemma isTextFile_suffix_any_case_witness :
  (JS.plain ".Md" = true /\ In (JS.upperASCII ".Md") asTextFileExts) /\
  @isTextFile Sample.runtime "/d/ReadMe.Md" = true /\
  exists front ext, "NOTES.txt"%string = front +:+ ext /\ JS.plain ext = true /\
                    In (JS.upperASCII ext) asTextFileExts.
Proof.
  assert (Hin : In (JS.upperASCII ".Md") asTextFileExts) by (vm_compute; tauto).
  split; [split; [reflexivity|exact Hin]|]. split.
  - exact (proj1 (@isTextFile_suffix_any_case Sample.runtime "/d/ReadMe") ".Md"%string
             eq_refl Hin).
  - exact (proj1 (proj2 (@isTextFile_suffix_any_case Sample.runtime "NOTES.txt"))
             eq_refl eq_refl).
Defined.

(** [readFile] on the readable canonical JSON of the sample store and on
    the archived binary that cannot be read. *)
Lemma readFile_outcomes_witness :
  @readFile Sample.runtime Sample.sJSON None (Sample.storeWorld Sample.soundStore) =
    (Ok (Some (Buf (Sample.ascii "old"))), Sample.storeWorld Sample.soundStore) /\
  @readFile Sample.runtime Sample.sArchive (Some utf8) (Sample.storeWorld Sample.lostStore) =
    (Ok None, printed [DError "EACCES"] (Sample.storeWorld Sample.lostStore)).
Proof.
  split.
  - exact (proj2 (proj2 (proj2 (@readFile_outcomes Sample.runtime Sample.sJSON None
                                  (Sample.storeWorld Sample.soundStore))))
             (Sample.ascii "old") 0x1a4 ltac:(discriminate) ltac:(vm_compute; reflexivity)).
  - exact (proj1 (proj2 (proj2 (@readFile_outcomes Sample.runtime Sample.sArchive (Some utf8)
                                  (Sample.storeWorld Sample.lostStore))))
             0x124 ltac:(discriminate) ltac:(vm_compute; reflexivity)).
Defined.


(** [readJSON] on the canonical JSON of the sample store and on a path
    where nothing is stored. *)
Lemma readJSON_outcomes_witness :
  @readJSON Sample.runtime _ sampleJSON Sample.sJSON (Sample.storeWorld Sample.soundStore) =
    (Ok (Some [111; 108; 100]), Sample.storeWorld Sample.soundStore) /\
  exists message,
    @readJSON Sample.runtime _ sampleJSON "/nope" (Sample.storeWorld Sample.soundStore) =
    (Ok None, printed [DError message] (Sample.storeWorld Sample.soundStore)).
Proof.
  split.
  - exact (proj1 (@readJSON_outcomes Sample.runtime _ sampleJSON Sample.sJSON
                    (Sample.storeWorld Sample.soundStore))
             (Sample.ascii "old") 0x1a4 [111; 108; 100]
             ltac:(vm_compute; reflexivity) ltac:(vm_compute; reflexivity)).
  - apply (proj1 (proj2 (proj2 (@readJSON_outcomes Sample.runtime _ sampleJSON "/nope"
                                  (Sample.storeWorld Sample.soundStore))))).
    left. vm_compute. reflexivity.
Defined.

(** [readDisk] on the archived binary that cannot be read. *)
Lemma readDisk_outcomes_witness :
  cannotRead (Sample.storeWorld Sample.lostStore) Sample.sArchive /\
  exists message,
    @readDisk Sample.runtime _ Sample.imageClass Sample.sArchive false None None None
      (Sample.storeWorld Sample.lostStore) =
    (Ok None, printed [DError message] (Sample.storeWorld Sample.lostStore)).
Proof.
  assert (Hc : cannotRead (Sample.storeWorld Sample.lostStore) Sample.sArchive)
    by (right; exists 0x124; vm_compute; reflexivity).
  split; [exact Hc|].
  exact (proj1 (@readDisk_outcomes Sample.runtime _ Sample.imageClass Sample.sArchive false
                  None None None (Sample.storeWorld Sample.lostStore)) Hc).
Defined.

(** [writeDisk] with the overwrite flag on the canonical JSON of the sample
    store, where no room is left: the file is lost. *)
Lemma writeDisk_overwrite_not_atomic_witness :
  let w := Sample.fullWorld Sample.soundStore in
  let w' := snd (@writeDisk Sample.runtime _ Sample.imageClass Sample.sJSON Sample.image3
                   false 0 true w) in
  noRoom w Sample.sJSON = true /\
  disk w !! Sample.sJSON = Some (mkFsFile (Some (Sample.ascii "old")) 0x1a4) /\
  disk w' !! Sample.sJSON = None /\
  console w' = [DWriting Sample.sJSON; DError "ENOSPC"].
Proof.
  cbv zeta.
  assert (Hn : noRoom (Sample.fullWorld Sample.soundStore) Sample.sJSON = true).
  { unfold noRoom. simpl. rewrite !bool_decide_eq_true_2 by (apply elem_of_singleton; reflexivity).
    reflexivity. }
  split; [exact Hn|]. split; [vm_compute; reflexivity|].
  destruct (@writeDisk_overwrite_not_atomic Sample.runtime _ Sample.imageClass Sample.sJSON
              Sample.image3 false 0 true (Sample.fullWorld Sample.soundStore))
    as (w' & Hrun & _ & _ & Hlost).
  rewrite Hrun. simpl snd.
  destruct (proj1 (Hlost (Str [97; 98; 99]) eq_refl eq_refl (or_intror eq_refl)) Hn)
    as [Hdisk Hcon].
  split; [rewrite Hdisk; apply lookup_delete_eq|exact Hcon].
Defined.

(** The archived binary of the sample store compared with itself. *)
Lemma compareDisks_symmetric_witness :
  @compareDisks Sample.runtime Sample.sArchive Sample.sArchive
    (Sample.storeWorld Sample.soundStore) = (Ok true, Sample.storeWorld Sample.soundStore).
Proof.
  exact (proj2 (proj2 (@compareDisks_symmetric Sample.runtime Sample.sArchive Sample.sJSON
                         (Sample.storeWorld Sample.soundStore)))
           (Sample.ascii "abcd") 0x124 ltac:(discriminate) ltac:(vm_compute; reflexivity)).
Defined.

(** The directory of three files ingested with a budget of -1. *)
Lemma budget_edge_values_witness :
  fst (@readDir_files Sample.runtime "/d" false (Some "none"%string) (Some (-1))
         (Sample.worldAt 0 Sample.flatDir)) = Ok [].
Proof.
  rewrite (proj1 (@budget_edge_values Sample.runtime "/d" false (Some "none"%string)
                    (Sample.worldAt 0 Sample.flatDir))
             (-1) 1 [("a"%string, Sample.file "x"); ("b"%string, Sample.file "y");
                     ("c"%string, Sample.file "z")] ltac:(lia) eq_refl).
  reflexivity.
Defined.

(** [readDir] on a directory that does not exist. *)
Lemma readDir_never_throws_witness :
  @readDir Sample.runtime _ Sample.imageClass "/nope" false None None None (Sample.world0 7) =
  (Ok None, printed [DError "ENOENT"] (budgeted 256 (Sample.world0 7))).
Proof.
  exact (proj1 (proj2 (proj2 (@readDir_never_throws Sample.runtime _ Sample.imageClass "/nope"
                                false None None None (Sample.world0 7))))
           ltac:(vm_compute; reflexivity)).
Defined.
